(** * Synapse QNet: the QKD protocol simulation engine

    A shallow embedding of [synapse-qnet/src/protocols/bb84.py] (the
    prepare-and-measure protocol with decoy states) and of
    [synapse-qnet/src/protocols/e91.py] (the entanglement-based protocol
    with a CHSH Bell test), of their [main] functions and of the protocol
    commands of [synapse-qnet/synapse_cli.py], followed by the properties
    of the engine and of these callers.

    Conventions of the embedding.
    - A Python [float] is an exact rational ([Q]); rounding is not
      modelled.  The transcendental functions the code calls ([10 ** x],
      [np.log2], [math.cos (math.radians d)]) have no rational model and
      are the operations of the class [PyMath], with the few laws the
      proofs use.  The transmission formula is also studied over the real
      numbers, where [10 ** x] is [Rpower 10 x] (module [Fiber]).
    - Python's module-level generator [random] is an explicit state of an
      abstract type with the four entry points the code uses (class
      [PyRandom]); what the library documents of them is the class
      [PyRandomLaws], assumed only where a statement says so.
      [TapeRandom] and [PercentRandom] are concrete generators, the second
      within the contract.
    - A method that writes attributes of [self] returns the new object; a
      method that can raise returns a [PyResult].
    - [print] is not modelled, except that an argument whose evaluation
      raises (a division by [len(...)] that is zero, a subscript of an
      absent key of a result dictionary) raises in the model too.  Writing
      a file is modelled by what is written; its failure is not. *)

From Stdlib Require Import ZArith QArith Qround Qabs Qpower Reals String Lia Psatz.
From stdpp Require Import base option list gmap.

#[local] Open Scope Q_scope.

(** ** Python values *)

(** The exceptions the two modules can raise. *)
Inductive PyExn : Type :=
| ZeroDivisionError
| ValueError
| IndexError.

(** A computation that returns a value or raises. *)
Definition PyResult (A : Type) : Type := (PyExn + A)%type.

Definition Ok {A : Type} (a : A) : PyResult A := inr a.
Definition Raise {A : Type} (e : PyExn) : PyResult A := inl e.

#[global] Instance PyResult_ret : MRet PyResult := fun A a => inr a.
#[global] Instance PyResult_bind : MBind PyResult := fun A B f m =>
  match m with
  | inl e => inl e
  | inr a => f a
  end.

(** [x < y] on floats. *)
Definition Qltb (x y : Q) : bool := negb (Qle_bool y x).

(** [x == 0.0] on floats. *)
Definition Qis_zero (x : Q) : bool := Qeq_bool x 0.

(** [int(x)]: truncation toward zero. *)
Definition py_int (x : Q) : Z := Z.quot (Qnum x) (Zpos (Qden x)).

(** [max(a, b)] and [min(a, b)] on floats: the first argument wins a tie. *)
Definition py_max (a b : Q) : Q := if Qltb a b then b else a.
Definition py_min (a b : Q) : Q := if Qltb b a then b else a.

(** [len(l)] as an integer and as a float operand. *)
Definition len {A : Type} (l : list A) : Z := Z.of_nat (length l).
Definition flen {A : Type} (l : list A) : Q := inject_Z (len l).

(** [l[:k]] for an integer [k >= 0]. *)
Definition slice_to {A : Type} (k : Z) (l : list A) : list A := take (Z.to_nat k) l.

(** ** The random module *)

(** Python's [random] module, as far as the engine calls it.  [G] is the
    generator's state. *)
Class PyRandom (G : Type) : Type := {
  (** [random.random()] *)
  random_random : G -> Q * G;
  (** [random.randint(a, b)] *)
  random_randint : Z -> Z -> G -> Z * G;
  (** [random.choice(seq)] on a non-empty list of integers *)
  random_choice : list Z -> G -> Z * G;
  (** [random.sample(range(n), k)] for [0 <= k <= n] *)
  random_sample : nat -> nat -> G -> list nat * G
}.

(** The contract of the [random] module that the engine relies on:
    [random()] is in [[0, 1)], [randint(a, b)] in [[a, b]], [choice(seq)] an
    element of [seq], and [sample(range(n), k)] a list of [k] distinct
    elements of [range(n)]. *)
Class PyRandomLaws (G : Type) `{PyRandom G} : Prop := {
  random_random_unit : forall g : G,
    0 <= fst (random_random g) /\ fst (random_random g) < 1;
  random_randint_range : forall (a b : Z) (g : G),
    (a <= b)%Z -> (a <= fst (random_randint a b g) <= b)%Z;
  random_choice_elem : forall (l : list Z) (g : G),
    l <> [] -> fst (random_choice l g) ∈ l;
  random_sample_distinct : forall (n k : nat) (g : G),
    (k <= n)%nat ->
    length (fst (random_sample n k g)) = k
    /\ NoDup (fst (random_sample n k g))
    /\ Forall (fun i => (i < n)%nat) (fst (random_sample n k g))
}.

(** ** The floating-point library functions *)

Class PyMath : Type := {
  (** [10 ** x] *)
  pow10 : Q -> Q;
  (** [np.log2(x)] *)
  np_log2 : Q -> Q;
  (** [math.cos(math.radians(d))] for a difference [d] of integer angles *)
  cos_radians : Z -> Q;
  (** [10 ** x] is never negative, is [1.0] at [0], and does not decrease *)
  pow10_nonneg : forall x : Q, 0 <= pow10 x;
  pow10_0 : pow10 0 == 1;
  pow10_mono : forall x y : Q, x <= y -> pow10 x <= pow10 y;
  (** [np.log2(2) == 1.0] *)
  np_log2_2 : np_log2 2 == 1;
  (** the cosines of 0 and 45 degrees are positive *)
  cos_radians_0 : 0 < cos_radians 0;
  cos_radians_45 : 0 < cos_radians 45
}.

(** ** bb84.py *)

Module BB84.

Inductive Basis : Type := RECTILINEAR | DIAGONAL.
Inductive Bit : Type := ZERO | ONE.

#[global] Instance Basis_eq_dec : EqDecision Basis.
Proof. solve_decision. Defined.
#[global] Instance Bit_eq_dec : EqDecision Bit.
Proof. solve_decision. Defined.

Record Photon : Type := mkPhoton {
  bit : Bit;
  basis : Basis;
  is_decoy : bool;
  intensity : Q
}.

(** [Detection]; [det_bit] is the attribute [bit] (an [Optional[Bit]]) and
    [det_basis] the attribute [basis]. *)
Record Detection : Type := mkDetection {
  det_bit : option Bit;
  det_basis : Basis;
  detected : bool;
  dark_count : bool;
  timestamp : Q
}.

Record ChannelParameters : Type := mkChannel {
  loss_db_per_km : Q;
  distance_km : Q;
  depolarization_rate : Q;
  detector_efficiency : Q;
  dark_count_rate : Q;
  timing_jitter_ns : Q
}.

Record BB84Parameters : Type := mkParams {
  pulse_rate_hz : Q;
  duration_seconds : Q;
  basis_choice_prob : Q;
  decoy_state_prob : Q;
  weak_intensity : Q;
  decoy_intensity : Q;
  error_correction_efficiency : Q;
  privacy_amplification_factor : Q;
  qber_threshold : Q
}.

(** The dataclass defaults. *)
Definition default_channel : ChannelParameters :=
  mkChannel 0.2 50 0.001 0.8 1e-6 100.
Definition default_params : BB84Parameters :=
  mkParams 1e9 1 0.5 0.5 0.2 0.1 1.2 2 0.11.

(** The attributes of a [BB84Protocol] object. *)
Record BB84Protocol : Type := mkBB84 {
  params : BB84Parameters;
  channel : ChannelParameters;
  alice_bits : list Bit;
  alice_bases : list Basis;
  alice_intensities : list Q;
  bob_measurements : list Detection;
  sifted_key : list Bit;
  error_rate : Q;
  final_key : list Bit;
  transmission_prob : Q
}.

(** Attribute assignments. *)
Definition set_alice (bs : list Bit) (bas : list Basis) (ins : list Q)
    (self : BB84Protocol) : BB84Protocol :=
  mkBB84 (params self) (channel self) bs bas ins (bob_measurements self)
         (sifted_key self) (error_rate self) (final_key self) (transmission_prob self).
Definition set_bob_measurements (ds : list Detection) (self : BB84Protocol) : BB84Protocol :=
  mkBB84 (params self) (channel self) (alice_bits self) (alice_bases self)
         (alice_intensities self) ds
         (sifted_key self) (error_rate self) (final_key self) (transmission_prob self).
Definition set_sifted_key (k : list Bit) (self : BB84Protocol) : BB84Protocol :=
  mkBB84 (params self) (channel self) (alice_bits self) (alice_bases self)
         (alice_intensities self) (bob_measurements self)
         k (error_rate self) (final_key self) (transmission_prob self).
Definition set_error_rate (q : Q) (self : BB84Protocol) : BB84Protocol :=
  mkBB84 (params self) (channel self) (alice_bits self) (alice_bases self)
         (alice_intensities self) (bob_measurements self)
         (sifted_key self) q (final_key self) (transmission_prob self).
Definition set_final_key (k : list Bit) (self : BB84Protocol) : BB84Protocol :=
  mkBB84 (params self) (channel self) (alice_bits self) (alice_bases self)
         (alice_intensities self) (bob_measurements self)
         (sifted_key self) (error_rate self) k (transmission_prob self).
Definition set_transmission_prob (q : Q) (self : BB84Protocol) : BB84Protocol :=
  mkBB84 (params self) (channel self) (alice_bits self) (alice_bases self)
         (alice_intensities self) (bob_measurements self)
         (sifted_key self) (error_rate self) (final_key self) q.

(** The dictionary [security_analysis] returns: its six keys are always set. *)
Record Metrics : Type := mkMetrics {
  qber : Q;
  secure : bool;
  estimated_eve_information : Q;
  transmission_distance_km : Q;
  raw_key_rate_bps : Q;
  secure_key_rate_bps : Q
}.

(** The value under the key ["error"]; the formatted message
    [f"QBER {qber:.4f} exceeds threshold {...}"] keeps its two numbers. *)
Inductive Failure : Type :=
| NoSiftedKey
| QberExceedsThreshold (q threshold : Q).

(** The dictionary [run_protocol] returns; [None] is an absent key. *)
Record ProtocolResult : Type := mkResult {
  error : option Failure;
  success : bool;
  final_key_bits : option Z;
  metrics : option Metrics;
  key_rate_bps : option Q;
  efficiency : option Q
}.

Section Protocol.
Context {G : Type} `{PyRandom G} `{PyMath}.

Definition _calculate_transmission (self : BB84Protocol) : Q :=
  let loss_linear :=
    pow10 (- loss_db_per_km (channel self) * distance_km (channel self) / 10) in
  loss_linear * detector_efficiency (channel self).

Definition __init__ (params : BB84Parameters) (channel : ChannelParameters) : BB84Protocol :=
  let self := mkBB84 params channel [] [] [] [] [] 0 [] 0 in
  set_transmission_prob (_calculate_transmission self) self.

Definition _generate_random_basis (self : BB84Protocol) (g : G) : Basis * G :=
  let '(r, g) := random_random g in
  (if Qltb r (basis_choice_prob (params self)) then RECTILINEAR else DIAGONAL, g).

Definition _generate_random_bit (g : G) : Bit * G :=
  let '(r, g) := random_random g in
  (if Qltb r 0.5 then ZERO else ONE, g).

Definition _choose_intensity (self : BB84Protocol) (g : G) : (Q * bool) * G :=
  let '(rand, g) := random_random g in
  if Qltb rand (decoy_state_prob (params self) / 2) then
    ((decoy_intensity (params self), true), g)
  else if Qltb rand (decoy_state_prob (params self)) then
    ((weak_intensity (params self), true), g)
  else ((1, false), g).

(** The body of [for _ in range(num_pulses)], [n] iterations left. *)
Fixpoint alice_prepare_loop (n : nat) (photons : list Photon)
    (self : BB84Protocol) (g : G) : list Photon * BB84Protocol * G :=
  match n with
  | O => (photons, self, g)
  | S n' =>
    let '(bit, g) := _generate_random_bit g in
    let '(basis, g) := _generate_random_basis self g in
    let '((intensity, is_decoy), g) := _choose_intensity self g in
    let photon := mkPhoton bit basis is_decoy intensity in
    alice_prepare_loop n' (photons ++ [photon])
      (set_alice (alice_bits self ++ [bit]) (alice_bases self ++ [basis])
                 (alice_intensities self ++ [intensity]) self) g
  end.

Definition alice_prepare (self : BB84Protocol) (g : G) : list Photon * BB84Protocol * G :=
  let num_pulses :=
    py_int (pulse_rate_hz (params self) * duration_seconds (params self)) in
  alice_prepare_loop (Z.to_nat num_pulses) [] self g.

Definition flip (b : Basis) : Basis :=
  if bool_decide (b = RECTILINEAR) then DIAGONAL else RECTILINEAR.

(** The loop of [quantum_channel].  A depolarised photon has its [basis]
    overwritten in place; the caller's list [photons] shares the object,
    and [run_protocol] reads only its length afterwards. *)
Fixpoint quantum_channel_loop (self : BB84Protocol) (photons : list Photon)
    (received_photons : list (option Photon)) (g : G) : list (option Photon) * G :=
  match photons with
  | [] => (received_photons, g)
  | photon :: rest =>
    let trans_prob := transmission_prob self * intensity photon in
    let '(r, g) := random_random g in
    if Qltb r trans_prob then
      let '(r', g) := random_random g in
      let photon :=
        if Qltb r' (depolarization_rate (channel self)) then
          mkPhoton (bit photon) (flip (basis photon)) (is_decoy photon) (intensity photon)
        else photon in
      quantum_channel_loop self rest (received_photons ++ [Some photon]) g
    else
      quantum_channel_loop self rest (received_photons ++ [None]) g
  end.

(** [quantum_channel]; the report line divides by [len(photons)]. *)
Definition quantum_channel (self : BB84Protocol) (photons : list Photon) (g : G)
    : PyResult (list (option Photon) * G) :=
  let '(received_photons, g) := quantum_channel_loop self photons [] g in
  if (len photons =? 0)%Z then Raise ZeroDivisionError
  else Ok (received_photons, g).

(** The loop of [bob_measure]: [n] is [len(photons)] of the whole list and
    [i] the index of [enumerate]. *)
Fixpoint bob_measure_loop (n : Z) (i : Z) (photons : list (option Photon))
    (detections : list Detection) (self : BB84Protocol) (g : G)
    : list Detection * BB84Protocol * G :=
  match photons with
  | [] => (detections, self, g)
  | photon :: rest =>
    let '(basis0, g) := _generate_random_basis self g in
    let '(detection, g) :=
      match photon with
      | None =>
        let '(r, g) := random_random g in
        if Qltb r (dark_count_rate (channel self) * duration_seconds (params self)
                   / inject_Z n) then
          let '(bit0, g) := _generate_random_bit g in
          (mkDetection (Some bit0) basis0 true true
             (inject_Z i * duration_seconds (params self) / inject_Z n), g)
        else (mkDetection None basis0 false false 0, g)
      | Some photon =>
        let '(bit0, g) :=
          if bool_decide (basis photon = basis0) then (bit photon, g)
          else _generate_random_bit g in
        (mkDetection (Some bit0) basis0 true false
           (inject_Z i * duration_seconds (params self) / inject_Z n), g)
      end in
    bob_measure_loop n (i + 1)%Z rest (detections ++ [detection])
      (set_bob_measurements (bob_measurements self ++ [detection]) self) g
  end.

Definition bob_measure (self : BB84Protocol) (photons : list (option Photon)) (g : G)
    : list Detection * BB84Protocol * G :=
  bob_measure_loop (len photons) 0 photons [] self g.

(** The loop of [basis_reconciliation] over
    [enumerate(zip(self.alice_bases, self.bob_measurements))];
    [self.alice_bits[i]] raises when [i] is out of range. *)
Fixpoint basis_reconciliation_loop (self : BB84Protocol) (i : nat)
    (pairs : list (Basis * Detection))
    (alice_sifted : list Bit) (bob_sifted : list (option Bit))
    : PyResult (list Bit * list (option Bit)) :=
  match pairs with
  | [] => Ok (alice_sifted, bob_sifted)
  | (alice_basis, detection) :: rest =>
    if detected detection && bool_decide (alice_basis = det_basis detection) then
      if negb (bool_decide (i < length (alice_intensities self))%nat
               && Qltb (nth i (alice_intensities self) 0) 1) then
        match alice_bits self !! i with
        | Some b =>
          basis_reconciliation_loop self (S i) rest
            (alice_sifted ++ [b]) (bob_sifted ++ [det_bit detection])
        | None => Raise IndexError
        end
      else basis_reconciliation_loop self (S i) rest alice_sifted bob_sifted
    else basis_reconciliation_loop self (S i) rest alice_sifted bob_sifted
  end.

Definition basis_reconciliation (self : BB84Protocol)
    : PyResult (list Bit * list (option Bit) * BB84Protocol) :=
  '(alice_sifted, bob_sifted) ←
    basis_reconciliation_loop self 0 (zip (alice_bases self) (bob_measurements self)) [] [];
  Ok (alice_sifted, bob_sifted, set_sifted_key alice_sifted self).

(** [a != b] for Alice's bit [a] and Bob's recorded [b]. *)
Definition differ (ab : Bit * option Bit) : bool :=
  negb (bool_decide (Some (fst ab) = snd ab)).

Definition error_estimation (self : BB84Protocol)
    (alice_sifted : list Bit) (bob_sifted : list (option Bit)) : Q * BB84Protocol :=
  if negb (len alice_sifted =? len bob_sifted)%Z || (len alice_sifted =? 0)%Z then
    (1, self)
  else
    let errors := len (filter (fun ab => differ ab = true) (zip alice_sifted bob_sifted)) in
    let self := set_error_rate (inject_Z errors / flen alice_sifted) self in
    (error_rate self, self).

(** [h2 = lambda x: -x*log2(x) - (1-x)*log2(1-x) if 0 < x < 1 else 0]. *)
Definition h2 (x : Q) : Q :=
  if Qltb 0 x && Qltb x 1 then - x * np_log2 x - (1 - x) * np_log2 (1 - x) else 0.

(** [security_analysis]; the raw key rate divides by the duration. *)
Definition security_analysis (self : BB84Protocol) : PyResult Metrics :=
  let secure0 := Qltb (error_rate self) (qber_threshold (params self)) in
  let eve :=
    if Qltb 0 (error_rate self) then py_min 1 (2 * error_rate self) else 0 in
  if Qis_zero (duration_seconds (params self)) then Raise ZeroDivisionError else
  let raw := flen (sifted_key self) / duration_seconds (params self) in
  let rate :=
    if secure0 then
      let secure_fraction :=
        py_max 0 (1 - error_correction_efficiency (params self) * h2 (error_rate self)
                  - h2 (error_rate self)) in
      raw * secure_fraction
    else 0 in
  Ok (mkMetrics (error_rate self) secure0 eve (distance_km (channel self)) raw rate).

Definition error_correction {A B : Type} (self : BB84Protocol)
    (alice_key : list A) (bob_key : list B) : list A * list B :=
  if negb (len alice_key =? len bob_key)%Z then (alice_key, bob_key)
  else
    let info_leaked :=
      py_int (error_correction_efficiency (params self) * flen alice_key
              * error_rate self * np_log2 2) in
    let key_length := Z.max 0 (len alice_key - info_leaked) in
    (slice_to key_length alice_key, slice_to key_length bob_key).

Definition privacy_amplification (self : BB84Protocol) (key : list Bit)
    : list Bit * BB84Protocol :=
  if (len key =? 0)%Z then ([], self)
  else
    let eve_info :=
      Z.min (len key)
            (py_int (flen key * error_rate self
                     * privacy_amplification_factor (params self))) in
    let final_length := Z.max 0 (len key - eve_info) in
    let final_key0 := slice_to final_length key in
    (final_key0, set_final_key final_key0 self).

Definition run_protocol (self : BB84Protocol) (g : G)
    : PyResult (ProtocolResult * BB84Protocol * G) :=
  (* Step 1: Alice prepares states *)
  let '(photons, self, g) := alice_prepare self g in
  (* Step 2: Quantum transmission *)
  '(received_photons, g) ← quantum_channel self photons g;
  (* Step 3: Bob measures *)
  let '(detections, self, g) := bob_measure self received_photons g in
  (* Step 4: Basis reconciliation *)
  '(alice_sifted, bob_sifted, self) ← basis_reconciliation self;
  if (len alice_sifted =? 0)%Z then
    Ok (mkResult (Some NoSiftedKey) false None None None None, self, g)
  else
  (* Step 5: Error estimation *)
  let '(qber0, self) := error_estimation self alice_sifted bob_sifted in
  (* Step 6: Security check *)
  security_metrics ← security_analysis self;
  if negb (secure security_metrics) then
    Ok (mkResult (Some (QberExceedsThreshold qber0 (qber_threshold (params self))))
                 false None (Some security_metrics) None None, self, g)
  else
  (* Step 7: Error correction *)
  let '(alice_corrected, bob_corrected) :=
    error_correction self alice_sifted bob_sifted in
  (* Step 8: Privacy amplification *)
  let '(final_key0, self) := privacy_amplification self alice_corrected in
  Ok (mkResult None true (Some (len final_key0)) (Some security_metrics)
        (Some (secure_key_rate_bps security_metrics))
        (Some (if (len photons =? 0)%Z then 0 else flen final_key0 / flen photons)),
      self, g).

End Protocol.

End BB84.

(** ** e91.py *)

Module E91.

(** [EntangledPair]. *)
Record EntangledPair : Type := mkPair {
  state : string;
  creation_time : Q;
  fidelity : Q
}.

(** [Measurement]; the angles the protocol draws are the integers of
    [random.choice([0, 45, 90])] and [random.choice([45, 90, 135])]. *)
Record Measurement : Type := mkMeasurement {
  basis_angle : Z;
  result : Z;
  timestamp : Q;
  detected : bool
}.

Record E91Parameters : Type := mkParams {
  pair_generation_rate_hz : Q;
  duration_seconds : Q;
  detection_efficiency : Q;
  dark_count_rate : Q;
  bell_test_fraction : Q;
  timing_window_ns : Q;
  bell_violation_threshold : Q;
  error_correction_efficiency : Q;
  privacy_amplification_factor : Q
}.

Record ChannelParameters : Type := mkChannel {
  loss_db_per_km : Q;
  alice_distance_km : Q;
  bob_distance_km : Q;
  depolarization_rate : Q;
  timing_jitter_ns : Q
}.

(** The dataclass defaults. *)
Definition default_params : E91Parameters :=
  mkParams 1e6 1 0.8 1e-6 0.1 1 2 1.2 2.
Definition default_channel : ChannelParameters :=
  mkChannel 0.2 25 25 0.001 100.

Abbreviation Coincidence := (Measurement * Measurement)%type (only parsing).

(** The attributes of an [E91Protocol] object. *)
Record E91Protocol : Type := mkE91 {
  params : E91Parameters;
  channel : ChannelParameters;
  alice_measurements : list Measurement;
  bob_measurements : list Measurement;
  bell_test_pairs : list Coincidence;
  key_pairs : list Coincidence;
  bell_parameter : Q;
  sifted_key : list Z;
  final_key : list Z;
  alice_transmission : Q;
  bob_transmission : Q
}.

(** Attribute assignments. *)
Definition set_alice_measurements (ms : list Measurement) (self : E91Protocol) : E91Protocol :=
  mkE91 (params self) (channel self) ms (bob_measurements self)
        (bell_test_pairs self) (key_pairs self) (bell_parameter self)
        (sifted_key self) (final_key self) (alice_transmission self) (bob_transmission self).
Definition set_bob_measurements (ms : list Measurement) (self : E91Protocol) : E91Protocol :=
  mkE91 (params self) (channel self) (alice_measurements self) ms
        (bell_test_pairs self) (key_pairs self) (bell_parameter self)
        (sifted_key self) (final_key self) (alice_transmission self) (bob_transmission self).
Definition set_pairs (bell key : list Coincidence) (self : E91Protocol) : E91Protocol :=
  mkE91 (params self) (channel self) (alice_measurements self) (bob_measurements self)
        bell key (bell_parameter self)
        (sifted_key self) (final_key self) (alice_transmission self) (bob_transmission self).
Definition set_bell_parameter (s : Q) (self : E91Protocol) : E91Protocol :=
  mkE91 (params self) (channel self) (alice_measurements self) (bob_measurements self)
        (bell_test_pairs self) (key_pairs self) s
        (sifted_key self) (final_key self) (alice_transmission self) (bob_transmission self).
Definition set_sifted_key (k : list Z) (self : E91Protocol) : E91Protocol :=
  mkE91 (params self) (channel self) (alice_measurements self) (bob_measurements self)
        (bell_test_pairs self) (key_pairs self) (bell_parameter self)
        k (final_key self) (alice_transmission self) (bob_transmission self).
Definition set_final_key (k : list Z) (self : E91Protocol) : E91Protocol :=
  mkE91 (params self) (channel self) (alice_measurements self) (bob_measurements self)
        (bell_test_pairs self) (key_pairs self) (bell_parameter self)
        (sifted_key self) k (alice_transmission self) (bob_transmission self).
Definition set_transmissions (a b : Q) (self : E91Protocol) : E91Protocol :=
  mkE91 (params self) (channel self) (alice_measurements self) (bob_measurements self)
        (bell_test_pairs self) (key_pairs self) (bell_parameter self)
        (sifted_key self) (final_key self) a b.

(** The dictionary [security_analysis] returns: its six keys are always set. *)
Record Metrics : Type := mkMetrics {
  m_bell_parameter : Q;
  qber : Q;
  secure : bool;
  eavesdropper_detected : bool;
  raw_key_rate_bps : Q;
  secure_key_rate_bps : Q
}.

(** The value under the key ["error"]. *)
Inductive Failure : Type :=
| NoCoincidentDetections
| NoKeyMaterial
| SecurityConditionsNotMet.

(** The dictionary [run_protocol] returns; [None] is an absent key. *)
Record ProtocolResult : Type := mkResult {
  error : option Failure;
  success : bool;
  final_key_bits : option Z;
  metrics : option Metrics;
  r_bell_parameter : option Q;
  efficiency : option Q
}.

Section Protocol.
Context {G : Type} `{PyRandom G} `{PyMath}.

Definition _calculate_transmission (self : E91Protocol) (distance_km : Q) : Q :=
  let loss_linear := pow10 (- loss_db_per_km (channel self) * distance_km / 10) in
  loss_linear * detection_efficiency (params self).

Definition __init__ (params : E91Parameters) (channel : ChannelParameters) : E91Protocol :=
  let self := mkE91 params channel [] [] [] [] 0 [] [] 0 0 in
  set_transmissions (_calculate_transmission self (alice_distance_km channel))
                    (_calculate_transmission self (bob_distance_km channel)) self.

(** The body of [for i in range(num_pairs)], [n] iterations left. *)
Fixpoint generate_entangled_pairs_loop (self : E91Protocol) (num_pairs : Z)
    (n : nat) (i : Z) (pairs : list EntangledPair) (g : G) : list EntangledPair * G :=
  match n with
  | O => (pairs, g)
  | S n' =>
    let '(r, g) := random_random g in
    let fidelity0 := 1 - r * depolarization_rate (channel self) in
    let pair0 :=
      mkPair "phi_plus"
             (inject_Z i * duration_seconds (params self) / inject_Z num_pairs)
             (py_max 0.5 fidelity0) in
    generate_entangled_pairs_loop self num_pairs n' (i + 1)%Z (pairs ++ [pair0]) g
  end.

Definition generate_entangled_pairs (self : E91Protocol) (g : G) : list EntangledPair * G :=
  let num_pairs :=
    py_int (pair_generation_rate_hz (params self) * duration_seconds (params self)) in
  generate_entangled_pairs_loop self num_pairs (Z.to_nat num_pairs) 0 [] g.

(** [_calculate_measurement_result]; every path returns an integer, the
    declared type is [Optional[int]]. *)
Definition _calculate_measurement_result (self : E91Protocol) (pair0 : EntangledPair)
    (angle : Z) (party : string) (g : G) : option Z * G :=
  let '(r, g) := random_random g in
  if Qltb 0.95 r then
    let '(b, g) := random_randint 0 1 g in (Some b, g)
  else if String.eqb (state pair0) "phi_plus" then
    let '(base_result, g) := random_randint 0 1 g in
    if bool_decide (angle = 0%Z) || bool_decide (angle = 90%Z) then (Some base_result, g)
    else if bool_decide (angle = 45%Z) then
      let '(r', g) := random_random g in
      (Some (if Qltb r' (fidelity pair0) then base_result else (1 - base_result)%Z), g)
    else if bool_decide (angle = 135%Z) then
      let '(r', g) := random_random g in
      (Some (if Qltb r' (fidelity pair0) then (1 - base_result)%Z else base_result), g)
    else
      let '(b, g) := random_randint 0 1 g in (Some b, g)
  else
    let '(b, g) := random_randint 0 1 g in (Some b, g).

(** The loop of [alice_measure]. *)
Fixpoint alice_measure_loop (pairs : list EntangledPair)
    (measurements : list (option Measurement)) (self : E91Protocol) (g : G)
    : list (option Measurement) * E91Protocol * G :=
  match pairs with
  | [] => (measurements, self, g)
  | pair0 :: rest =>
    let '(r, g) := random_random g in
    if Qltb (alice_transmission self) r then
      alice_measure_loop rest (measurements ++ [None]) self g
    else
      let '(basis_choice, g) := random_choice [0; 45; 90]%Z g in
      let '(result0, g) := _calculate_measurement_result self pair0 basis_choice "alice" g in
      match result0 with
      | Some res =>
        let measurement := mkMeasurement basis_choice res (creation_time pair0) true in
        alice_measure_loop rest (measurements ++ [Some measurement])
          (set_alice_measurements (alice_measurements self ++ [measurement]) self) g
      | None => alice_measure_loop rest (measurements ++ [None]) self g
      end
  end.

(** [alice_measure]; the report line divides by [len(pairs)]. *)
Definition alice_measure (self : E91Protocol) (pairs : list EntangledPair) (g : G)
    : PyResult (list (option Measurement) * E91Protocol * G) :=
  let '(measurements, self, g) := alice_measure_loop pairs [] self g in
  if (len pairs =? 0)%Z then Raise ZeroDivisionError
  else Ok (measurements, self, g).

(** The loop of [bob_measure]. *)
Fixpoint bob_measure_loop (pairs : list EntangledPair)
    (measurements : list (option Measurement)) (self : E91Protocol) (g : G)
    : list (option Measurement) * E91Protocol * G :=
  match pairs with
  | [] => (measurements, self, g)
  | pair0 :: rest =>
    let '(r, g) := random_random g in
    if Qltb (bob_transmission self) r then
      bob_measure_loop rest (measurements ++ [None]) self g
    else
      let '(basis_choice, g) := random_choice [45; 90; 135]%Z g in
      let '(result0, g) := _calculate_measurement_result self pair0 basis_choice "bob" g in
      match result0 with
      | Some res =>
        let measurement := mkMeasurement basis_choice res (creation_time pair0) true in
        bob_measure_loop rest (measurements ++ [Some measurement])
          (set_bob_measurements (bob_measurements self ++ [measurement]) self) g
      | None => bob_measure_loop rest (measurements ++ [None]) self g
      end
  end.

Definition bob_measure (self : E91Protocol) (pairs : list EntangledPair) (g : G)
    : PyResult (list (option Measurement) * E91Protocol * G) :=
  let '(measurements, self, g) := bob_measure_loop pairs [] self g in
  if (len pairs =? 0)%Z then Raise ZeroDivisionError
  else Ok (measurements, self, g).

(** The test of the loop of [coincidence_filtering] on one zipped pair. *)
Definition coincident (self : E91Protocol)
    (ab : option Measurement * option Measurement) : option Coincidence :=
  match ab with
  | (Some alice_m, Some bob_m) =>
    let time_diff := Qabs (timestamp alice_m - timestamp bob_m) in
    if Qle_bool time_diff (timing_window_ns (params self) * 1e-9)
    then Some (alice_m, bob_m) else None
  | _ => None
  end.

Definition coincidence_filtering (self : E91Protocol)
    (alice_measurements bob_measurements : list (option Measurement)) : list Coincidence :=
  omap (coincident self) (zip alice_measurements bob_measurements).

Definition _is_key_compatible (alice_angle bob_angle : Z) : bool :=
  let compatible_pairs := [(0, 45); (45, 90); (90, 135); (45, 45); (90, 90)]%Z in
  bool_decide ((alice_angle, bob_angle) ∈ compatible_pairs).

(** The loop of [basis_selection] over [enumerate(coincidences)]. *)
Fixpoint basis_selection_loop (bell_test_indices : list nat) (i : nat)
    (coincidences bell_test_pairs key_pairs : list Coincidence)
    : list Coincidence * list Coincidence :=
  match coincidences with
  | [] => (bell_test_pairs, key_pairs)
  | pair0 :: rest =>
    let '(alice_m, bob_m) := pair0 in
    if bool_decide (i ∈ bell_test_indices) then
      basis_selection_loop bell_test_indices (S i) rest (bell_test_pairs ++ [pair0]) key_pairs
    else if _is_key_compatible (basis_angle alice_m) (basis_angle bob_m) then
      basis_selection_loop bell_test_indices (S i) rest bell_test_pairs (key_pairs ++ [pair0])
    else
      basis_selection_loop bell_test_indices (S i) rest bell_test_pairs key_pairs
  end.

(** [basis_selection]; [random.sample] raises [ValueError] when the sample
    is larger than the population or negative. *)
Definition basis_selection (self : E91Protocol) (coincidences : list Coincidence) (g : G)
    : PyResult (list Coincidence * list Coincidence * E91Protocol * G) :=
  let num_bell_test := py_int (flen coincidences * bell_test_fraction (params self)) in
  if (num_bell_test <? 0)%Z || (len coincidences <? num_bell_test)%Z then Raise ValueError
  else
    let '(bell_test_indices, g) :=
      random_sample (length coincidences) (Z.to_nat num_bell_test) g in
    let '(bell_test_pairs, key_pairs) :=
      basis_selection_loop bell_test_indices 0 coincidences [] [] in
    Ok (bell_test_pairs, key_pairs, set_pairs bell_test_pairs key_pairs self, g).

(** The first loop of [bell_test]: the dictionary [correlations]. *)
Fixpoint correlations_loop (bell_pairs : list Coincidence)
    (correlations : gmap (Z * Z) (list Z)) : gmap (Z * Z) (list Z) :=
  match bell_pairs with
  | [] => correlations
  | (alice_m, bob_m) :: rest =>
    let key := (basis_angle alice_m, basis_angle bob_m) in
    let correlations :=
      match correlations !! key with
      | None => <[key := []]> correlations
      | Some _ => correlations
      end in
    let correlation := if bool_decide (result alice_m = result bob_m) then 1%Z else (-1)%Z in
    correlations_loop rest (alter (fun values => values ++ [correlation]) key correlations)
  end.

(** [sum(values) / len(values)]. *)
Definition average (values : list Z) : Q :=
  inject_Z (foldr Z.add 0%Z values) / flen values.

(** [bell_test]; the parameter is stored on [self] only when it is computed. *)
Definition bell_test (self : E91Protocol) (bell_pairs : list Coincidence) : Q * E91Protocol :=
  if (len bell_pairs <? 4)%Z then (0, self)
  else
    let correlations := correlations_loop bell_pairs ∅ in
    let avg_correlations : gmap (Z * Z) Q := average <$> correlations in
    let E_00_45 := default 0 (avg_correlations !! (0, 45)%Z) in
    let E_00_135 := default 0 (avg_correlations !! (0, 135)%Z) in
    let E_45_45 := default 0 (avg_correlations !! (45, 45)%Z) in
    let E_45_135 := default 0 (avg_correlations !! (45, 135)%Z) in
    let S := Qabs (E_00_45 - E_00_135 + E_45_45 + E_45_135) in
    (S, set_bell_parameter S self).

Definition key_sifting (self : E91Protocol) (key_pairs : list Coincidence)
    : list Z * E91Protocol :=
  let raw_key := map (fun p => result (fst p)) key_pairs in
  (raw_key, set_sifted_key raw_key self).

Definition _expected_correlation (alice_angle bob_angle : Z) : Q :=
  let angle_diff := Z.abs (alice_angle - bob_angle) in
  cos_radians angle_diff.

(** Whether the loop of [error_estimation] counts the pair as an error. *)
Definition is_error (p : Coincidence) : bool :=
  let '(alice_m, bob_m) := p in
  let expected_correlation :=
    _expected_correlation (basis_angle alice_m) (basis_angle bob_m) in
  if Qltb 0 expected_correlation then negb (bool_decide (result alice_m = result bob_m))
  else bool_decide (result alice_m = result bob_m).

Definition error_estimation (self : E91Protocol) (key_pairs : list Coincidence) : Q :=
  if (len key_pairs =? 0)%Z then 1
  else
    let errors := len (filter (fun p => is_error p = true) key_pairs) in
    let total := len key_pairs in
    if (0 <? total)%Z then inject_Z errors / inject_Z total else 1.

Definition h2 (x : Q) : Q :=
  if Qltb 0 x && Qltb x 1 then - x * np_log2 x - (1 - x) * np_log2 (1 - x) else 0.

(** [security_analysis]; the raw key rate divides by the duration. *)
Definition security_analysis (self : E91Protocol) (bell_parameter qber : Q)
    : PyResult Metrics :=
  let secure0 :=
    Qltb (bell_violation_threshold (params self)) bell_parameter && Qltb qber 0.11 in
  if Qis_zero (duration_seconds (params self)) then Raise ZeroDivisionError else
  let raw := flen (sifted_key self) / duration_seconds (params self) in
  let rate :=
    if secure0 then
      let secure_fraction :=
        py_max 0 (1 - error_correction_efficiency (params self) * h2 qber - h2 qber) in
      raw * secure_fraction
    else 0 in
  Ok (mkMetrics bell_parameter qber secure0 (Qltb bell_parameter 2) raw rate).

(** The two lengths of step 9 of [run_protocol]. *)
Definition corrected_length (raw_key : list Z) : Z :=
  Z.max 0 (py_int (flen raw_key * 0.8)).
Definition final_length (raw_key : list Z) : Z :=
  Z.max 0 (py_int (inject_Z (corrected_length raw_key) * 0.7)).

Definition run_protocol (self : E91Protocol) (g : G)
    : PyResult (ProtocolResult * E91Protocol * G) :=
  (* Step 1: Generate entangled pairs *)
  let '(pairs, g) := generate_entangled_pairs self g in
  (* Step 2: Alice and Bob measure *)
  '(alice_measurements, self, g) ← alice_measure self pairs g;
  '(bob_measurements, self, g) ← bob_measure self pairs g;
  (* Step 3: Find coincidences *)
  let coincidences := coincidence_filtering self alice_measurements bob_measurements in
  if (len coincidences =? 0)%Z then
    Ok (mkResult (Some NoCoincidentDetections) false None None None None, self, g)
  else
  (* Step 4: Separate for Bell test and key generation *)
  '(bell_pairs, key_pairs, self, g) ← basis_selection self coincidences g;
  (* Step 5: Bell test for security *)
  let '(bell_parameter, self) := bell_test self bell_pairs in
  (* Step 6: Key sifting *)
  let '(raw_key, self) := key_sifting self key_pairs in
  if (len raw_key =? 0)%Z then
    Ok (mkResult (Some NoKeyMaterial) false None None None None, self, g)
  else
  (* Step 7: Error estimation *)
  let qber := error_estimation self key_pairs in
  (* Step 8: Security analysis *)
  security_metrics ← security_analysis self bell_parameter qber;
  (* Step 9: Error correction and privacy amplification (simplified) *)
  if secure security_metrics then
    let self := set_final_key (slice_to (final_length raw_key) raw_key) self in
    Ok (mkResult None true (Some (len (final_key self))) (Some security_metrics)
          (Some bell_parameter)
          (Some (if (len pairs =? 0)%Z then 0 else flen (final_key self) / flen pairs)),
        self, g)
  else
    Ok (mkResult (Some SecurityConditionsNotMet) false None (Some security_metrics)
          (Some bell_parameter) None, self, g).

End Protocol.

End E91.

(** ** The callers: synapse_cli.py and the two [main] functions *)

Module CLI.

(** What a caller can see raised: an exception of the engine, or the
    [KeyError] of reading an absent key of the result dictionary. *)
Inductive Raised : Type :=
| Engine (e : PyExn)
| KeyError (key : string).

Definition Outcome (A : Type) : Type := (Raised + A)%type.

(** [result[key]] on a dictionary modelled as a record of optional keys. *)
Definition getitem {A : Type} (key : string) (value : option A) : Outcome A :=
  match value with
  | Some a => inr a
  | None => inl (KeyError key)
  end.

(** The truth value of [args.output]: [None] and the empty string are
    false. *)
Definition given (output : option string) : option string :=
  match output with
  | Some EmptyString => None
  | other => other
  end.

(** The namespace of [synapse protocol bb84]. *)
Record BB84Args : Type := mkBB84Args {
  distance : Q;
  duration : Q;
  pulse_rate : Q;
  loss : Q;
  efficiency : Q;
  output : option string
}.

(** The namespace of [synapse protocol e91]. *)
Record E91Args : Type := mkE91Args {
  alice_dist : Q;
  bob_dist : Q;
  e91_duration : Q;
  pair_rate : Q;
  e91_loss : Q;
  e91_efficiency : Q;
  e91_output : option string
}.

(** [args.protocol_type] with the namespace of the subcommand. *)
Inductive ProtocolArgs : Type :=
| bb84 (args : BB84Args)
| e91 (args : E91Args)
| no_protocol.

(** What a command leaves behind: its return value, the file
    [save_results] wrote (name and content), and the generator. *)
Record Done (R G : Type) : Type := mkDone {
  code : Z;
  saved : option (string * R);
  generator : G
}.
Arguments mkDone {R G} _ _ _.
Arguments code {R G} _.
Arguments saved {R G} _.
Arguments generator {R G} _.

Section Commands.
Context {G : Type} `{PyRandom G} `{PyMath}.

(** [run_bb84]: the parameters not set from [args] keep the dataclass
    defaults; the report reads three keys of a successful result. *)
Definition run_bb84 (args : BB84Args) (g : G) : Outcome (Done BB84.ProtocolResult G) :=
  let params :=
    BB84.mkParams (pulse_rate args) (duration args) 0.5 0.5 0.2 0.1 1.2 2 0.11 in
  let channel :=
    BB84.mkChannel (loss args) (distance args) 0.001 (efficiency args) 1e-6 100 in
  let bb84 := BB84.__init__ params channel in
  match BB84.run_protocol bb84 g with
  | inl e => inl (Engine e)
  | inr (result, _, g) =>
    let report :=
      if BB84.success result then
        match getitem "final_key_bits" (BB84.final_key_bits result) with
        | inl e => inl e
        | inr _ =>
          match getitem "key_rate_bps" (BB84.key_rate_bps result) with
          | inl e => inl e
          | inr _ =>
            match getitem "efficiency" (BB84.efficiency result) with
            | inl e => inl e
            | inr _ => inr tt
            end
          end
        end
      else inr tt in
    match report with
    | inl e => inl e
    | inr _ =>
      inr (mkDone (if BB84.success result then 0%Z else 1%Z)
                  (match given (output args) with
                   | Some filename => Some (filename, result)
                   | None => None
                   end) g)
    end
  end.

(** [run_e91]; a failure report reads ["bell_parameter"] only when the
    key is present. *)
Definition run_e91 (args : E91Args) (g : G) : Outcome (Done E91.ProtocolResult G) :=
  let params :=
    E91.mkParams (pair_rate args) (e91_duration args) (e91_efficiency args)
                 1e-6 0.1 1 2 1.2 2 in
  let channel :=
    E91.mkChannel (e91_loss args) (alice_dist args) (bob_dist args) 0.001 100 in
  let e91 := E91.__init__ params channel in
  match E91.run_protocol e91 g with
  | inl e => inl (Engine e)
  | inr (result, _, g) =>
    let report :=
      if E91.success result then
        match getitem "final_key_bits" (E91.final_key_bits result) with
        | inl e => inl e
        | inr _ =>
          match getitem "bell_parameter" (E91.r_bell_parameter result) with
          | inl e => inl e
          | inr _ =>
            match getitem "efficiency" (E91.efficiency result) with
            | inl e => inl e
            | inr _ => inr tt
            end
          end
        end
      else inr tt in
    match report with
    | inl e => inl e
    | inr _ =>
      inr (mkDone (if E91.success result then 0%Z else 1%Z)
                  (match given (e91_output args) with
                   | Some filename => Some (filename, result)
                   | None => None
                   end) g)
    end
  end.

(** [run_protocol] dispatches on the protocol type. *)
Definition run_protocol (args : ProtocolArgs) (g : G) : Outcome Z :=
  match args with
  | bb84 args =>
    match run_bb84 args g with
    | inl e => inl e
    | inr done => inr (code done)
    end
  | e91 args =>
    match run_e91 args g with
    | inl e => inl e
    | inr done => inr (code done)
    end
  | no_protocol => inr 1%Z
  end.

(** [main] on the command [synapse protocol ...]: the exit status;
    [except Exception] turns whatever the command raises into [1]. *)
Definition main (args : ProtocolArgs) (g : G) : Z :=
  match run_protocol args g with
  | inl _ => 1%Z
  | inr status => status
  end.

End Commands.

End CLI.

(** [main] of bb84.py: the demonstration run and its report. *)
Module BB84Demo.

Section Demo.
Context {G : Type} `{PyRandom G} `{PyMath}.

Definition main (g : G) : CLI.Outcome G :=
  let params := BB84.mkParams 1e6 0.1 0.5 0.5 0.2 0.1 1.2 2 0.11 in
  let channel := BB84.mkChannel 0.2 50 0.001 0.8 1e-6 100 in
  let bb84 := BB84.__init__ params channel in
  match BB84.run_protocol bb84 g with
  | inl e => inl (CLI.Engine e)
  | inr (result, _, g) =>
    let report :=
      if BB84.success result then
        match CLI.getitem "final_key_bits" (BB84.final_key_bits result) with
        | inl e => inl e
        | inr _ =>
          match CLI.getitem "key_rate_bps" (BB84.key_rate_bps result) with
          | inl e => inl e
          | inr _ =>
            match CLI.getitem "efficiency" (BB84.efficiency result) with
            | inl e => inl e
            | inr _ => inr tt
            end
          end
        end
      else
        match CLI.getitem "error" (BB84.error result) with
        | inl e => inl e
        | inr _ => inr tt
        end in
    match report with
    | inl e => inl e
    | inr _ => inr g
    end
  end.

End Demo.

End BB84Demo.

(** [main] of e91.py. *)
Module E91Demo.

Section Demo.
Context {G : Type} `{PyRandom G} `{PyMath}.

Definition main (g : G) : CLI.Outcome G :=
  let params := E91.mkParams 1e5 0.1 0.8 1e-6 0.2 1 2 1.2 2 in
  let channel := E91.mkChannel 0.2 25 25 0.001 100 in
  let e91 := E91.__init__ params channel in
  match E91.run_protocol e91 g with
  | inl e => inl (CLI.Engine e)
  | inr (result, _, g) =>
    let report :=
      if E91.success result then
        match CLI.getitem "final_key_bits" (E91.final_key_bits result) with
        | inl e => inl e
        | inr _ =>
          match CLI.getitem "bell_parameter" (E91.r_bell_parameter result) with
          | inl e => inl e
          | inr _ =>
            match CLI.getitem "efficiency" (E91.efficiency result) with
            | inl e => inl e
            | inr _ =>
              match CLI.getitem "metrics" (E91.metrics result) with
              | inl e => inl e
              | inr _ => inr tt
              end
            end
          end
        end
      else
        match CLI.getitem "error" (E91.error result) with
        | inl e => inl e
        | inr _ => inr tt
        end in
    match report with
    | inl e => inl e
    | inr _ => inr g
    end
  end.

End Demo.

End E91Demo.

(** ** The transmission formula over the real numbers

    [_calculate_transmission] of both classes computes
    [10 ** (-loss_db_per_km * distance_km / 10)] and multiplies it by the
    detector efficiency: [BB84] reads the three numbers from
    [self.channel], [E91] takes the distance as its argument and the
    efficiency from [self.params].  Here the floats are real numbers and
    [10 ** x] is [Rpower 10 x]. *)

Module Fiber.

#[local] Open Scope R_scope.

Definition _calculate_transmission (loss_db_per_km distance_km detector_efficiency : R) : R :=
  let loss_linear := Rpower 10 (- loss_db_per_km * distance_km / 10) in
  loss_linear * detector_efficiency.

End Fiber.

(** ** A concrete generator and concrete library functions

    [TapeRandom] reads its uniform draws off a list (and returns [0] once
    the list is read); [randint], [choice] and [sample] scale one draw
    each, [sample] without replacement. *)

Definition tape_random (g : list Q) : Q * list Q :=
  match g with
  | [] => (0, [])
  | u :: g' => (u, g')
  end.

Definition tape_randint (a b : Z) (g : list Q) : Z * list Q :=
  let '(u, g) := tape_random g in
  ((a + Qfloor (u * inject_Z (b - a + 1)))%Z, g).

Definition tape_choice (l : list Z) (g : list Q) : Z * list Q :=
  let '(u, g) := tape_random g in
  (nth (Z.to_nat (Qfloor (u * flen l))) l 0%Z, g).

Fixpoint tape_sample_loop (k : nat) (pool chosen : list nat) (g : list Q)
    : list nat * list Q :=
  match k with
  | O => (chosen, g)
  | S k' =>
    let '(u, g) := tape_random g in
    let j := Z.to_nat (Qfloor (u * flen pool)) in
    match pool !! j with
    | Some x => tape_sample_loop k' (delete j pool) (chosen ++ [x]) g
    | None => (chosen, g)
    end
  end.

Definition tape_sample (n k : nat) (g : list Q) : list nat * list Q :=
  tape_sample_loop k (seq 0 n) [] g.

#[global] Instance TapeRandom : PyRandom (list Q) := {
  random_random := tape_random;
  random_randint := tape_randint;
  random_choice := tape_choice;
  random_sample := tape_sample
}.

(** [PercentRandom] reads its draws off a list of hundredths, so that every
    draw is in [[0, 1)]; the other entry points scale one draw each. *)
Definition percent_random (g : list nat) : Q * list nat :=
  match g with
  | [] => (0, [])
  | n :: g' => (inject_Z (Z.of_nat (n mod 100)) / 100, g')
  end.

Definition percent_randint (a b : Z) (g : list nat) : Z * list nat :=
  let '(u, g) := percent_random g in
  ((a + Qfloor (u * inject_Z (b - a + 1)))%Z, g).

Definition percent_choice (l : list Z) (g : list nat) : Z * list nat :=
  let '(u, g) := percent_random g in
  (nth (Z.to_nat (Qfloor (u * flen l))) l 0%Z, g).

Fixpoint percent_sample_loop (k : nat) (pool chosen : list nat) (g : list nat)
    : list nat * list nat :=
  match k with
  | O => (chosen, g)
  | S k' =>
    let '(u, g) := percent_random g in
    let j := Z.to_nat (Qfloor (u * flen pool)) in
    match pool !! j with
    | Some x => percent_sample_loop k' (delete j pool) (chosen ++ [x]) g
    | None => (chosen, g)
    end
  end.

Definition percent_sample (n k : nat) (g : list nat) : list nat * list nat :=
  percent_sample_loop k (seq 0 n) [] g.

#[global] Instance PercentRandom : PyRandom (list nat) := {
  random_random := percent_random;
  random_randint := percent_randint;
  random_choice := percent_choice;
  random_sample := percent_sample
}.

(** [TableMath]: [10 ** x] and [np.log2] on the integer part of their
    argument (exact at the powers of ten and of two), and the cosine at the
    angle differences of the protocol, as CPython prints them. *)

Definition table_pow10 (x : Q) : Q := Qpower 10 (Qfloor x).

Definition table_log2 (x : Q) : Q := inject_Z (Z.log2 (Qfloor x)).

Definition table_cos (d : Z) : Q :=
  if (d =? 0)%Z then 1
  else if (d =? 45)%Z then 0.7071067811865476
  else if (d =? 90)%Z then 6.123233995736766e-17
  else if (d =? 135)%Z then - 0.7071067811865476
  else 0.

#[global, refine] Instance TableMath : PyMath := {
  pow10 := table_pow10;
  np_log2 := table_log2;
  cos_radians := table_cos
}.
Proof.
  - intros x. apply Qpower_0_le. discriminate.
  - reflexivity.
  - intros x y Hxy. apply Qpower_le_compat_l; [apply Qfloor_resp_le, Hxy | discriminate].
  - reflexivity.
  - reflexivity.
  - reflexivity.
Defined.

(** * Properties *)

(** One step of a run: the bind of a stage that returned. *)
Ltac bind_step := cbv beta iota delta [mbind PyResult_bind Ok].
Tactic Notation "bind_step" "in" hyp(H) :=
  cbv beta iota delta [mbind PyResult_bind Ok] in H.

(** ** Comparisons and truncation *)

Lemma Qltb_lt (x y : Q) : Qltb x y = true <-> x < y.
Proof.
  unfold Qltb. rewrite negb_true_iff, <- not_true_iff_false, Qle_bool_iff.
  split; [apply Qnot_le_lt | apply Qlt_not_le].
Qed.

Lemma Qltb_ge (x y : Q) : Qltb x y = false <-> y <= x.
Proof.
  unfold Qltb. rewrite negb_false_iff. apply Qle_bool_iff.
Qed.

Lemma Qis_zero_iff (x : Q) : Qis_zero x = true <-> x == 0.
Proof. apply Qeq_bool_iff. Qed.

(** On a non-negative float [int] is the floor. *)
Lemma py_int_floor (x : Q) : 0 <= x -> py_int x = Qfloor x.
Proof.
  destruct x as [n d]. unfold Qle, py_int, Qfloor. simpl. intros Hn.
  apply Z.quot_div_nonneg; lia.
Qed.

Lemma py_int_nonneg (x : Q) : 0 <= x -> (0 <= py_int x)%Z.
Proof.
  intros Hx. rewrite py_int_floor by exact Hx.
  change 0%Z with (Qfloor 0). apply Qfloor_resp_le, Hx.
Qed.

Lemma py_int_zero (x : Q) : x == 0 -> py_int x = 0%Z.
Proof.
  destruct x as [n d]. unfold Qeq, py_int. simpl. intros Hn.
  replace n with 0%Z by lia. reflexivity.
Qed.

Lemma Qscale_le (n f : Q) : 0 <= n -> 0 <= f -> f <= 1 -> n * f <= n.
Proof. intros. nra. Qed.

(** [int(n * f)] stays within [0 .. n] when [0 <= f <= 1]. *)
Lemma py_int_scale (n : Z) (f : Q) :
  (0 <= n)%Z -> 0 <= f -> f <= 1 -> (0 <= py_int (inject_Z n * f) <= n)%Z.
Proof.
  intros Hn H0 H1.
  assert (Hn' : 0 <= inject_Z n) by (change 0 with (inject_Z 0); rewrite <- Zle_Qle; exact Hn).
  assert (Hp : 0 <= inject_Z n * f) by (apply Qmult_le_0_compat; assumption).
  split; [apply py_int_nonneg, Hp|].
  rewrite py_int_floor by exact Hp.
  apply Z.le_trans with (Qfloor (inject_Z n)).
  - apply Qfloor_resp_le, Qscale_le; assumption.
  - rewrite Qfloor_Z. lia.
Qed.


(** A count out of a positive total is a fraction in [[0,1]]. *)
Lemma fraction_unit (e n : Z) :
  (0 <= e <= n)%Z -> (0 < n)%Z -> 0 <= inject_Z e / inject_Z n <= 1.
Proof.
  intros [He0 Hen] Hn.
  assert (Hn' : 0 < inject_Z n) by (change 0 with (inject_Z 0); rewrite <- Zlt_Qlt; exact Hn).
  split.
  - apply Qle_shift_div_l; [exact Hn'|]. rewrite Qmult_0_l.
    change 0 with (inject_Z 0). rewrite <- Zle_Qle. exact He0.
  - apply Qle_shift_div_r; [exact Hn'|]. rewrite Qmult_1_l.
    rewrite <- Zle_Qle. exact Hen.
Qed.

Lemma len_nonneg {A : Type} (l : list A) : (0 <= len l)%Z.
Proof. unfold len. lia. Qed.

Lemma len_zero {A : Type} (l : list A) : (len l =? 0)%Z = true <-> l = [].
Proof.
  unfold len. rewrite Z.eqb_eq. destruct l; simpl; split; intros; try done; lia.
Qed.

Lemma flen_nonneg {A : Type} (l : list A) : 0 <= flen l.
Proof.
  unfold flen. change 0 with (inject_Z 0). rewrite <- Zle_Qle. apply len_nonneg.
Qed.

Lemma slice_to_length {A : Type} (k : Z) (l : list A) :
  (length (slice_to k l) <= length l)%nat.
Proof. unfold slice_to. rewrite length_take. lia. Qed.

Lemma slice_to_len {A : Type} (k : Z) (l : list A) :
  (0 <= k <= len l)%Z -> len (slice_to k l) = k.
Proof. unfold slice_to, len. rewrite length_take. lia. Qed.


Lemma omap_length_le {A B : Type} (f : A -> option B) (l : list A) :
  (length (omap f l) <= length l)%nat.
Proof.
  induction l as [|x l IH]; simpl; [lia|].
  unfold omap in IH. destruct (f x); simpl; lia.
Qed.

Lemma Qabs_four (a b c d : Q) :
  -1 <= a /\ a <= 1 -> -1 <= b /\ b <= 1 -> -1 <= c /\ c <= 1 -> -1 <= d /\ d <= 1 ->
  Qabs (a - b + c + d) <= 4.
Proof.
  intros [] [] [] []. apply Qabs_Qle_condition. split; lra.
Qed.

Lemma Qmult_nonneg_nonpos (x y : Q) : 0 <= x -> y <= 0 -> x * y <= 0.
Proof. intros. nra. Qed.

Lemma Qmult_nonpos_nonneg (x y : Q) : x <= 0 -> 0 <= y -> x * y <= 0.
Proof. intros. nra. Qed.

(** [raw * max(0, 1 - ec * h - h)] for a non-negative entropy [h]. *)
Lemma secure_fraction_bound (raw ec h : Q) :
  0 <= raw -> 0 <= ec -> 0 <= h ->
  0 <= raw * py_max 0 (1 - ec * h - h) <= raw.
Proof.
  intros Hraw Hec Hh.
  assert (Hp : 0 <= ec * h) by (apply Qmult_le_0_compat; assumption).
  assert (Hf : 0 <= py_max 0 (1 - ec * h - h) <= 1).
  { unfold py_max. destruct (Qltb 0 _) eqn:Hf.
    - apply Qltb_lt in Hf. split; lra.
    - split; [apply Qle_refl | discriminate]. }
  destruct Hf as [Hf0 Hf1]. split.
  - apply Qmult_le_0_compat; assumption.
  - apply Qscale_le; assumption.
Qed.


(** The tabulated logarithm is [0] on (0, 1). *)
Lemma table_log2_unit (x : Q) : 0 < x -> x < 1 -> np_log2 x <= 0.
Proof.
  intros H0 H1. cbn [np_log2 TableMath]. unfold table_log2.
  assert (Hf : Qfloor x = 0%Z).
  { assert (Hlo : (0 <= Qfloor x)%Z).
    { change 0%Z with (Qfloor 0). apply Qfloor_resp_le, Qlt_le_weak, H0. }
    assert (Hhi : (Qfloor x < 1)%Z).
    { rewrite Zlt_Qlt. apply Qle_lt_trans with x; [apply Qfloor_le | exact H1]. }
    lia. }
  rewrite Hf. apply Qle_refl.
Qed.

(** ** The list generator keeps the contract of the random module *)

Lemma percent_random_unit (g : list nat) :
  0 <= fst (percent_random g) /\ fst (percent_random g) < 1.
Proof.
  destruct g as [|n g]; simpl; [split; [apply Qle_refl | reflexivity]|].
  pose proof (Nat.mod_upper_bound n 100 ltac:(lia)) as Hn.
  assert (H0 : (0 <= Z.of_nat (n mod 100) <= 100)%Z) by lia.
  split.
  - apply (fraction_unit _ 100 H0). lia.
  - apply Qlt_shift_div_r; [reflexivity|]. rewrite Qmult_1_l.
    change 100 with (inject_Z 100). rewrite <- Zlt_Qlt. lia.
Qed.

(** A draw scaled to [n] positions falls on one of them. *)
Lemma scaled_index (u : Q) (n : Z) :
  0 <= u -> u < 1 -> (0 < n)%Z -> (0 <= Qfloor (u * inject_Z n) < n)%Z.
Proof.
  intros H0 H1 Hn.
  assert (Hn' : 0 < inject_Z n) by (change 0 with (inject_Z 0); rewrite <- Zlt_Qlt; exact Hn).
  split.
  - change 0%Z with (Qfloor 0). apply Qfloor_resp_le. apply Qmult_le_0_compat; [exact H0|].
    apply Qlt_le_weak, Hn'.
  - apply Z.lt_nge. intros Hge.
    assert (Hle : inject_Z n <= u * inject_Z n).
    { apply Qle_trans with (inject_Z (Qfloor (u * inject_Z n))).
      - rewrite <- Zle_Qle. exact Hge.
      - apply Qfloor_le. }
    assert (Hlt : u * inject_Z n < 1 * inject_Z n) by (apply Qmult_lt_compat_r; assumption).
    rewrite Qmult_1_l in Hlt. apply (Qlt_not_le _ _ Hlt Hle).
Qed.

Lemma percent_sample_loop_distinct (n k : nat) (pool chosen : list nat) (g : list nat) :
  (k <= length pool)%nat -> NoDup (chosen ++ pool) ->
  Forall (fun i => (i < n)%nat) (chosen ++ pool) ->
  length (fst (percent_sample_loop k pool chosen g)) = (length chosen + k)%nat
  /\ NoDup (fst (percent_sample_loop k pool chosen g))
  /\ Forall (fun i => (i < n)%nat) (fst (percent_sample_loop k pool chosen g)).
Proof.
  revert pool chosen g. induction k as [|k IH]; intros pool chosen g Hk Hnd Hall.
  - simpl. rewrite Nat.add_0_r. split; [reflexivity|].
    split.
    + apply NoDup_app in Hnd. tauto.
    + apply Forall_app in Hall. tauto.
  - cbn [percent_sample_loop].
    destruct (percent_random g) as [u g1] eqn:Hu.
    pose proof (percent_random_unit g) as [H0 H1]. rewrite Hu in H0, H1. simpl in H0, H1.
    assert (Hj : (Z.to_nat (Qfloor (u * flen pool)) < length pool)%nat).
    { assert (Hn : (0 < len pool)%Z) by (unfold len; lia).
      pose proof (scaled_index u (len pool) H0 H1 Hn) as Hj.
      unfold flen. unfold len in *. lia. }
    destruct (lookup_lt_is_Some_2 _ _ Hj) as [x Hx]. rewrite Hx.
    set (j := Z.to_nat (Qfloor (u * flen pool))) in *.
    pose proof (take_drop_middle _ _ _ Hx) as Hmid.
    assert (Hperm : chosen ++ pool ≡ₚ (chosen ++ [x]) ++ delete j pool).
    { rewrite delete_take_drop, <- Hmid at 1. rewrite <- app_assoc. simpl.
      apply Permutation_app_head. symmetry. apply Permutation_middle. }
    destruct (IH (delete j pool) (chosen ++ [x]) g1) as (Hlen & Hnd' & Hall').
    + rewrite length_delete by (exists x; exact Hx). lia.
    + rewrite <- Hperm. exact Hnd.
    + rewrite <- Hperm. exact Hall.
    + rewrite length_app in Hlen. simpl in Hlen. split; [lia|]. split; assumption.
Qed.

#[global] Instance PercentRandomLaws : PyRandomLaws (list nat).
Proof.
  split.
  - apply percent_random_unit.
  - intros a b g Hab. cbn [random_randint PercentRandom]. unfold percent_randint.
    destruct (percent_random g) as [u g1] eqn:Hu.
    pose proof (percent_random_unit g) as [H0 H1]. rewrite Hu in H0, H1. simpl in H0, H1.
    assert (Hn : (0 < b - a + 1)%Z) by lia.
    pose proof (scaled_index u (b - a + 1)%Z H0 H1 Hn). cbn [fst]. lia.
  - intros l g Hl. cbn [random_choice PercentRandom]. unfold percent_choice.
    destruct (percent_random g) as [u g1] eqn:Hu.
    pose proof (percent_random_unit g) as [H0 H1]. rewrite Hu in H0, H1. simpl in H0, H1.
    assert (Hn : (0 < len l)%Z) by (unfold len; destruct l; [done | simpl; lia]).
    pose proof (scaled_index u (len l) H0 H1 Hn) as Hj. cbn [fst].
    apply list_elem_of_In, nth_In. unfold flen, len in *. lia.
  - intros n k g Hk. cbn [random_sample PercentRandom]. unfold percent_sample.
    destruct (percent_sample_loop_distinct n k (seq 0 n) [] g) as (Hlen & Hnd & Hall).
    + rewrite length_seq. exact Hk.
    + simpl. apply NoDup_seq.
    + simpl. apply Forall_seq. intros. lia.
    + simpl in Hlen. auto.
Qed.

(** ** The transmission probability (real-number model) *)

Section FiberFacts.
#[local] Open Scope R_scope.

Lemma ln_10_pos : 0 < ln 10.
Proof. rewrite <- ln_1. apply ln_increasing; lra. Qed.

(** [10 ** x] is positive, at most [1] for [x <= 0], and monotone. *)
Lemma Rpower_10_pos (x : R) : 0 < Rpower 10 x.
Proof. unfold Rpower. apply exp_pos. Qed.

Lemma Rpower_10_mono (x y : R) : x <= y -> Rpower 10 x <= Rpower 10 y.
Proof.
  intros Hxy. unfold Rpower.
  destruct (Req_dec x y) as [-> | Hne]; [lra|].
  left. apply exp_increasing. pose proof ln_10_pos. nra.
Qed.

Lemma Rpower_10_le_1 (x : R) : x <= 0 -> Rpower 10 x <= 1.
Proof.
  intros Hx. rewrite <- (Rpower_O 10) by lra. apply Rpower_10_mono, Hx.
Qed.

End FiberFacts.

(** ** The transmission probability (rational model) *)

Section Attenuation.
Context `{PyMath}.

Lemma exponent_nonpos (loss d : Q) : 0 <= loss -> 0 <= d -> - loss * d / 10 <= 0.
Proof.
  intros Hl Hd. assert (Hp : 0 <= loss * d) by (apply Qmult_le_0_compat; assumption).
  apply Qle_shift_div_r; [reflexivity|]. lra.
Qed.

Lemma exponent_mono (loss d1 d2 : Q) :
  0 <= loss -> d1 <= d2 -> - loss * d2 / 10 <= - loss * d1 / 10.
Proof.
  intros Hl Hd. apply Qmult_le_compat_r; [|discriminate].
  assert (Hp : 0 <= loss * (d2 - d1)) by (apply Qmult_le_0_compat; lra). lra.
Qed.

Lemma pow10_unit (x : Q) : x <= 0 -> 0 <= pow10 x <= 1.
Proof.
  intros Hx. split; [apply pow10_nonneg|].
  rewrite <- pow10_0. apply pow10_mono, Hx.
Qed.

Lemma pow10_at_zero (x : Q) : x == 0 -> pow10 x == 1.
Proof.
  intros Hx. rewrite <- pow10_0. apply Qle_antisym; apply pow10_mono; rewrite Hx;
    apply Qle_refl.
Qed.

(** The attenuated efficiency is a probability, and the efficiency itself
    over a distance of zero. *)
Lemma attenuation_unit (loss d eff : Q) :
  0 <= loss -> 0 <= d -> 0 <= eff -> eff <= 1 ->
  0 <= pow10 (- loss * d / 10) * eff <= 1.
Proof.
  intros Hl Hd He0 He1.
  destruct (pow10_unit (- loss * d / 10) (exponent_nonpos loss d Hl Hd)) as [Hp0 Hp1].
  split; [apply Qmult_le_0_compat; assumption|].
  apply Qle_trans with (1 * eff); [apply Qmult_le_compat_r; assumption | lra].
Qed.

Lemma attenuation_at_zero (loss d eff : Q) :
  d == 0 -> pow10 (- loss * d / 10) * eff == eff.
Proof.
  intros Hd. rewrite pow10_at_zero; [ring|]. rewrite Hd. unfold Qdiv. ring.
Qed.

Lemma attenuation_mono (loss eff d1 d2 : Q) :
  0 <= loss -> 0 <= eff -> d1 <= d2 ->
  pow10 (- loss * d2 / 10) * eff <= pow10 (- loss * d1 / 10) * eff.
Proof.
  intros Hl He Hd. apply Qmult_le_compat_r; [|exact He].
  apply pow10_mono, exponent_mono; assumption.
Qed.

End Attenuation.

(** ** bb84.py: the stages *)

Module BB84Facts.
Import BB84.

(** The object with its three result attributes replaced; everything a run
    reads before it writes is left as it is. *)
Definition with_results (k : list Bit) (e : Q) (f : list Bit) (self : BB84Protocol)
    : BB84Protocol :=
  mkBB84 (params self) (channel self) (alice_bits self) (alice_bases self)
         (alice_intensities self) (bob_measurements self) k e f (transmission_prob self).

(** Two objects agree when they differ at most in [sifted_key],
    [error_rate] and [final_key]. *)
Definition agree (s1 s2 : BB84Protocol) : Prop :=
  with_results [] 0 [] s1 = with_results [] 0 [] s2.

(** What a caller sees of a run: the returned dictionary (or the exception)
    and the generator. *)
Definition observe {G : Type} (x : PyResult (ProtocolResult * BB84Protocol * G))
    : PyResult (ProtocolResult * G) :=
  match x with
  | inl e => inl e
  | inr (r, _, g) => inr (r, g)
  end.

(** The number of positions at which Alice's and Bob's sifted bits
    disagree. *)
Fixpoint disagreements (alice_sifted : list Bit) (bob_sifted : list (option Bit)) : nat :=
  match alice_sifted, bob_sifted with
  | a :: alice_sifted', b :: bob_sifted' =>
    (if decide (Some a = b) then 0 else 1) + disagreements alice_sifted' bob_sifted'
  | _, _ => 0
  end.

(** Steps 1 to 4 of [run_protocol]: the run reaches the sifted keys
    [alice_sifted] and [bob_sifted] from [photons] prepared pulses. *)
Definition sifts `{PyRandom G} (self : BB84Protocol) (g : G)
    (photons : list Photon) (alice_sifted : list Bit) (bob_sifted : list (option Bit))
    (self' : BB84Protocol) (g' : G) : Prop :=
  exists self1 g1 received_photons g2 detections self2,
    alice_prepare self g = (photons, self1, g1)
    /\ quantum_channel self1 photons g1 = Ok (received_photons, g2)
    /\ bob_measure self1 received_photons g2 = (detections, self2, g')
    /\ basis_reconciliation self2 = Ok (alice_sifted, bob_sifted, self').

(** Steps 1 to 6 of [run_protocol]: the run reaches the security check,
    which computes [security_metrics]. *)
Definition checks `{PyRandom G} `{PyMath} (self : BB84Protocol) (g : G)
    (qber0 : Q) (security_metrics : Metrics) (self' : BB84Protocol) (g' : G) : Prop :=
  exists photons alice_sifted bob_sifted self4,
    sifts self g photons alice_sifted bob_sifted self4 g'
    /\ alice_sifted <> []
    /\ error_estimation self4 alice_sifted bob_sifted = (qber0, self')
    /\ security_analysis self' = Ok security_metrics.



Section Stages.
Context {G : Type} `{PyRandom G} `{PyMath}.

Lemma bb84_agree_with_results (s1 s2 : BB84Protocol) :
  agree s1 s2 ->
  s2 = with_results (sifted_key s2) (error_rate s2) (final_key s2) s1.
Proof.
  unfold agree, with_results. destruct s1, s2; simpl. intros Heq.
  injection Heq as -> -> -> -> -> -> ->. reflexivity.
Qed.

(** *** alice_prepare *)

Lemma bb84_alice_prepare_loop_spec (n : nat) (photons : list Photon)
    (self : BB84Protocol) (g : G) :
  exists new g',
    length new = n
    /\ alice_prepare_loop n photons self g =
       (photons ++ new,
        set_alice (alice_bits self ++ map bit new) (alice_bases self ++ map basis new)
                  (alice_intensities self ++ map intensity new) self,
        g').
Proof.
  revert photons self g. induction n as [|n IH]; intros photons self g.
  - exists [], g. split; [reflexivity|]. simpl. rewrite !app_nil_r.
    destruct self; reflexivity.
  - simpl. destruct (_generate_random_bit g) as [b g1].
    destruct (_generate_random_basis self g1) as [ba g2].
    destruct (_choose_intensity self g2) as [[i d] g3].
    destruct (IH (photons ++ [mkPhoton b ba d i])
                 (set_alice (alice_bits self ++ [b]) (alice_bases self ++ [ba])
                            (alice_intensities self ++ [i]) self) g3)
      as (new & g' & Hlen & Heq).
    exists (mkPhoton b ba d i :: new), g'. split; [simpl; lia|].
    rewrite Heq. simpl. rewrite <- !app_assoc. reflexivity.
Qed.


(** *** quantum_channel *)

Lemma bb84_quantum_channel_loop_length (self : BB84Protocol) (photons : list Photon)
    (received : list (option Photon)) (g : G) :
  length (fst (quantum_channel_loop self photons received g))
  = (length received + length photons)%nat.
Proof.
  revert received g. induction photons as [|p photons IH]; intros received g; simpl.
  - lia.
  - destruct (random_random g) as [r g1].
    destruct (Qltb r _).
    + destruct (random_random g1) as [r' g2]. rewrite IH, length_app. simpl. lia.
    + rewrite IH, length_app. simpl. lia.
Qed.

Lemma bb84_quantum_channel_length (self : BB84Protocol) (photons : list Photon) (g : G)
    (received : list (option Photon)) (g' : G) :
  quantum_channel self photons g = Ok (received, g') ->
  length received = length photons /\ photons <> [].
Proof.
  unfold quantum_channel. intros Hq.
  pose proof (bb84_quantum_channel_loop_length self photons [] g) as Hlen.
  destruct (quantum_channel_loop self photons [] g) as [rec g1].
  destruct (len photons =? 0)%Z eqn:Hz; [discriminate|].
  injection Hq as <- <-. simpl in Hlen. split; [exact Hlen|].
  intros ->. discriminate.
Qed.

Lemma bb84_quantum_channel_total (self : BB84Protocol) (photons : list Photon) (g : G) :
  photons <> [] -> exists received g', quantum_channel self photons g = Ok (received, g').
Proof.
  intros Hne. unfold quantum_channel.
  destruct (quantum_channel_loop self photons [] g) as [rec g1].
  destruct (len photons =? 0)%Z eqn:Hz; [apply len_zero in Hz; contradiction|].
  eauto.
Qed.


(** *** bob_measure *)

Lemma bb84_bob_measure_loop_spec (n i : Z) (photons : list (option Photon))
    (detections : list Detection) (self : BB84Protocol) (g : G) :
  exists new g',
    length new = length photons
    /\ bob_measure_loop n i photons detections self g =
       (detections ++ new,
        set_bob_measurements (bob_measurements self ++ new) self, g').
Proof.
  revert i detections self g.
  induction photons as [|p photons IH]; intros i detections self g.
  - exists [], g. split; [reflexivity|]. simpl. rewrite !app_nil_r.
    destruct self; reflexivity.
  - simpl. destruct (_generate_random_basis self g) as [ba g1].
    match goal with
    | |- context [let '(detection, g0) := ?X in _] => destruct X as [d g2]
    end.
    destruct (IH (i + 1)%Z (detections ++ [d])
                 (set_bob_measurements (bob_measurements self ++ [d]) self) g2)
      as (new & g' & Hlen & Heq).
    exists (d :: new), g'. split; [simpl; lia|].
    rewrite Heq. simpl. rewrite <- !app_assoc. reflexivity.
Qed.


(** *** basis_reconciliation *)

Lemma bb84_basis_reconciliation_loop_lengths (self : BB84Protocol) (i : nat)
    (pairs : list (Basis * Detection)) (a0 : list Bit) (b0 : list (option Bit))
    (a : list Bit) (b : list (option Bit)) :
  basis_reconciliation_loop self i pairs a0 b0 = Ok (a, b) ->
  exists k : nat,
    (k <= length pairs)%nat
    /\ length a = (length a0 + k)%nat /\ length b = (length b0 + k)%nat.
Proof.
  revert i a0 b0. induction pairs as [|[ab d] pairs IH]; intros i a0 b0; simpl.
  - intros [= <- <-]. exists 0%nat. lia.
  - destruct (detected d && bool_decide (ab = det_basis d)).
    + destruct (negb _).
      * destruct (alice_bits self !! i) as [x|]; [|discriminate].
        intros Hl. apply IH in Hl as (k & Hk & Ha & Hb).
        rewrite length_app in Ha, Hb. simpl in Ha, Hb.
        exists (S k). lia.
      * intros Hl. apply IH in Hl as (k & Hk & Ha & Hb). exists k. lia.
    + intros Hl. apply IH in Hl as (k & Hk & Ha & Hb). exists k. lia.
Qed.

Lemma bb84_basis_reconciliation_loop_total (self : BB84Protocol) (i : nat)
    (pairs : list (Basis * Detection)) (a0 : list Bit) (b0 : list (option Bit)) :
  (i + length pairs <= length (alice_bits self))%nat ->
  exists a b, basis_reconciliation_loop self i pairs a0 b0 = Ok (a, b).
Proof.
  revert i a0 b0. induction pairs as [|[ab d] pairs IH]; intros i a0 b0; simpl.
  - eauto.
  - intros Hi.
    destruct (detected d && bool_decide (ab = det_basis d)).
    + destruct (negb _).
      * destruct (lookup_lt_is_Some_2 (alice_bits self) i) as [x ->]; [lia|].
        apply IH. lia.
      * apply IH. lia.
    + apply IH. lia.
Qed.


(** The two sifted keys have one length, at most the number of recorded
    bases and of recorded measurements. *)
Lemma bb84_basis_reconciliation_lengths (self : BB84Protocol)
    (a : list Bit) (b : list (option Bit)) (self' : BB84Protocol) :
  basis_reconciliation self = Ok (a, b, self') ->
  length a = length b
  /\ (length a <= length (alice_bases self))%nat
  /\ (length a <= length (bob_measurements self))%nat
  /\ self' = set_sifted_key a self.
Proof.
  unfold basis_reconciliation. intros Hb.
  destruct (basis_reconciliation_loop self 0
              (zip (alice_bases self) (bob_measurements self)) [] [])
    as [ex|[a' b']] eqn:Hl; [discriminate|].
  simpl in Hb. injection Hb as <- <- <-.
  apply bb84_basis_reconciliation_loop_lengths in Hl as (k & Hk & Ha & Hb).
  rewrite length_zip_with in Hk. simpl in Ha, Hb.
  repeat split; lia.
Qed.

(** *** error_estimation *)

Lemma bb84_differ_count (a : list Bit) (b : list (option Bit)) :
  length (filter (fun ab => differ ab = true) (zip a b)) = disagreements a b.
Proof.
  revert b. induction a as [|x a IH]; intros [|y b]; try reflexivity.
  cbn [zip_with disagreements]. rewrite filter_cons.
  destruct (decide (differ (x, y) = true)) as [Hd|Hd];
    unfold differ in Hd; simpl in Hd;
    destruct (decide (Some x = y)) as [Heq|Hne].
  - rewrite bool_decide_true in Hd by exact Heq. discriminate.
  - simpl. f_equal. apply IH.
  - apply IH.
  - rewrite bool_decide_false in Hd by exact Hne. contradiction.
Qed.

Lemma bb84_disagreements_le (a : list Bit) (b : list (option Bit)) :
  (disagreements a b <= length a)%nat.
Proof.
  revert b. induction a as [|x a IH]; intros [|y b]; simpl; try lia.
  specialize (IH b). destruct (decide (Some x = y)); lia.
Qed.

Lemma bb84_disagreements_self (a : list Bit) : disagreements a (map Some a) = 0%nat.
Proof.
  induction a as [|x a IH]; simpl; [reflexivity|].
  destruct (decide (Some x = Some x)); [exact IH | contradiction].
Qed.

(** On sifted keys of one non-zero length the estimate is the number of
    disagreeing positions over the length, and it is stored on [self]. *)
Lemma bb84_error_estimation_counts (self : BB84Protocol)
    (a : list Bit) (b : list (option Bit)) :
  length a = length b -> a <> [] ->
  error_estimation self a b =
  (inject_Z (Z.of_nat (disagreements a b)) / flen a,
   set_error_rate (inject_Z (Z.of_nat (disagreements a b)) / flen a) self).
Proof.
  intros Hlen Hne. unfold error_estimation.
  replace (len a =? len b)%Z with true
    by (symmetry; apply Z.eqb_eq; unfold len; lia).
  destruct (len a =? 0)%Z eqn:Hz; [apply len_zero in Hz; contradiction|].
  simpl.
  assert (E : len (filter (fun ab => differ ab = true) (zip a b))
              = Z.of_nat (disagreements a b))
    by (unfold len; rewrite bb84_differ_count; reflexivity).
  rewrite E. reflexivity.
Qed.

Lemma bb84_error_estimation_guard (self : BB84Protocol)
    (a : list Bit) (b : list (option Bit)) :
  length a <> length b \/ a = [] -> error_estimation self a b = (1, self).
Proof.
  intros Hg. unfold error_estimation.
  destruct (negb (len a =? len b)%Z || (len a =? 0)%Z) eqn:Hc; [reflexivity|].
  apply orb_false_iff in Hc as [H1 H2]. apply negb_false_iff, Z.eqb_eq in H1.
  destruct Hg as [Hg| ->]; [unfold len in H1; lia | discriminate].
Qed.

Lemma bb84_error_estimation_unit (self : BB84Protocol)
    (a : list Bit) (b : list (option Bit)) :
  0 <= fst (error_estimation self a b) <= 1.
Proof.
  destruct (decide (length a = length b)) as [Hlen|Hlen];
    [destruct (decide (a = [])) as [Hnil|Hnil]|].
  - rewrite bb84_error_estimation_guard by (right; exact Hnil). simpl. split; discriminate.
  - rewrite bb84_error_estimation_counts by assumption. simpl.
    apply fraction_unit.
    + pose proof (bb84_disagreements_le a b). unfold len. lia.
    + unfold len. destruct a; [contradiction | simpl; lia].
  - rewrite bb84_error_estimation_guard by (left; exact Hlen). simpl. split; discriminate.
Qed.

(** *** security_analysis *)

Lemma bb84_security_analysis_verdict (self : BB84Protocol) (m : Metrics) :
  security_analysis self = Ok m ->
  qber m = error_rate self
  /\ secure m = Qltb (error_rate self) (qber_threshold (params self)).
Proof.
  unfold security_analysis.
  destruct (Qis_zero (duration_seconds (params self))); [discriminate|].
  intros [= <-]. split; reflexivity.
Qed.

Lemma bb84_security_analysis_total (self : BB84Protocol) :
  ~ duration_seconds (params self) == 0 -> exists m, security_analysis self = Ok m.
Proof.
  intros Hd. unfold security_analysis.
  destruct (Qis_zero (duration_seconds (params self))) eqn:Hz;
    [apply Qis_zero_iff in Hz; contradiction | eauto].
Qed.

(** A QBER at or above the threshold is never certified. *)
Lemma bb84_security_analysis_threshold (self : BB84Protocol) (m : Metrics) :
  security_analysis self = Ok m ->
  qber_threshold (params self) <= error_rate self -> secure m = false.
Proof.
  intros Hm Hq. apply bb84_security_analysis_verdict in Hm as [_ ->].
  apply Qltb_ge, Hq.
Qed.

(** *** error_correction and privacy_amplification *)

Lemma bb84_error_correction_shrinks {A B : Type} (self : BB84Protocol)
    (alice_key : list A) (bob_key : list B) :
  (length (fst (error_correction self alice_key bob_key)) <= length alice_key)%nat
  /\ (length (snd (error_correction self alice_key bob_key)) <= length bob_key)%nat.
Proof.
  unfold error_correction. destruct (negb _); simpl; [lia|].
  split; apply slice_to_length.
Qed.

Lemma bb84_privacy_amplification_shrinks (self : BB84Protocol) (key : list Bit) :
  (length (fst (privacy_amplification self key)) <= length key)%nat.
Proof.
  unfold privacy_amplification. destruct (len key =? 0)%Z; simpl; [lia|].
  apply slice_to_length.
Qed.




(** *** run_protocol *)

Lemma bb84_sifts_inv (self : BB84Protocol) (g : G) (photons : list Photon)
    (a : list Bit) (b : list (option Bit)) (self' : BB84Protocol) (g' : G) :
  sifts self g photons a b self' g' ->
  length a = length b
  /\ (length a <= length (alice_bases self) + length photons)%nat
  /\ photons <> []
  /\ exists bits bases ints dets,
       self' = with_results a (error_rate self) (final_key self)
                 (set_bob_measurements dets (set_alice bits bases ints self)).
Proof.
  intros (self1 & g1 & received & g2 & detections & self2 & Ha & Hq & Hb & Hr).
  unfold alice_prepare in Ha.
  destruct (bb84_alice_prepare_loop_spec
              (Z.to_nat (py_int (pulse_rate_hz (params self)
                                 * duration_seconds (params self)))) [] self g)
    as (new & g1' & Hnew & Hloop).
  rewrite Hloop in Ha. injection Ha as <- <- <-.
  apply bb84_quantum_channel_length in Hq as [Hrec Hne].
  unfold bob_measure in Hb.
  match type of Hb with
  | bob_measure_loop _ _ _ _ ?s _ = _ =>
    destruct (bb84_bob_measure_loop_spec (len received) 0 received [] s g2)
      as (dets & g3 & Hdets & Hloop')
  end.
  rewrite Hloop' in Hb. injection Hb as <- <- <-.
  apply bb84_basis_reconciliation_lengths in Hr as (Hab & Hbases & _ & ->).
  simpl in Hbases. rewrite length_app, length_map in Hbases.
  repeat split; [exact Hab | simpl in *; lia | exact Hne |].
  eexists _, _, _, _. reflexivity.
Qed.

Lemma bb84_checks_inv (self : BB84Protocol) (g : G) (q : Q) (m : Metrics)
    (self' : BB84Protocol) (g' : G) :
  checks self g q m self' g' ->
  final_key self' = final_key self /\ error_rate self' = q /\ qber m = q
  /\ 0 <= q <= 1.
Proof.
  intros (photons & a & b & self4 & Hs & Hne & He & Hm).
  apply bb84_sifts_inv in Hs as (Hab & _ & _ & bits & bases & ints & dets & ->).
  pose proof (bb84_error_estimation_unit
                (with_results a (error_rate self) (final_key self)
                   (set_bob_measurements dets (set_alice bits bases ints self))) a b)
    as Hunit.
  rewrite He in Hunit. simpl in Hunit.
  rewrite bb84_error_estimation_counts in He by assumption.
  injection He as Hq <-. simpl.
  apply bb84_security_analysis_verdict in Hm as [Hm _]. simpl in Hm.
  rewrite Hm, Hq. repeat split; tauto.
Qed.

(** A run whose security check fails returns the failure dictionary with
    the metrics of the check, no ["final_key_bits"], and leaves
    [self.final_key] as it was. *)
Lemma bb84_run_protocol_failed_check (self : BB84Protocol) (g : G) (q : Q) (m : Metrics)
    (self' : BB84Protocol) (g' : G) :
  checks self g q m self' g' -> secure m = false ->
  run_protocol self g =
    Ok (mkResult (Some (QberExceedsThreshold q (qber_threshold (params self'))))
                 false None (Some m) None None, self', g')
  /\ final_key self' = final_key self.
Proof.
  intros Hc Hsec. split; [|apply (bb84_checks_inv _ _ _ _ _ _ Hc)].
  destruct Hc as (photons & a & b & self4 & Hs & Hne & He & Hm).
  destruct Hs as (self1 & g1 & received & g2 & detections & self2 & Ha & Hq & Hb & Hr).
  unfold run_protocol. rewrite Ha, Hq. simpl. rewrite Hb, Hr. simpl.
  destruct (len a =? 0)%Z eqn:Hz; [apply len_zero in Hz; contradiction|].
  rewrite He, Hm. simpl. rewrite Hsec. reflexivity.
Qed.



(** On a freshly constructed object the pipeline shrinks: the sifted keys
    are no longer than the pulse train, and each post-processing step
    returns a prefix. *)
Lemma bb84_run_protocol_lengths (params : BB84Parameters) (channel : ChannelParameters)
    (g : G) (photons : list Photon) (a : list Bit) (b : list (option Bit))
    (self' : BB84Protocol) (g' : G) (self'' : BB84Protocol) :
  sifts (__init__ params channel) g photons a b self' g' ->
  let corrected := fst (error_correction self'' a b) in
  let final := fst (privacy_amplification self'' corrected) in
  (0 <= length a <= length photons)%nat
  /\ (0 <= length corrected <= length a)%nat
  /\ (0 <= length final <= length corrected)%nat.
Proof.
  intros Hs corrected final.
  apply bb84_sifts_inv in Hs as (_ & Hle & _). simpl in Hle.
  pose proof (bb84_error_correction_shrinks self'' a b) as [Hc _].
  pose proof (bb84_privacy_amplification_shrinks self'' corrected) as Hf.
  subst corrected final. lia.
Qed.

(** No parameter is ever rejected: a run on a fresh object returns a
    dictionary as soon as one pulse is prepared, whatever the distance and
    the probabilities; without a pulse the report line of
    [quantum_channel] divides by zero. *)
Lemma bb84_run_protocol_total (params : BB84Parameters) (channel : ChannelParameters) (g : G) :
  let num_pulses := py_int (pulse_rate_hz params * duration_seconds params) in
  ((0 < num_pulses)%Z ->
     exists r self' g', run_protocol (__init__ params channel) g = Ok (r, self', g'))
  /\ ((num_pulses <= 0)%Z ->
     run_protocol (__init__ params channel) g = Raise ZeroDivisionError).
Proof.
  intros num_pulses. unfold run_protocol, alice_prepare.
  change (BB84.params (__init__ params channel)) with params.
  fold num_pulses.
  destruct (bb84_alice_prepare_loop_spec (Z.to_nat num_pulses) [] (__init__ params channel) g)
    as (new & g1 & Hnew & ->).
  split.
  - intros Hpos.
    assert (Hne : [] ++ new <> []) by (destruct new; [simpl in Hnew; lia | discriminate]).
    match goal with
    | |- context [quantum_channel ?s _ _] =>
      destruct (bb84_quantum_channel_total s ([] ++ new) g1 Hne) as (received & g2 & Hq);
      rewrite Hq; pose proof (bb84_quantum_channel_length _ _ _ _ _ Hq) as [Hrec _]
    end.
    simpl. unfold bob_measure.
    match goal with
    | |- context [bob_measure_loop _ _ _ _ ?s _] =>
      destruct (bb84_bob_measure_loop_spec (len received) 0 received [] s g2)
        as (dets & g3 & Hdets & ->)
    end.
    simpl. unfold basis_reconciliation. simpl.
    destruct (bb84_basis_reconciliation_loop_total
                (set_bob_measurements dets
                   (set_alice (map bit new) (map basis new) (map intensity new)
                      (__init__ params channel)))
                0 (zip (map basis new) dets) [] []) as (a & b & Hloop).
    { simpl. rewrite length_zip_with, !length_map. lia. }
    simpl in Hloop. rewrite Hloop. simpl.
    destruct (len a =? 0)%Z eqn:Hz; [eauto|].
    destruct (error_estimation _ a b) as [q s4] eqn:He.
    assert (Hdur : ~ duration_seconds (BB84.params s4) == 0).
    { assert (Hp : BB84.params s4 = params).
      { unfold error_estimation in He.
        destruct (negb _ || _); injection He as <- <-; reflexivity. }
      rewrite Hp. intros Hd. subst num_pulses.
      rewrite py_int_zero in Hpos; [lia|]. rewrite Hd. ring. }
    destruct (bb84_security_analysis_total s4 Hdur) as (m & ->). simpl.
    destruct (negb (secure m)); [eauto|].
    destruct (error_correction s4 a b) as [ca cb].
    destruct (privacy_amplification s4 ca) as [fk s5]. eauto.
  - intros Hneg. replace (Z.to_nat num_pulses) with 0%nat in Hnew by lia.
    destruct new; [|discriminate]. reflexivity.
Qed.

(** Conversely, a returned dictionary with metrics comes from a run that
    reached the security check. *)
Lemma bb84_run_protocol_inv (self : BB84Protocol) (g : G) (r : ProtocolResult)
    (self' : BB84Protocol) (g' : G) (m : Metrics) :
  run_protocol self g = Ok (r, self', g') -> metrics r = Some m ->
  exists q self4,
    checks self g q m self4 g'
    /\ (secure m = false -> self' = self4).
Proof.
  unfold run_protocol. intros Hrun Hm.
  destruct (alice_prepare self g) as [[photons s1] g1] eqn:Ha.
  destruct (quantum_channel s1 photons g1) as [e|[received g2]] eqn:Hq; [discriminate|].
  bind_step in Hrun.
  destruct (bob_measure s1 received g2) as [[detections s2] g3] eqn:Hb.
  destruct (basis_reconciliation s2) as [e|[[a b] s3]] eqn:Hr; [discriminate|].
  bind_step in Hrun.
  destruct (len a =? 0)%Z eqn:Hz.
  { injection Hrun as <- <- <-. discriminate. }
  destruct (error_estimation s3 a b) as [q s4] eqn:He.
  destruct (security_analysis s4) as [e|m'] eqn:Hs; [discriminate|].
  bind_step in Hrun.
  assert (Hne : a <> []) by (intros ->; discriminate).
  destruct (negb (secure m')) eqn:Hsec.
  - injection Hrun as <- <- <-. injection Hm as <-.
    exists q, s4. split; [|reflexivity].
    exists photons, a, b, s3. repeat split; try assumption.
    exists s1, g1, received, g2, detections, s2. repeat split; assumption.
  - destruct (error_correction s4 a b) as [ca cb].
    destruct (privacy_amplification s4 ca) as [fk s5].
    injection Hrun as <- <- <-. injection Hm as <-.
    exists q, s4. split.
    + exists photons, a, b, s3. repeat split; try assumption.
      exists s1, g1, received, g2, detections, s2. repeat split; assumption.
    + intros Hf. rewrite Hf in Hsec. discriminate.
Qed.

End Stages.
End BB84Facts.

(** ** e91.py: the stages *)

Module E91Facts.
Import E91.

(** Two objects agree when they hold the same parameters, channel and
    transmission probabilities. *)
Definition agree (s1 s2 : E91Protocol) : Prop :=
  params s1 = params s2 /\ channel s1 = channel s2
  /\ alice_transmission s1 = alice_transmission s2
  /\ bob_transmission s1 = bob_transmission s2.

(** What a caller sees of a run: the returned dictionary (or the exception)
    and the generator. *)
Definition observe {G : Type} (x : PyResult (ProtocolResult * E91Protocol * G))
    : PyResult (ProtocolResult * G) :=
  match x with
  | inl e => inl e
  | inr (r, _, g) => inr (r, g)
  end.

(** The number of coincidences whose two results disagree. *)
Fixpoint disagreements (key_pairs : list Coincidence) : nat :=
  match key_pairs with
  | [] => 0
  | (alice_m, bob_m) :: rest =>
    (if decide (result alice_m = result bob_m) then 0 else 1) + disagreements rest
  end.

(** Every coincidence has angles that [_is_key_compatible] accepts. *)
Definition key_compatible (key_pairs : list Coincidence) : Prop :=
  Forall (fun p => _is_key_compatible (basis_angle (fst p)) (basis_angle (snd p)) = true)
         key_pairs.

(** Steps 1 to 4 of [run_protocol]: the run reaches the Bell-test subset
    [bell_pairs] and the key subset [key_pairs] of its [coincidences]. *)
Definition selects `{PyRandom G} (self : E91Protocol) (g : G)
    (pairs : list EntangledPair) (coincidences bell_pairs key_pairs : list Coincidence)
    (self' : E91Protocol) (g' : G) : Prop :=
  exists g1 alice_ms self1 g2 bob_ms self2 g3,
    generate_entangled_pairs self g = (pairs, g1)
    /\ alice_measure self pairs g1 = Ok (alice_ms, self1, g2)
    /\ bob_measure self1 pairs g2 = Ok (bob_ms, self2, g3)
    /\ coincidences = coincidence_filtering self2 alice_ms bob_ms
    /\ coincidences <> []
    /\ basis_selection self2 coincidences g3 = Ok (bell_pairs, key_pairs, self', g').

(** Steps 1 to 8 of [run_protocol]: the run reaches the security analysis
    with the Bell parameter [bell_parameter0] of [bell_pairs] and the raw
    key [raw_key], and the analysis returns [security_metrics]. *)
Definition checks `{PyRandom G} `{PyMath} (self : E91Protocol) (g : G)
    (pairs : list EntangledPair) (bell_pairs : list Coincidence)
    (bell_parameter0 : Q) (raw_key : list Z)
    (security_metrics : Metrics) (self' : E91Protocol) (g' : G) : Prop :=
  exists coincidences key_pairs self4 self5,
    selects self g pairs coincidences bell_pairs key_pairs self4 g'
    /\ bell_test self4 bell_pairs = (bell_parameter0, self5)
    /\ key_sifting self5 key_pairs = (raw_key, self')
    /\ raw_key <> []
    /\ security_analysis self' bell_parameter0 (error_estimation self' key_pairs)
       = Ok security_metrics.

Section Stages.
Context {G : Type} `{PyRandom G} `{PyMath}.

(** *** error_estimation *)

Lemma e91_compatible_expected (alice_angle bob_angle : Z) :
  _is_key_compatible alice_angle bob_angle = true ->
  0 < _expected_correlation alice_angle bob_angle.
Proof.
  unfold _is_key_compatible, _expected_correlation. cbv zeta.
  rewrite bool_decide_eq_true, !elem_of_cons, elem_of_nil.
  intros [[= -> ->]|[[= -> ->]|[[= -> ->]|[[= -> ->]|[[= -> ->]|[]]]]]]; simpl;
    first [apply cos_radians_45 | apply cos_radians_0].
Qed.

Lemma e91_is_error_compatible (p : Coincidence) :
  _is_key_compatible (basis_angle (fst p)) (basis_angle (snd p)) = true ->
  is_error p = negb (bool_decide (result (fst p) = result (snd p))).
Proof.
  destruct p as [a b]. simpl. intros Hc. unfold is_error.
  apply e91_compatible_expected, Qltb_lt in Hc. rewrite Hc. reflexivity.
Qed.

Lemma e91_is_error_count (key_pairs : list Coincidence) :
  key_compatible key_pairs ->
  length (filter (fun p => is_error p = true) key_pairs) = disagreements key_pairs.
Proof.
  induction 1 as [|[a b] l Hc Hl IH]; [reflexivity|].
  rewrite filter_cons, (e91_is_error_compatible _ Hc). simpl.
  destruct (decide (result a = result b)) as [Heq|Hne].
  - rewrite bool_decide_true by exact Heq. simpl.
    destruct (decide (false = true)); [discriminate | exact IH].
  - rewrite bool_decide_false by exact Hne. simpl.
    destruct (decide (true = true)); [|contradiction]. simpl. f_equal. exact IH.
Qed.

Lemma e91_error_estimation_counts (self : E91Protocol) (key_pairs : list Coincidence) :
  key_pairs <> [] -> key_compatible key_pairs ->
  error_estimation self key_pairs
  = inject_Z (Z.of_nat (disagreements key_pairs)) / flen key_pairs.
Proof.
  intros Hne Hc. unfold error_estimation.
  destruct (len key_pairs =? 0)%Z eqn:Hz; [apply len_zero in Hz; contradiction|].
  replace (0 <? len key_pairs)%Z with true.
  - unfold len at 1. rewrite e91_is_error_count by exact Hc. reflexivity.
  - symmetry. apply Z.ltb_lt. apply Z.eqb_neq in Hz. pose proof (len_nonneg key_pairs). lia.
Qed.

Lemma e91_error_estimation_unit (self : E91Protocol) (key_pairs : list Coincidence) :
  0 <= error_estimation self key_pairs <= 1.
Proof.
  unfold error_estimation.
  destruct (len key_pairs =? 0)%Z; [split; discriminate|].
  destruct (0 <? len key_pairs)%Z eqn:Hpos; [|split; discriminate].
  apply fraction_unit; [|apply Z.ltb_lt, Hpos].
  pose proof (length_filter (fun p => is_error p = true) key_pairs).
  unfold len. lia.
Qed.

Lemma e91_disagreements_zero (key_pairs : list Coincidence) :
  Forall (fun p => result (fst p) = result (snd p)) key_pairs ->
  disagreements key_pairs = 0%nat.
Proof.
  induction 1 as [|[a b] l Heq Hl IH]; [reflexivity|]. simpl in *.
  destruct (decide (result a = result b)); [exact IH | contradiction].
Qed.

(** *** bell_test *)

(** A correlation value of [bell_test]. *)
Definition sign (c : Z) : Prop := c = 1%Z \/ c = (-1)%Z.

Lemma e91_correlations_loop_signs (bell_pairs : list Coincidence)
    (correlations : gmap (Z * Z) (list Z)) :
  map_Forall (fun _ values => Forall sign values) correlations ->
  map_Forall (fun _ values => Forall sign values)
             (correlations_loop bell_pairs correlations).
Proof.
  revert correlations.
  induction bell_pairs as [|[a b] rest IH]; intros correlations Hall; [exact Hall|].
  simpl. apply IH. intros key values.
  set (c := if bool_decide (result a = result b) then 1%Z else (-1)%Z).
  assert (Hc : sign c) by (subst c; unfold sign; destruct (bool_decide _); auto).
  destruct (decide ((basis_angle a, basis_angle b) = key)) as [<-|Hne].
  - rewrite lookup_alter_eq.
    destruct (correlations !! (basis_angle a, basis_angle b)) as [old|] eqn:Hold.
    + rewrite Hold. intros [= <-]. apply Forall_app. split.
      * exact (Hall _ _ Hold).
      * constructor; [exact Hc | constructor].
    + rewrite lookup_insert_eq. intros [= <-].
      constructor; [exact Hc | constructor].
  - rewrite lookup_alter_ne by exact Hne.
    destruct (correlations !! (basis_angle a, basis_angle b)).
    + apply Hall.
    + rewrite lookup_insert_ne by exact Hne. apply Hall.
Qed.

Lemma e91_sum_signs (values : list Z) :
  Forall sign values -> (- len values <= foldr Z.add 0 values <= len values)%Z.
Proof.
  unfold len. induction 1 as [|c l [-> | ->] Hl IH]; simpl; lia.
Qed.

Lemma e91_average_signs (values : list Z) :
  Forall sign values -> -1 <= average values /\ average values <= 1.
Proof.
  intros Hs. unfold average, flen.
  pose proof (e91_sum_signs values Hs) as [Hlo Hhi].
  destruct values as [|c l].
  - simpl. split; discriminate.
  - assert (Hpos : (0 < len (c :: l))%Z) by (unfold len; simpl; lia).
    assert (Hpos' : 0 < inject_Z (len (c :: l)))
      by (change 0 with (inject_Z 0); rewrite <- Zlt_Qlt; exact Hpos).
    split.
    + apply Qle_shift_div_l; [exact Hpos'|].
      assert (E : -1 * inject_Z (len (c :: l)) == inject_Z (- len (c :: l)))
        by (rewrite inject_Z_opp; ring).
      rewrite E, <- Zle_Qle. exact Hlo.
    + apply Qle_shift_div_r; [exact Hpos'|]. rewrite Qmult_1_l.
      rewrite <- Zle_Qle. exact Hhi.
Qed.

(** An averaged correlation, or the default [0] of a missing angle pair,
    lies in [[-1,1]]. *)
Lemma e91_correlation_unit (bell_pairs : list Coincidence) (key : Z * Z) :
  let E := default 0 ((average <$> correlations_loop bell_pairs ∅) !! key) in
  -1 <= E /\ E <= 1.
Proof.
  cbv zeta. rewrite lookup_fmap.
  destruct (correlations_loop bell_pairs ∅ !! key) as [values|] eqn:Hk; simpl.
  - apply e91_average_signs.
    exact (e91_correlations_loop_signs bell_pairs ∅ (map_Forall_empty _) key values Hk).
  - split; discriminate.
Qed.

(** With fewer than four pairs the test returns [0.0] and stores nothing. *)
Lemma e91_bell_test_insufficient (self : E91Protocol) (bell_pairs : list Coincidence) :
  (length bell_pairs < 4)%nat -> bell_test self bell_pairs = (0, self).
Proof.
  intros Hlen. unfold bell_test.
  replace (len bell_pairs <? 4)%Z with true; [reflexivity|].
  symmetry. apply Z.ltb_lt. unfold len. lia.
Qed.

(** *** security_analysis *)

Lemma e91_security_analysis_verdict (self : E91Protocol) (bell_parameter0 qber0 : Q)
    (m : Metrics) :
  security_analysis self bell_parameter0 qber0 = Ok m ->
  m_bell_parameter m = bell_parameter0 /\ qber m = qber0
  /\ secure m = Qltb (bell_violation_threshold (params self)) bell_parameter0
                && Qltb qber0 0.11.
Proof.
  unfold security_analysis.
  destruct (Qis_zero (duration_seconds (params self))); [discriminate|].
  intros [= <-]. repeat split; reflexivity.
Qed.

Lemma e91_security_analysis_total (self : E91Protocol) (bell_parameter0 qber0 : Q) :
  ~ duration_seconds (params self) == 0 ->
  exists m, security_analysis self bell_parameter0 qber0 = Ok m.
Proof.
  intros Hd. unfold security_analysis.
  destruct (Qis_zero (duration_seconds (params self))) eqn:Hz;
    [apply Qis_zero_iff in Hz; contradiction | eauto].
Qed.

(** *** The measurement loops *)

Lemma e91_agree_refl (self : E91Protocol) : agree self self.
Proof. repeat split. Qed.


Lemma e91_generate_entangled_pairs_length (self : E91Protocol) (g : G) :
  length (fst (generate_entangled_pairs self g))
  = Z.to_nat (py_int (pair_generation_rate_hz (params self)
                      * duration_seconds (params self))).
Proof.
  unfold generate_entangled_pairs.
  generalize (py_int (pair_generation_rate_hz (params self)
                      * duration_seconds (params self))).
  intros num_pairs.
  assert (Hgen : forall n i pairs g0,
             length (fst (generate_entangled_pairs_loop self num_pairs n i pairs g0))
             = (length pairs + n)%nat).
  { induction n as [|n IH]; intros i pairs g0; simpl; [lia|].
    destruct (random_random g0) as [r g1]. rewrite IH, length_app. simpl. lia. }
  rewrite Hgen. reflexivity.
Qed.

(** Both measurement loops return one entry for each pair, append the
    detected measurements to their attribute of [self], and read nothing
    of [self] beyond what agreeing objects share. *)
Lemma e91_alice_measure_loop_spec (pairs : list EntangledPair)
    (ms : list (option Measurement)) (self : E91Protocol) (g : G) :
  exists new extra g',
    length new = length pairs
    /\ forall s2, agree self s2 ->
         alice_measure_loop pairs ms s2 g =
         (ms ++ new, set_alice_measurements (alice_measurements s2 ++ extra) s2, g').
Proof.
  revert ms self g. induction pairs as [|p pairs IH]; intros ms self g.
  - exists [], [], g. split; [reflexivity|]. intros s2 _. simpl.
    rewrite !app_nil_r. destruct s2; reflexivity.
  - simpl. destruct (random_random g) as [r g1].
    destruct (Qltb (alice_transmission self) r) eqn:Hlost.
    + destruct (IH (ms ++ [None]) self g1) as (new & extra & g' & Hlen & Hall).
      exists (None :: new), extra, g'. split; [simpl; lia|].
      intros s2 Hag. pose proof Hag as (Hp & Hc & Ha & Hb). rewrite <- Ha, Hlost.
      rewrite (Hall s2 Hag), <- app_assoc. reflexivity.
    + destruct (random_choice [0; 45; 90]%Z g1) as [angle g2].
      destruct (_calculate_measurement_result self p angle "alice" g2) as [[res|] g3]
        eqn:Hres.
      * set (m := mkMeasurement angle res (creation_time p) true).
        destruct (IH (ms ++ [Some m])
                     (set_alice_measurements (alice_measurements self ++ [m]) self) g3)
          as (new & extra & g' & Hlen & Hall).
        exists (Some m :: new), (m :: extra), g'. split; [simpl; lia|].
        intros s2 Hag. pose proof Hag as (Hp & Hc & Ha & Hb). rewrite <- Ha, Hlost.
        change (_calculate_measurement_result s2 p angle "alice" g2)
          with (_calculate_measurement_result self p angle "alice" g2).
        rewrite Hres. fold m.
        rewrite (Hall (set_alice_measurements (alice_measurements s2 ++ [m]) s2))
          by (repeat split; assumption).
        simpl. rewrite <- !app_assoc. reflexivity.
      * destruct (IH (ms ++ [None]) self g3) as (new & extra & g' & Hlen & Hall).
        exists (None :: new), extra, g'. split; [simpl; lia|].
        intros s2 Hag. pose proof Hag as (Hp & Hc & Ha & Hb). rewrite <- Ha, Hlost.
        change (_calculate_measurement_result s2 p angle "alice" g2)
          with (_calculate_measurement_result self p angle "alice" g2).
        rewrite Hres, (Hall s2 Hag), <- app_assoc. reflexivity.
Qed.

Lemma e91_bob_measure_loop_spec (pairs : list EntangledPair)
    (ms : list (option Measurement)) (self : E91Protocol) (g : G) :
  exists new extra g',
    length new = length pairs
    /\ forall s2, agree self s2 ->
         bob_measure_loop pairs ms s2 g =
         (ms ++ new, set_bob_measurements (bob_measurements s2 ++ extra) s2, g').
Proof.
  revert ms self g. induction pairs as [|p pairs IH]; intros ms self g.
  - exists [], [], g. split; [reflexivity|]. intros s2 _. simpl.
    rewrite !app_nil_r. destruct s2; reflexivity.
  - simpl. destruct (random_random g) as [r g1].
    destruct (Qltb (bob_transmission self) r) eqn:Hlost.
    + destruct (IH (ms ++ [None]) self g1) as (new & extra & g' & Hlen & Hall).
      exists (None :: new), extra, g'. split; [simpl; lia|].
      intros s2 Hag. pose proof Hag as (Hp & Hc & Ha & Hb). rewrite <- Hb, Hlost.
      rewrite (Hall s2 Hag), <- app_assoc. reflexivity.
    + destruct (random_choice [45; 90; 135]%Z g1) as [angle g2].
      destruct (_calculate_measurement_result self p angle "bob" g2) as [[res|] g3]
        eqn:Hres.
      * set (m := mkMeasurement angle res (creation_time p) true).
        destruct (IH (ms ++ [Some m])
                     (set_bob_measurements (bob_measurements self ++ [m]) self) g3)
          as (new & extra & g' & Hlen & Hall).
        exists (Some m :: new), (m :: extra), g'. split; [simpl; lia|].
        intros s2 Hag. pose proof Hag as (Hp & Hc & Ha & Hb). rewrite <- Hb, Hlost.
        change (_calculate_measurement_result s2 p angle "bob" g2)
          with (_calculate_measurement_result self p angle "bob" g2).
        rewrite Hres. fold m.
        rewrite (Hall (set_bob_measurements (bob_measurements s2 ++ [m]) s2))
          by (repeat split; assumption).
        simpl. rewrite <- !app_assoc. reflexivity.
      * destruct (IH (ms ++ [None]) self g3) as (new & extra & g' & Hlen & Hall).
        exists (None :: new), extra, g'. split; [simpl; lia|].
        intros s2 Hag. pose proof Hag as (Hp & Hc & Ha & Hb). rewrite <- Hb, Hlost.
        change (_calculate_measurement_result s2 p angle "bob" g2)
          with (_calculate_measurement_result self p angle "bob" g2).
        rewrite Hres, (Hall s2 Hag), <- app_assoc. reflexivity.
Qed.

Lemma e91_alice_measure_agree (s1 s2 : E91Protocol) (pairs : list EntangledPair) (g : G) :
  agree s1 s2 ->
  match alice_measure s1 pairs g, alice_measure s2 pairs g with
  | inl e1, inl e2 => e1 = e2 /\ pairs = []
  | inr (ms1, s1', g1), inr (ms2, s2', g2) =>
    ms1 = ms2 /\ g1 = g2 /\ agree s1' s2' /\ length ms1 = length pairs /\ pairs <> []
    /\ final_key s1' = final_key s1 /\ agree s1 s1'
  | _, _ => False
  end.
Proof.
  intros Hag. unfold alice_measure.
  destruct (e91_alice_measure_loop_spec pairs [] s1 g) as (new & extra & g' & Hlen & Hall).
  rewrite (Hall s1 (e91_agree_refl s1)), (Hall s2 Hag).
  destruct (len pairs =? 0)%Z eqn:Hz.
  - apply len_zero in Hz. split; [reflexivity | exact Hz].
  - destruct Hag as (Hp & Hc & Ha & Hb). repeat split; try assumption.
    intros ->. discriminate.
Qed.

Lemma e91_bob_measure_agree (s1 s2 : E91Protocol) (pairs : list EntangledPair) (g : G) :
  agree s1 s2 ->
  match bob_measure s1 pairs g, bob_measure s2 pairs g with
  | inl e1, inl e2 => e1 = e2 /\ pairs = []
  | inr (ms1, s1', g1), inr (ms2, s2', g2) =>
    ms1 = ms2 /\ g1 = g2 /\ agree s1' s2' /\ length ms1 = length pairs /\ pairs <> []
    /\ final_key s1' = final_key s1 /\ agree s1 s1'
  | _, _ => False
  end.
Proof.
  intros Hag. unfold bob_measure.
  destruct (e91_bob_measure_loop_spec pairs [] s1 g) as (new & extra & g' & Hlen & Hall).
  rewrite (Hall s1 (e91_agree_refl s1)), (Hall s2 Hag).
  destruct (len pairs =? 0)%Z eqn:Hz.
  - apply len_zero in Hz. split; [reflexivity | exact Hz].
  - destruct Hag as (Hp & Hc & Ha & Hb). repeat split; try assumption.
    intros ->. discriminate.
Qed.

(** *** coincidence_filtering and basis_selection *)


Lemma e91_coincidence_filtering_length (self : E91Protocol)
    (alice_ms bob_ms : list (option Measurement)) :
  (length (coincidence_filtering self alice_ms bob_ms) <= length alice_ms)%nat.
Proof.
  unfold coincidence_filtering.
  pose proof (omap_length_le (coincident self) (zip alice_ms bob_ms)) as Hle.
  rewrite length_zip_with in Hle. lia.
Qed.

Lemma e91_basis_selection_loop_lengths (indices : list nat) (i : nat)
    (coincidences bell key : list Coincidence) :
  let '(bell', key') := basis_selection_loop indices i coincidences bell key in
  (length bell' + length key' <= length bell + length key + length coincidences)%nat
  /\ (length bell <= length bell')%nat /\ (length key <= length key')%nat.
Proof.
  revert i bell key. induction coincidences as [|[a b] rest IH]; intros i bell key; simpl.
  - lia.
  - destruct (bool_decide (i ∈ indices)).
    + specialize (IH (S i) (bell ++ [(a, b)]) key).
      destruct (basis_selection_loop indices (S i) rest _ key) as [bell' key'].
      rewrite length_app in IH. simpl in IH. lia.
    + destruct (_is_key_compatible (basis_angle a) (basis_angle b)).
      * specialize (IH (S i) bell (key ++ [(a, b)])).
        destruct (basis_selection_loop indices (S i) rest bell _) as [bell' key'].
        rewrite length_app in IH. simpl in IH. lia.
      * specialize (IH (S i) bell key).
        destruct (basis_selection_loop indices (S i) rest bell key) as [bell' key']. lia.
Qed.

(** The key subset holds key-compatible angle pairs only. *)
Lemma e91_basis_selection_loop_compatible (indices : list nat) (i : nat)
    (coincidences bell key : list Coincidence) :
  key_compatible key ->
  key_compatible (snd (basis_selection_loop indices i coincidences bell key)).
Proof.
  revert i bell key. induction coincidences as [|[a b] rest IH]; intros i bell key Hk;
    simpl; [exact Hk|].
  destruct (bool_decide (i ∈ indices)); [apply IH, Hk|].
  destruct (_is_key_compatible (basis_angle a) (basis_angle b)) eqn:Hc; [|apply IH, Hk].
  apply IH. apply Forall_app. split; [exact Hk|]. constructor; [exact Hc | constructor].
Qed.

Lemma e91_basis_selection_inv (self : E91Protocol) (coincidences : list Coincidence) (g : G)
    (bell key : list Coincidence) (self' : E91Protocol) (g' : G) :
  basis_selection self coincidences g = Ok (bell, key, self', g') ->
  self' = set_pairs bell key self
  /\ (length bell + length key <= length coincidences)%nat
  /\ key_compatible key.
Proof.
  unfold basis_selection.
  destruct (_ || _); [discriminate|].
  destruct (random_sample _ _ g) as [indices g1].
  pose proof (e91_basis_selection_loop_lengths indices 0 coincidences [] []) as Hlen.
  pose proof (e91_basis_selection_loop_compatible indices 0 coincidences [] []
                (List.Forall_nil _)) as Hcomp.
  destruct (basis_selection_loop indices 0 coincidences [] []) as [bell' key'].
  intros [= <- <- <- <-]. simpl in *. repeat split; [lia | exact Hcomp].
Qed.


Lemma e91_basis_selection_total (self : E91Protocol) (coincidences : list Coincidence)
    (g : G) :
  0 <= bell_test_fraction (params self) -> bell_test_fraction (params self) <= 1 ->
  exists bell key self' g',
    basis_selection self coincidences g = Ok (bell, key, self', g').
Proof.
  intros H0' H1. unfold basis_selection.
  pose proof (py_int_scale (len coincidences) (bell_test_fraction (params self))
                (len_nonneg _) H0' H1) as [Hlo Hhi].
  fold (flen coincidences) in Hlo, Hhi.
  replace (_ || _) with false.
  - destruct (random_sample _ _ g) as [indices g1].
    destruct (basis_selection_loop indices 0 coincidences [] []) as [bell key]. eauto.
  - symmetry. apply orb_false_iff. split; apply Z.ltb_ge; assumption.
Qed.

(** *** The post-processing lengths of step 9 *)

Lemma e91_final_length_range (raw_key : list Z) :
  (0 <= final_length raw_key <= corrected_length raw_key)%Z
  /\ (corrected_length raw_key <= len raw_key)%Z.
Proof.
  assert (Hc : (0 <= py_int (flen raw_key * 0.8) <= len raw_key)%Z)
    by (apply py_int_scale; [apply len_nonneg | discriminate | discriminate]).
  assert (Hcl : corrected_length raw_key = py_int (flen raw_key * 0.8))
    by (unfold corrected_length; lia).
  assert (Hf : (0 <= py_int (inject_Z (corrected_length raw_key) * 0.7)
                <= corrected_length raw_key)%Z)
    by (apply py_int_scale; [lia | discriminate | discriminate]).
  unfold final_length. lia.
Qed.

(** *** run_protocol *)

Lemma e91_selects_inv (self : E91Protocol) (g : G) (pairs : list EntangledPair)
    (coincidences bell key : list Coincidence) (self' : E91Protocol) (g' : G) :
  selects self g pairs coincidences bell key self' g' ->
  (length coincidences <= length pairs)%nat
  /\ (length bell + length key <= length coincidences)%nat
  /\ key_compatible key
  /\ agree self self' /\ final_key self' = final_key self.
Proof.
  intros (g1 & am & s1 & g2 & bm & s2 & g3 & Hg & Ha & Hb & -> & Hne & Hsel).
  pose proof (e91_alice_measure_agree self self pairs g1 (e91_agree_refl self)) as Ha'.
  rewrite Ha in Ha'. destruct Ha' as (_ & _ & _ & Hlen1 & _ & Hf1 & Hag1).
  pose proof (e91_bob_measure_agree s1 s1 pairs g2 (e91_agree_refl s1)) as Hb'.
  rewrite Hb in Hb'. destruct Hb' as (_ & _ & _ & Hlen2 & _ & Hf2 & Hag2).
  apply e91_basis_selection_inv in Hsel as (-> & Hlen & Hcomp).
  pose proof (e91_coincidence_filtering_length s2 am bm) as Hco.
  destruct Hag1 as (? & ? & ? & ?), Hag2 as (? & ? & ? & ?).
  repeat split; try assumption; try lia; simpl; congruence.
Qed.

Lemma e91_bell_test_state (self : E91Protocol) (bell : list Coincidence) :
  agree self (snd (bell_test self bell))
  /\ final_key (snd (bell_test self bell)) = final_key self.
Proof.
  unfold bell_test. destruct (len bell <? 4)%Z; cbv zeta; cbn [snd];
    split; try reflexivity; repeat split.
Qed.

Lemma e91_checks_inv (self : E91Protocol) (g : G) (pairs : list EntangledPair)
    (bell : list Coincidence) (chsh : Q) (raw_key : list Z) (m : Metrics)
    (self' : E91Protocol) (g' : G) :
  checks self g pairs bell chsh raw_key m self' g' ->
  (length raw_key + length bell <= length pairs)%nat
  /\ sifted_key self' = raw_key
  /\ agree self self' /\ final_key self' = final_key self
  /\ m_bell_parameter m = chsh /\ 0 <= qber m <= 1.
Proof.
  intros (coincidences & key & s4 & s5 & Hs & Hb & Hk & Hne & Hm).
  apply e91_selects_inv in Hs as (Hc & Hbk & _ & Hag & Hf).
  unfold key_sifting in Hk. injection Hk as <- <-.
  apply e91_security_analysis_verdict in Hm as (Hm1 & Hm2 & _).
  pose proof (e91_bell_test_state s4 bell) as Hs5. rewrite Hb in Hs5. simpl in Hs5.
  destruct Hs5 as [(? & ? & ? & ?) Hf5]. destruct Hag as (? & ? & ? & ?).
  rewrite length_map, Hm2.
  match goal with
  | |- context [error_estimation ?s key] =>
    pose proof (e91_error_estimation_unit s key) as [Hq0 Hq1]
  end.
  repeat split; simpl; try congruence; try lia; assumption.
Qed.

(** A run whose security analysis fails returns the failure dictionary with
    the metrics and the Bell parameter, no ["final_key_bits"], and leaves
    [self.final_key] as it was. *)
Lemma e91_run_protocol_failed_check (self : E91Protocol) (g : G)
    (pairs : list EntangledPair) (bell : list Coincidence) (chsh : Q) (raw_key : list Z)
    (m : Metrics) (self' : E91Protocol) (g' : G) :
  checks self g pairs bell chsh raw_key m self' g' -> secure m = false ->
  run_protocol self g =
    Ok (mkResult (Some SecurityConditionsNotMet) false None (Some m) (Some chsh) None,
        self', g')
  /\ final_key self' = final_key self.
Proof.
  intros Hc Hsec. split; [|apply (e91_checks_inv _ _ _ _ _ _ _ _ _ Hc)].
  destruct Hc as (coincidences & key & s4 & s5 & Hs & Hb & Hk & Hne & Hm).
  destruct Hs as (g1 & am & s1 & g2 & bm & s2 & g3 & Hg & Ha & Hbm & -> & Hco & Hsel).
  unfold run_protocol. rewrite Hg, Ha. bind_step. rewrite Hbm. bind_step.
  destruct (len (coincidence_filtering s2 am bm) =? 0)%Z eqn:Hz;
    [apply len_zero in Hz; contradiction|].
  rewrite Hsel. bind_step. rewrite Hb, Hk.
  destruct (len raw_key =? 0)%Z eqn:Hz'; [apply len_zero in Hz'; contradiction|].
  rewrite Hm. bind_step. rewrite Hsec. reflexivity.
Qed.

(** A run whose security analysis succeeds keeps the first
    [int(int(len(raw_key) * 0.8) * 0.7)] bits of the raw key. *)
Lemma e91_run_protocol_passed_check (self : E91Protocol) (g : G)
    (pairs : list EntangledPair) (bell : list Coincidence) (chsh : Q) (raw_key : list Z)
    (m : Metrics) (self' : E91Protocol) (g' : G) :
  checks self g pairs bell chsh raw_key m self' g' -> secure m = true ->
  exists r,
    run_protocol self g =
      Ok (r, set_final_key (slice_to (final_length raw_key) raw_key) self', g')
    /\ success r = true
    /\ final_key_bits r = Some (final_length raw_key)
    /\ metrics r = Some m.
Proof.
  intros Hc Hsec.
  destruct Hc as (coincidences & key & s4 & s5 & Hs & Hb & Hk & Hne & Hm).
  destruct Hs as (g1 & am & s1 & g2 & bm & s2 & g3 & Hg & Ha & Hbm & -> & Hco & Hsel).
  unfold run_protocol. rewrite Hg, Ha. bind_step. rewrite Hbm. bind_step.
  destruct (len (coincidence_filtering s2 am bm) =? 0)%Z eqn:Hz;
    [apply len_zero in Hz; contradiction|].
  rewrite Hsel. bind_step. rewrite Hb, Hk.
  destruct (len raw_key =? 0)%Z eqn:Hz'; [apply len_zero in Hz'; contradiction|].
  rewrite Hm. bind_step. rewrite Hsec.
  eexists. split; [reflexivity|]. cbn [success final_key_bits metrics final_key set_final_key].
  repeat split. f_equal. apply slice_to_len.
  pose proof (e91_final_length_range raw_key). lia.
Qed.





(** No parameter is rejected on entry: with at least one pair and a Bell
    fraction in [[0,1]] a run returns a dictionary whatever the distances
    and the efficiency; without a pair the report line of [alice_measure]
    divides by zero. *)
Lemma e91_run_protocol_total (params : E91Parameters) (channel : ChannelParameters) (g : G) :
  let num_pairs := py_int (pair_generation_rate_hz params * duration_seconds params) in
  ((0 < num_pairs)%Z ->
   0 <= bell_test_fraction params -> bell_test_fraction params <= 1 ->
     exists r self' g', run_protocol (__init__ params channel) g = Ok (r, self', g'))
  /\ ((num_pairs <= 0)%Z ->
     run_protocol (__init__ params channel) g = Raise ZeroDivisionError).
Proof.
  intros num_pairs. unfold run_protocol.
  pose proof (e91_generate_entangled_pairs_length (__init__ params channel) g) as Hlen.
  change (E91.params (__init__ params channel)) with params in Hlen.
  fold num_pairs in Hlen.
  destruct (generate_entangled_pairs (__init__ params channel) g) as [pairs g1].
  cbn [fst] in Hlen.
  pose proof (e91_alice_measure_agree (__init__ params channel) (__init__ params channel)
                pairs g1 (e91_agree_refl _)) as Ha.
  split.
  - intros Hpos Hf0 Hf1.
    destruct (alice_measure (__init__ params channel) pairs g1)
      as [e|[[am s1] g2]].
    { destruct Ha as [_ ->]. simpl in Hlen. lia. }
    destruct Ha as (_ & _ & _ & _ & Hne & _ & Hag1). bind_step.
    pose proof (e91_bob_measure_agree s1 s1 pairs g2 (e91_agree_refl _)) as Hb.
    destruct (bob_measure s1 pairs g2) as [e|[[bm s2] g3]].
    { destruct Hb as [_ ->]. contradiction. }
    destruct Hb as (_ & _ & _ & _ & _ & _ & Hag2). bind_step.
    destruct (len (coincidence_filtering s2 am bm) =? 0)%Z; [eauto|].
    assert (Hp2 : E91.params s2 = params).
    { destruct Hag1 as (Hp1 & _), Hag2 as (Hp2 & _). rewrite <- Hp2, <- Hp1. reflexivity. }
    destruct (e91_basis_selection_total s2 (coincidence_filtering s2 am bm) g3)
      as (bell & key & s3 & g4 & Hsel); [rewrite Hp2; assumption ..|].
    rewrite Hsel. bind_step.
    apply e91_basis_selection_inv in Hsel as (-> & _).
    pose proof (e91_bell_test_state (set_pairs bell key s2) bell) as [(Hp4 & _) _].
    destruct (bell_test (set_pairs bell key s2) bell) as [chsh s4]. cbn [snd] in Hp4.
    unfold key_sifting.
    destruct (len (map (fun p => result (fst p)) key) =? 0)%Z; [eauto|].
    match goal with
    | |- context [security_analysis ?s ?c ?q] =>
      destruct (e91_security_analysis_total s c q) as (m & ->)
    end.
    + cbn [E91.params set_sifted_key]. rewrite <- Hp4. cbn [E91.params set_pairs].
      rewrite Hp2. intros Hd. subst num_pairs.
      rewrite py_int_zero in Hpos; [lia|]. rewrite Hd. ring.
    + bind_step. destruct (secure m); eauto.
  - intros Hneg. replace (Z.to_nat num_pairs) with 0%nat in Hlen by lia.
    destruct pairs; [|discriminate].
    destruct (alice_measure (__init__ params channel) [] g1) as [e|[[am s1] g2]]
      eqn:Halice.
    + unfold alice_measure in Halice. simpl in Halice. injection Halice as <-. reflexivity.
    + destruct Ha as (_ & _ & _ & _ & Hne & _). contradiction.
Qed.

(** Conversely, a returned dictionary with metrics comes from a run that
    reached the security analysis. *)
Lemma e91_run_protocol_inv (self : E91Protocol) (g : G) (r : ProtocolResult)
    (self' : E91Protocol) (g' : G) (m : Metrics) :
  run_protocol self g = Ok (r, self', g') -> metrics r = Some m ->
  exists pairs bell chsh raw_key self8,
    checks self g pairs bell chsh raw_key m self8 g'
    /\ r_bell_parameter r = Some chsh
    /\ (secure m = false -> self' = self8).
Proof.
  unfold run_protocol. intros Hrun Hm.
  destruct (generate_entangled_pairs self g) as [pairs g1] eqn:Hg.
  destruct (alice_measure self pairs g1) as [e|[[am s1] g2]] eqn:Ha; [discriminate|].
  bind_step in Hrun.
  destruct (bob_measure s1 pairs g2) as [e|[[bm s2] g3]] eqn:Hb; [discriminate|].
  bind_step in Hrun.
  destruct (len (coincidence_filtering s2 am bm) =? 0)%Z eqn:Hz.
  { injection Hrun as <- <- <-. discriminate. }
  destruct (basis_selection s2 (coincidence_filtering s2 am bm) g3)
    as [e|[[[bell key] s4] g4]] eqn:Hsel; [discriminate|].
  bind_step in Hrun.
  destruct (bell_test s4 bell) as [chsh s5] eqn:Hbell.
  destruct (key_sifting s5 key) as [raw s8] eqn:Hk.
  destruct (len raw =? 0)%Z eqn:Hz'.
  { injection Hrun as <- <- <-. discriminate. }
  destruct (security_analysis s8 chsh (error_estimation s8 key)) as [e|m'] eqn:Hs;
    [discriminate|].
  bind_step in Hrun.
  assert (Hne : coincidence_filtering s2 am bm <> []) by (intros Hn; rewrite Hn in Hz; discriminate).
  assert (Hne' : raw <> []) by (intros ->; discriminate).
  assert (Hc : checks self g pairs bell chsh raw m' s8 g4).
  { exists (coincidence_filtering s2 am bm), key, s4, s5. repeat split; try assumption.
    exists g1, am, s1, g2, bm, s2, g3. repeat split; assumption. }
  destruct (secure m') eqn:Hsec.
  - injection Hrun as <- <- <-. injection Hm as <-.
    exists pairs, bell, chsh, raw, s8.
    split; [exact Hc|]. split; [reflexivity | congruence].
  - injection Hrun as <- <- <-. injection Hm as <-.
    exists pairs, bell, chsh, raw, s8.
    split; [exact Hc|]. split; reflexivity.
Qed.

(** The Bell parameter of a returned dictionary is the value [bell_test]
    computed in step 5. *)
Lemma e91_run_protocol_bell_parameter (self : E91Protocol) (g : G) (r : ProtocolResult)
    (self' : E91Protocol) (g' : G) (chsh : Q) :
  run_protocol self g = Ok (r, self', g') -> r_bell_parameter r = Some chsh ->
  exists s4 bell, fst (bell_test s4 bell) = chsh.
Proof.
  unfold run_protocol. intros Hrun Hb.
  destruct (generate_entangled_pairs self g) as [pairs g1].
  destruct (alice_measure self pairs g1) as [e|[[am s1] g2]]; [discriminate|].
  bind_step in Hrun.
  destruct (bob_measure s1 pairs g2) as [e|[[bm s2] g3]]; [discriminate|].
  bind_step in Hrun.
  destruct (len (coincidence_filtering s2 am bm) =? 0)%Z.
  { injection Hrun as <- <- <-. discriminate. }
  destruct (basis_selection s2 (coincidence_filtering s2 am bm) g3)
    as [e|[[[bell key] s4] g4]]; [discriminate|].
  bind_step in Hrun.
  exists s4, bell.
  destruct (bell_test s4 bell) as [chsh' s5].
  destruct (key_sifting s5 key) as [raw s8].
  destruct (len raw =? 0)%Z.
  { injection Hrun as <- <- <-. discriminate. }
  destruct (security_analysis s8 chsh' (error_estimation s8 key)) as [e|m];
    [discriminate|].
  bind_step in Hrun.
  destruct (secure m); injection Hrun as <- <- <-; injection Hb as <-; reflexivity.
Qed.

End Stages.
End E91Facts.

(** ** The prepare-and-measure pipeline, pulse by pulse *)

Module BB84Pipeline.
Import BB84 BB84Facts.

(** The three intensity classes of [_choose_intensity]. *)
Definition intensity_class (self : BB84Protocol) (p : Photon) : Prop :=
  (is_decoy p = false /\ intensity p = 1)
  \/ (is_decoy p = true
      /\ (intensity p = decoy_intensity (params self)
          \/ intensity p = weak_intensity (params self))).

(** What [quantum_channel] makes of one photon: it is lost, delivered as
    sent, or delivered with its basis flipped, the last only at a positive
    depolarization rate. *)
Definition transmitted (self : BB84Protocol) (sent : Photon) (received : option Photon)
    : Prop :=
  match received with
  | None => True
  | Some p =>
    p = sent
    \/ (0 < depolarization_rate (channel self)
        /\ p = mkPhoton (bit sent) (flip (basis sent)) (is_decoy sent) (intensity sent))
  end.

(** What [bob_measure] records for one slot of a train of [n] slots. *)
Definition measured (self : BB84Protocol) (n : Z) (photon : option Photon) (d : Detection)
    : Prop :=
  match photon with
  | None =>
    (detected d = false /\ det_bit d = None /\ dark_count d = false)
    \/ (detected d = true /\ is_Some (det_bit d) /\ dark_count d = true
        /\ 0 < dark_count_rate (channel self) * duration_seconds (params self) / inject_Z n)
  | Some p =>
    detected d = true /\ dark_count d = false
    /\ exists b, det_bit d = Some b /\ (basis p = det_basis d -> b = bit p)
  end.

(** The test of the loop of [basis_reconciliation] on one position whose
    recorded bit and intensity exist. *)
Definition kept (x : Bit * Q * (Basis * Detection)) : option (Bit * option Bit) :=
  let '(alice_bit, intensity0, (alice_basis, detection)) := x in
  if detected detection && bool_decide (alice_basis = det_basis detection)
     && negb (Qltb intensity0 1)
  then Some (alice_bit, det_bit detection) else None.

Definition sifted_positions (bits : list Bit) (intensities : list Q)
    (bases : list Basis) (detections : list Detection) : list (Bit * option Bit) :=
  omap kept (zip (zip bits intensities) (zip bases detections)).

(** The four recording lists have one entry per pulse. *)
Definition recorded (self : BB84Protocol) : Prop :=
  length (alice_bits self) = length (alice_bases self)
  /\ length (alice_intensities self) = length (alice_bases self)
  /\ length (bob_measurements self) = length (alice_bases self).

(** One position of the sifting loop on a freshly constructed object, read
    off the photon Alice prepared and the detection Bob recorded. *)
Definition sift (pd : Photon * Detection) : option (Bit * option Bit) :=
  let '(photon, detection) := pd in
  if detected detection && bool_decide (basis photon = det_basis detection)
     && negb (Qltb (intensity photon) 1)
  then Some (bit photon, det_bit detection) else None.

(** The same with the decoy flag of the photon in place of its intensity. *)
Definition sift_signal (pd : Photon * Detection) : option (Bit * option Bit) :=
  let '(photon, detection) := pd in
  if detected detection && bool_decide (basis photon = det_basis detection)
     && negb (is_decoy photon)
  then Some (bit photon, det_bit detection) else None.

Lemma bb84_sifted_positions_sift (photons : list Photon) (detections : list Detection) :
  sifted_positions (map bit photons) (map intensity photons) (map basis photons) detections
  = omap sift (zip photons detections).
Proof.
  unfold sifted_positions. revert detections.
  induction photons as [|p photons IH]; intros [|d detections]; try reflexivity.
  cbn [map zip_with].
  change (omap kept (?x :: ?l))
    with (match kept x with Some y => y :: omap kept l | None => omap kept l end).
  change (omap sift (?x :: ?l))
    with (match sift x with Some y => y :: omap sift l | None => omap sift l end).
  rewrite IH. reflexivity.
Qed.

Lemma bb84_sift_signal_classes (self : BB84Protocol) (photons : list Photon)
    (detections : list Detection) :
  weak_intensity (params self) < 1 -> decoy_intensity (params self) < 1 ->
  Forall (intensity_class self) photons ->
  omap sift (zip photons detections) = omap sift_signal (zip photons detections).
Proof.
  intros Hw Hd Hcl. revert detections.
  induction Hcl as [|p photons Hp Hcl IH]; intros [|d detections]; try reflexivity.
  cbn [zip_with].
  change (omap sift (?x :: ?l))
    with (match sift x with Some y => y :: omap sift l | None => omap sift l end).
  change (omap sift_signal (?x :: ?l))
    with (match sift_signal x with
          | Some y => y :: omap sift_signal l | None => omap sift_signal l end).
  rewrite IH.
  assert (Hq : Qltb (intensity p) 1 = is_decoy p).
  { destruct Hp as [[-> ->]|[-> [->| ->]]]; [reflexivity| |]; apply Qltb_lt; assumption. }
  unfold sift, sift_signal. rewrite Hq. reflexivity.
Qed.

Section Stages.
Context {G : Type} `{PyRandom G} `{PyMath}.

Lemma bb84_choose_intensity_class (self : BB84Protocol) (g : G) (b : Bit) (ba : Basis) :
  let '((i, d), _) := _choose_intensity self g in
  intensity_class self (mkPhoton b ba d i).
Proof.
  unfold _choose_intensity, intensity_class. destruct (random_random g) as [r g1].
  destruct (Qltb r _); [simpl; tauto|].
  destruct (Qltb r _); simpl; tauto.
Qed.

Lemma bb84_alice_prepare_loop_classes (n : nat) (photons : list Photon)
    (self : BB84Protocol) (g : G) :
  exists new g',
    length new = n
    /\ Forall (intensity_class self) new
    /\ alice_prepare_loop n photons self g =
       (photons ++ new,
        set_alice (alice_bits self ++ map bit new) (alice_bases self ++ map basis new)
                  (alice_intensities self ++ map intensity new) self,
        g').
Proof.
  revert photons self g. induction n as [|n IH]; intros photons self g.
  - exists [], g. split; [reflexivity|]. split; [constructor|]. simpl. rewrite !app_nil_r.
    destruct self; reflexivity.
  - simpl. destruct (_generate_random_bit g) as [b g1].
    destruct (_generate_random_basis self g1) as [ba g2].
    pose proof (bb84_choose_intensity_class self g2 b ba) as Hc.
    destruct (_choose_intensity self g2) as [[i d] g3].
    destruct (IH (photons ++ [mkPhoton b ba d i])
                 (set_alice (alice_bits self ++ [b]) (alice_bases self ++ [ba])
                            (alice_intensities self ++ [i]) self) g3)
      as (new & g' & Hlen & Hcl & Heq).
    exists (mkPhoton b ba d i :: new), g'. split; [simpl; lia|].
    split; [constructor; [exact Hc | exact Hcl]|].
    rewrite Heq. simpl. rewrite <- !app_assoc. reflexivity.
Qed.

Lemma bb84_alice_prepare_records (self : BB84Protocol) (g : G) (photons : list Photon)
    (self' : BB84Protocol) (g' : G) :
  alice_prepare self g = (photons, self', g') ->
  length photons
  = Z.to_nat (py_int (pulse_rate_hz (params self) * duration_seconds (params self)))
  /\ Forall (intensity_class self) photons
  /\ self' = set_alice (alice_bits self ++ map bit photons)
                       (alice_bases self ++ map basis photons)
                       (alice_intensities self ++ map intensity photons) self.
Proof.
  unfold alice_prepare. intros Ha.
  destruct (bb84_alice_prepare_loop_classes
              (Z.to_nat (py_int (pulse_rate_hz (params self)
                                 * duration_seconds (params self)))) [] self g)
    as (new & g1 & Hlen & Hcl & Hloop).
  rewrite Hloop in Ha. injection Ha as <- <- <-. auto.
Qed.

Lemma bb84_bob_measure_loop_measured_gen (measured0 : option Photon -> Detection -> Prop)
    (n i : Z) (photons : list (option Photon))
    (detections : list Detection) (self : BB84Protocol) (g : G) :
  (forall (i : Z) (photon : option Photon) (ba : Basis) (g : G),
     measured0 photon
       (fst (match photon with
        | None =>
          let '(r, g) := random_random g in
          if Qltb r (dark_count_rate (channel self) * duration_seconds (params self)
                     / inject_Z n) then
            let '(bit0, g) := _generate_random_bit g in
            (mkDetection (Some bit0) ba true true
               (inject_Z i * duration_seconds (params self) / inject_Z n), g)
          else (mkDetection None ba false false 0, g)
        | Some photon =>
          let '(bit0, g) :=
            if bool_decide (basis photon = ba) then (bit photon, g)
            else _generate_random_bit g in
          (mkDetection (Some bit0) ba true false
             (inject_Z i * duration_seconds (params self) / inject_Z n), g)
        end))) ->
  exists new g',
    Forall2 measured0 photons new
    /\ bob_measure_loop n i photons detections self g =
       (detections ++ new,
        set_bob_measurements (bob_measurements self ++ new) self, g').
Proof.
  intros Hstep. revert i detections self g Hstep.
  induction photons as [|p photons IH]; intros i detections self g Hstep.
  - exists [], g. split; [constructor|]. simpl. rewrite !app_nil_r.
    destruct self; reflexivity.
  - simpl. destruct (_generate_random_basis self g) as [ba g1].
    pose proof (Hstep i p ba g1) as Hd.
    match goal with
    | |- context [let '(detection, g0) := ?X in _] => destruct X as [d g2]
    end.
    destruct (IH (i + 1)%Z (detections ++ [d])
                 (set_bob_measurements (bob_measurements self ++ [d]) self) g2 Hstep)
      as (new & g' & Hall & Heq).
    exists (d :: new), g'. split; [constructor; [exact Hd | exact Hall]|].
    rewrite Heq. simpl. rewrite <- !app_assoc. reflexivity.
Qed.

(** The sifting loop on an object whose lists of bits and intensities
    reach the last zipped position: no [IndexError], and the positions
    kept are those of [kept]. *)
Lemma bb84_basis_reconciliation_loop_kept (self : BB84Protocol) (i : nat)
    (pairs : list (Basis * Detection)) (a0 : list Bit) (b0 : list (option Bit)) :
  (i + length pairs <= length (alice_bits self))%nat ->
  (i + length pairs <= length (alice_intensities self))%nat ->
  let k := omap kept (zip (zip (drop i (alice_bits self))
                               (drop i (alice_intensities self))) pairs) in
  basis_reconciliation_loop self i pairs a0 b0 = Ok (a0 ++ map fst k, b0 ++ map snd k).
Proof.
  revert i a0 b0. induction pairs as [|[ab d] pairs IH]; intros i a0 b0 Hb Hi k.
  - subst k. rewrite zip_with_nil_r. simpl. rewrite !app_nil_r. reflexivity.
  - simpl in Hb, Hi.
    destruct (lookup_lt_is_Some_2 (alice_bits self) i) as [x Hx]; [lia|].
    destruct (lookup_lt_is_Some_2 (alice_intensities self) i) as [mu Hmu]; [lia|].
    subst k. rewrite (drop_S _ _ _ Hx), (drop_S _ _ _ Hmu).
    cbn [zip_with basis_reconciliation_loop]. rewrite Hx.
    rewrite (bool_decide_true (i < length (alice_intensities self))%nat) by lia.
    rewrite (nth_lookup_Some _ _ _ _ Hmu).
    specialize (IH (S i)). cbv zeta in IH.
    change (omap kept ((x, mu, (ab, d)) :: ?l))
      with (match kept (x, mu, (ab, d)) with Some y => y :: omap kept l | None => omap kept l end).
    cbn [kept].
    destruct (detected d && bool_decide (ab = det_basis d)); cbn [andb].
    + destruct (Qltb mu 1); cbn [negb andb].
      * apply IH; lia.
      * rewrite IH by lia. cbn [map fst snd]. rewrite <- !app_assoc. reflexivity.
    + apply IH; lia.
Qed.

Lemma bb84_basis_reconciliation_kept (self : BB84Protocol) :
  recorded self ->
  let k := sifted_positions (alice_bits self) (alice_intensities self)
                            (alice_bases self) (bob_measurements self) in
  basis_reconciliation self = Ok (map fst k, map snd k, set_sifted_key (map fst k) self).
Proof.
  intros (Hb & Hi & Hd) k. unfold basis_reconciliation.
  rewrite bb84_basis_reconciliation_loop_kept
    by (rewrite length_zip_with; lia).
  rewrite !drop_0. reflexivity.
Qed.

Lemma bb84_sifted_positions_app (bits1 bits2 : list Bit) (ints1 ints2 : list Q)
    (bases1 bases2 : list Basis) (dets1 dets2 : list Detection) :
  length bits1 = length bases1 -> length ints1 = length bases1 ->
  length dets1 = length bases1 ->
  sifted_positions (bits1 ++ bits2) (ints1 ++ ints2) (bases1 ++ bases2) (dets1 ++ dets2)
  = sifted_positions bits1 ints1 bases1 dets1 ++ sifted_positions bits2 ints2 bases2 dets2.
Proof.
  intros Hb Hi Hd. unfold sifted_positions.
  rewrite !zip_with_app by (rewrite ?length_zip_with; lia).
  apply omap_app.
Qed.

Lemma bb84_recorded_init (params0 : BB84Parameters) (channel0 : ChannelParameters) :
  recorded (__init__ params0 channel0).
Proof. repeat split. Qed.

(** The stages of a run that sifts, on an object whose lists are aligned:
    the pulses, the detections the run appended, and the two sifted keys. *)
Lemma bb84_sifts_positions (self : BB84Protocol) (g : G) (photons : list Photon)
    (a : list Bit) (b : list (option Bit)) (self' : BB84Protocol) (g' : G) :
  recorded self -> sifts self g photons a b self' g' ->
  exists detections,
    length detections = length photons
    /\ Forall (intensity_class self) photons
    /\ let k := sifted_positions (alice_bits self) (alice_intensities self)
                                 (alice_bases self) (bob_measurements self)
                ++ sifted_positions (map bit photons) (map intensity photons)
                                    (map basis photons) detections in
       a = map fst k /\ b = map snd k
       /\ self' = set_sifted_key a
                    (set_bob_measurements (bob_measurements self ++ detections)
                       (set_alice (alice_bits self ++ map bit photons)
                                  (alice_bases self ++ map basis photons)
                                  (alice_intensities self ++ map intensity photons) self)).
Proof.
  intros (Hb & Hi & Hd) (self1 & g1 & received & g2 & detections & self2 & Ha & Hq & Hm & Hr).
  apply bb84_alice_prepare_records in Ha as (_ & Hcl & ->).
  apply bb84_quantum_channel_length in Hq as [Hlen _].
  unfold bob_measure in Hm.
  match type of Hm with
  | bob_measure_loop _ _ _ _ ?s _ = _ =>
    destruct (bb84_bob_measure_loop_spec (len received) 0 received [] s g2)
      as (dets & g3 & Hlen' & Hloop')
  end.
  rewrite Hloop' in Hm. injection Hm as <- <- <-.
  rewrite bb84_basis_reconciliation_kept in Hr.
  2:{ unfold recorded. cbn. rewrite !length_app, !length_map. lia. }
  cbn [alice_bits alice_intensities alice_bases bob_measurements set_bob_measurements
       set_alice] in Hr.
  rewrite bb84_sifted_positions_app in Hr by lia.
  injection Hr as <- <- <-.
  exists dets. split; [lia|]. split; [exact Hcl|]. cbv zeta. auto.
Qed.


(** The two sifted keys of a run on a freshly constructed object. *)
Lemma bb84_fresh_sifted_keys (params0 : BB84Parameters) (channel0 : ChannelParameters)
    (g : G) (photons : list Photon) (a : list Bit) (b : list (option Bit))
    (self' : BB84Protocol) (g' : G) :
  sifts (__init__ params0 channel0) g photons a b self' g' ->
  length (bob_measurements self') = length photons
  /\ Forall (intensity_class (__init__ params0 channel0)) photons
  /\ a = map fst (omap sift (zip photons (bob_measurements self')))
  /\ b = map snd (omap sift (zip photons (bob_measurements self'))).
Proof.
  intros Hs.
  destruct (bb84_sifts_positions _ _ _ _ _ _ _ (bb84_recorded_init _ _) Hs)
    as (dets & Hlen & Hcl & Hk).
  cbv zeta in Hk. destruct Hk as (Ha & Hb & ->).
  rewrite bb84_sifted_positions_sift in Ha, Hb. cbn in Ha, Hb |- *. auto.
Qed.

(** At an error rate of zero the two post-processing steps keep the
    whole key. *)
Lemma bb84_zero_rate_key (self : BB84Protocol) (a : list Bit) (b : list (option Bit)) :
  error_rate self == 0 -> length a = length b -> a <> [] ->
  error_correction self a b = (a, b)
  /\ privacy_amplification self a = (a, set_final_key a self).
Proof.
  intros Hq Hab Hne. split.
  - unfold error_correction.
    replace (len b) with (len a) by (unfold len; lia). rewrite Z.eqb_refl. cbn [negb].
    rewrite py_int_zero by (rewrite Hq; ring).
    unfold slice_to.
    rewrite !firstn_all2 by (unfold len; lia). reflexivity.
  - unfold privacy_amplification.
    destruct (len a =? 0)%Z eqn:Hz; [apply len_zero in Hz; contradiction|].
    rewrite py_int_zero by (rewrite Hq; ring).
    unfold slice_to. rewrite firstn_all2 by (unfold len; lia). reflexivity.
Qed.

(** The paths of [run_protocol] that return a dictionary. *)
Lemma bb84_run_protocol_cases (self : BB84Protocol) (g : G) (r : ProtocolResult)
    (self' : BB84Protocol) (g' : G) :
  run_protocol self g = Ok (r, self', g') ->
  exists photons a b s4,
    sifts self g photons a b s4 g'
    /\ ((a = [] /\ r = mkResult (Some NoSiftedKey) false None None None None /\ self' = s4)
        \/ (a <> []
            /\ exists m,
                 let q := fst (error_estimation s4 a b) in
                 let s5 := snd (error_estimation s4 a b) in
                 security_analysis s5 = Ok m
                 /\ ((secure m = false
                      /\ r = mkResult
                             (Some (QberExceedsThreshold q (qber_threshold (params s5))))
                             false None (Some m) None None
                      /\ self' = s5)
                     \/ (secure m = true
                         /\ let final := privacy_amplification s5
                                           (fst (error_correction s5 a b)) in
                            r = mkResult None true (Some (len (fst final))) (Some m)
                                  (Some (secure_key_rate_bps m))
                                  (Some (if (len photons =? 0)%Z then 0
                                         else flen (fst final) / flen photons))
                            /\ self' = snd final)))).
Proof.
  unfold run_protocol. intros Hrun.
  destruct (alice_prepare self g) as [[photons s1] g1] eqn:Ha.
  destruct (quantum_channel s1 photons g1) as [e|[received g2]] eqn:Hq; [discriminate|].
  bind_step in Hrun.
  destruct (bob_measure s1 received g2) as [[detections s2] g3] eqn:Hb.
  destruct (basis_reconciliation s2) as [e|[[a b] s3]] eqn:Hr; [discriminate|].
  bind_step in Hrun.
  exists photons, a, b, s3. split.
  { exists s1, g1, received, g2, detections, s2.
    destruct (len a =? 0)%Z.
    - injection Hrun as <- <- <-. auto.
    - destruct (error_estimation s3 a b) as [q s4].
      destruct (security_analysis s4) as [e|m']; [discriminate|].
      bind_step in Hrun. destruct (negb (secure m')).
      + injection Hrun as <- <- <-. auto.
      + destruct (error_correction s4 a b) as [ca cb].
        destruct (privacy_amplification s4 ca) as [fk s5].
        injection Hrun as <- <- <-. auto. }
  destruct (len a =? 0)%Z eqn:Hz.
  { apply len_zero in Hz. injection Hrun as <- <- <-. left. auto. }
  right. split; [intros ->; discriminate|].
  destruct (error_estimation s3 a b) as [q s4] eqn:He.
  destruct (security_analysis s4) as [e|m'] eqn:Hs; [discriminate|].
  bind_step in Hrun. exists m'. cbn [fst snd]. split; [exact Hs|].
  destruct (secure m') eqn:Hsec; cbn [negb] in Hrun.
  - right. split; [reflexivity|]. cbv zeta.
    destruct (error_correction s4 a b) as [ca cb]. cbn [fst snd].
    destruct (privacy_amplification s4 ca) as [fk s5].
    injection Hrun as <- <- <-. cbn [fst snd]. split; reflexivity.
  - left. injection Hrun as <- <- <-. auto.
Qed.

(** The three dictionaries [run_protocol] can return. *)
Lemma bb84_run_protocol_shape (self : BB84Protocol) (g : G) (r : ProtocolResult)
    (self' : BB84Protocol) (g' : G) :
  run_protocol self g = Ok (r, self', g') ->
  r = mkResult (Some NoSiftedKey) false None None None None
  \/ (exists q t m,
        r = mkResult (Some (QberExceedsThreshold q t)) false None (Some m) None None)
  \/ (exists n m e,
        r = mkResult None true (Some n) (Some m) (Some (secure_key_rate_bps m)) (Some e)).
Proof.
  intros Hrun.
  destruct (bb84_run_protocol_cases _ _ _ _ _ Hrun) as (photons & a & b & s4 & _ & Hc).
  destruct Hc as [(_ & -> & _)|(_ & m & _ & [(_ & -> & _)|(_ & -> & _)])].
  - left. reflexivity.
  - right. left. eexists _, _, _. reflexivity.
  - right. right. eexists _, _, _. reflexivity.
Qed.

(** A run that returns leaves the recording lists of its sifting stage and
    stores Alice's sifted key. *)
Lemma bb84_run_protocol_state (self : BB84Protocol) (g : G) (r : ProtocolResult)
    (self' : BB84Protocol) (g' : G) :
  run_protocol self g = Ok (r, self', g') ->
  exists photons a b s4 e f,
    sifts self g photons a b s4 g' /\ self' = with_results a e f s4.
Proof.
  intros Hrun.
  destruct (bb84_run_protocol_cases _ _ _ _ _ Hrun) as (photons & a & b & s4 & Hs & Hc).
  assert (Hk : sifted_key s4 = a).
  { destruct Hs as (s1 & g1 & rec & g2 & dets & s2 & _ & _ & _ & Hr).
    apply bb84_basis_reconciliation_lengths in Hr as (_ & _ & _ & ->). reflexivity. }
  assert (Hag : agree s4 self' /\ sifted_key self' = a).
  { destruct Hc as [(_ & _ & ->)|(Hne & m & _ & [(_ & _ & ->)|(_ & _ & ->)])].
    - split; [reflexivity | exact Hk].
    - unfold error_estimation. destruct (negb _ || _); cbn [snd];
        (split; [reflexivity | exact Hk]).
    - unfold privacy_amplification, error_estimation.
      destruct (negb _ || _); cbn [snd]; destruct (len _ =? 0)%Z; cbn [snd];
        (split; [reflexivity | exact Hk]). }
  destruct Hag as [Hag Hsk].
  exists photons, a, b, s4, (error_rate self'), (final_key self').
  split; [exact Hs|]. rewrite <- Hsk. apply bb84_agree_with_results, Hag.
Qed.

End Stages.

Section Laws.
Context {G : Type} `{PyRandom G} `{!PyRandomLaws G} `{PyMath}.

Lemma bb84_quantum_channel_loop_transmitted (self : BB84Protocol) (photons : list Photon)
    (received : list (option Photon)) (g : G) :
  exists new g',
    Forall2 (transmitted self) photons new
    /\ quantum_channel_loop self photons received g = (received ++ new, g').
Proof.
  revert received g. induction photons as [|p photons IH]; intros received g.
  - exists [], g. split; [constructor|]. simpl. rewrite app_nil_r. reflexivity.
  - cbn [quantum_channel_loop]. destruct (random_random g) as [r g1].
    destruct (Qltb r _).
    + pose proof (random_random_unit g1) as [Hr _].
      destruct (random_random g1) as [r' g2]. simpl in Hr.
      destruct (Qltb r' (depolarization_rate (channel self))) eqn:Hd.
      * apply Qltb_lt in Hd.
        destruct (IH (received ++ [Some (mkPhoton (bit p) (flip (basis p)) (is_decoy p)
                                                  (intensity p))]) g2)
          as (new & g' & Hall & ->).
        eexists (_ :: new), g'. split; [|rewrite <- app_assoc; reflexivity].
        constructor; [|exact Hall]. right. split; [|reflexivity].
        apply Qle_lt_trans with r'; assumption.
      * destruct (IH (received ++ [Some p]) g2) as (new & g' & Hall & ->).
        eexists (_ :: new), g'. split; [|rewrite <- app_assoc; reflexivity].
        constructor; [|exact Hall]. left. reflexivity.
    + destruct (IH (received ++ [None]) g1) as (new & g' & Hall & ->).
      eexists (_ :: new), g'. split; [|rewrite <- app_assoc; reflexivity].
      constructor; [exact I | exact Hall].
Qed.

Lemma bb84_bob_measure_loop_measured (n i : Z) (photons : list (option Photon))
    (detections : list Detection) (self : BB84Protocol) (g : G) :
  exists new g',
    Forall2 (measured self n) photons new
    /\ bob_measure_loop n i photons detections self g =
       (detections ++ new,
        set_bob_measurements (bob_measurements self ++ new) self, g').
Proof.
  apply bb84_bob_measure_loop_measured_gen. intros j [p|] ba h.
  - destruct (bool_decide (basis p = ba)) eqn:Hb; cbn [fst measured].
    + simpl. repeat split. exists (bit p). auto.
    + destruct (_generate_random_bit h) as [b h1]. simpl. repeat split.
      exists b. split; [reflexivity|]. intros He.
      rewrite bool_decide_eq_false in Hb. contradiction.
  - pose proof (random_random_unit h) as [Hr _].
    destruct (random_random h) as [r h1]. simpl in Hr.
    destruct (Qltb r _) eqn:Hd.
    + apply Qltb_lt in Hd. destruct (_generate_random_bit h1) as [b h2].
      right. simpl. repeat split; [eexists; reflexivity|].
      apply Qle_lt_trans with r; assumption.
    + left. simpl. auto.
Qed.

(** What channel and detector did to each pulse of a run that sifts. *)
Lemma bb84_sifts_noise (self : BB84Protocol) (g : G) (photons : list Photon)
    (a : list Bit) (b : list (option Bit)) (self' : BB84Protocol) (g' : G) :
  sifts self g photons a b self' g' ->
  exists received detections,
    bob_measurements self' = bob_measurements self ++ detections
    /\ Forall2 (transmitted self) photons received
    /\ Forall2 (measured self (len photons)) received detections.
Proof.
  intros (self1 & g1 & received & g2 & detections & self2 & Ha & Hq & Hm & Hr).
  apply bb84_alice_prepare_records in Ha as (_ & _ & ->).
  unfold quantum_channel in Hq.
  match type of Hq with
  | context [quantum_channel_loop ?s _ _ _] =>
    destruct (bb84_quantum_channel_loop_transmitted s photons [] g1) as (rec & g2' & Ht & Hloop)
  end.
  rewrite Hloop in Hq. destruct (len photons =? 0)%Z; [discriminate|].
  injection Hq as <- <-.
  pose proof (Forall2_length _ _ _ Ht) as Hlen.
  unfold bob_measure in Hm.
  match type of Hm with
  | bob_measure_loop _ _ _ _ ?s _ = _ =>
    destruct (bb84_bob_measure_loop_measured (len rec) 0 rec [] s g2') as (dets & g3 & Hme & Hloop')
  end.
  rewrite Hloop' in Hm. injection Hm as <- <- <-.
  apply bb84_basis_reconciliation_lengths in Hr as (_ & _ & _ & ->).
  exists rec, dets. split; [reflexivity|]. split; [exact Ht|].
  replace (len photons) with (len rec) by (unfold len; lia). exact Hme.
Qed.

(** Without depolarization and without dark counts Bob reads Alice's bit
    at every position the sifting keeps. *)
Lemma bb84_noiseless_positions (self : BB84Protocol) (n : Z) (photons : list Photon)
    (received : list (option Photon)) (detections : list Detection) :
  depolarization_rate (channel self) <= 0 ->
  dark_count_rate (channel self) * duration_seconds (params self) <= 0 ->
  (0 < n)%Z ->
  Forall2 (transmitted self) photons received ->
  Forall2 (measured self n) received detections ->
  Forall (fun ab => snd ab = Some (fst ab)) (omap sift (zip photons detections)).
Proof.
  intros Hdep Hdark Hn Ht. revert detections.
  induction Ht as [|p rp photons received Hp Ht IH]; intros detections Hm.
  - constructor.
  - inversion Hm as [|? d ? detections' Hd Hm' E1 E2]; subst.
    cbn [zip_with].
    change (omap sift (?x :: ?l))
      with (match sift x with Some y => y :: omap sift l | None => omap sift l end).
    specialize (IH _ Hm').
    unfold sift. destruct (detected d) eqn:Hdet; cbn [andb]; [|exact IH].
    destruct (bool_decide (basis p = det_basis d)) eqn:Hb; cbn [andb]; [|exact IH].
    destruct (negb _); [|exact IH].
    constructor; [|exact IH]. cbn [fst snd].
    apply bool_decide_eq_true in Hb.
    destruct rp as [p'|].
    + destruct Hp as [->|[Hpos _]].
      * destruct Hd as (_ & _ & bd & -> & Hbit). rewrite (Hbit Hb). reflexivity.
      * exfalso. apply (Qlt_not_le _ _ Hpos Hdep).
    + destruct Hd as [(Hf & _)|(_ & _ & _ & Hpos)]; [congruence|].
      exfalso. apply (Qlt_not_le _ _ Hpos).
      assert (Hn' : 0 < inject_Z n)
        by (change 0 with (inject_Z 0); rewrite <- Zlt_Qlt; exact Hn).
      apply Qle_shift_div_r; [exact Hn'|]. rewrite Qmult_0_l. exact Hdark.
Qed.

(** At a transmission probability of zero or less every photon is lost. *)
Lemma bb84_quantum_channel_loop_lost (self : BB84Protocol) (photons : list Photon)
    (received : list (option Photon)) (g : G) :
  Forall (fun p => transmission_prob self * intensity p <= 0) photons ->
  exists g',
    quantum_channel_loop self photons received g
    = (received ++ replicate (length photons) None, g').
Proof.
  intros Hall. revert received g.
  induction Hall as [|p photons Hp Hall IH]; intros received g.
  - exists g. simpl. rewrite app_nil_r. reflexivity.
  - cbn [quantum_channel_loop].
    pose proof (random_random_unit g) as [Hr _].
    destruct (random_random g) as [r g1]. cbn [fst] in Hr.
    assert (Hlost : Qltb r (transmission_prob self * intensity p) = false).
    { apply Qltb_ge. apply Qle_trans with 0; assumption. }
    rewrite Hlost. destruct (IH (received ++ [None]) g1) as (g' & ->).
    exists g'. rewrite <- app_assoc. reflexivity.
Qed.

(** Without dark counts a lost photon gives no detection. *)
Lemma bb84_lost_photons_undetected (self : BB84Protocol) (n : Z) (k : nat)
    (detections : list Detection) :
  dark_count_rate (channel self) * duration_seconds (params self) <= 0 ->
  (0 < n)%Z ->
  Forall2 (measured self n) (replicate k None) detections ->
  Forall (fun d => detected d = false) detections.
Proof.
  intros Hdark Hn. revert detections. induction k as [|k IH]; intros detections Hm.
  - inversion Hm. constructor.
  - cbn [replicate] in Hm. inversion Hm as [|? d ? ds Hd Hm' E1 E2]; subst.
    constructor; [|apply IH, Hm'].
    destruct Hd as [(Hf & _)|(_ & _ & _ & Hpos)]; [exact Hf|].
    exfalso. apply (Qlt_not_le _ _ Hpos).
    assert (Hn' : 0 < inject_Z n)
      by (change 0 with (inject_Z 0); rewrite <- Zlt_Qlt; exact Hn).
    apply Qle_shift_div_r; [exact Hn'|]. rewrite Qmult_0_l. exact Hdark.
Qed.

Lemma bb84_undetected_sift (photons : list Photon) (detections : list Detection) :
  Forall (fun d => detected d = false) detections ->
  omap sift (zip photons detections) = [].
Proof.
  intros Hall. revert photons.
  induction Hall as [|d ds Hd Hall IH]; intros [|p photons]; try reflexivity.
  cbn [zip_with].
  change (omap sift (?x :: ?l))
    with (match sift x with Some y => y :: omap sift l | None => omap sift l end).
  unfold sift at 1. rewrite Hd. cbn [andb]. apply IH.
Qed.

(** A detector of efficiency zero on a fresh object: nothing is sifted. *)
Lemma bb84_sifts_nothing (params0 : BB84Parameters) (channel0 : ChannelParameters)
    (g : G) (photons : list Photon) (a : list Bit) (b : list (option Bit))
    (self' : BB84Protocol) (g' : G) :
  detector_efficiency channel0 <= 0 ->
  dark_count_rate channel0 * duration_seconds params0 <= 0 ->
  0 <= weak_intensity params0 -> 0 <= decoy_intensity params0 ->
  sifts (__init__ params0 channel0) g photons a b self' g' ->
  a = [].
Proof.
  intros Heff Hdark Hweak Hdecoy Hs.
  destruct (bb84_fresh_sifted_keys _ _ _ _ _ _ _ _ Hs) as (_ & Hcl & -> & _).
  destruct Hs as (self1 & g1 & received & g2 & detections & self2 & Ha & Hq & Hm & Hr).
  apply bb84_alice_prepare_records in Ha as (_ & _ & ->).
  assert (Htp : transmission_prob (__init__ params0 channel0) <= 0).
  { apply Qmult_nonneg_nonpos; [apply pow10_nonneg | exact Heff]. }
  assert (Hall : Forall (fun p => transmission_prob (__init__ params0 channel0)
                                  * intensity p <= 0) photons).
  { eapply Forall_impl; [exact Hcl|]. intros p Hp. cbn beta.
    assert (Hi : 0 <= intensity p).
    { destruct Hp as [[_ ->]|[_ [->| ->]]]; [discriminate | exact Hdecoy | exact Hweak]. }
    apply Qmult_nonpos_nonneg; assumption. }
  unfold quantum_channel in Hq.
  match type of Hq with
  | context [quantum_channel_loop ?s _ _ _] =>
    destruct (bb84_quantum_channel_loop_lost s photons [] g1 Hall) as (g2' & Hloop)
  end.
  rewrite Hloop in Hq. destruct (len photons =? 0)%Z eqn:Hz; [discriminate|].
  injection Hq as <- <-. cbn [app] in Hm.
  unfold bob_measure in Hm.
  match type of Hm with
  | bob_measure_loop ?n _ ?ph _ ?s _ = _ =>
    destruct (bb84_bob_measure_loop_measured n 0 ph [] s g2') as (dets & g3 & Hme & Hloop')
  end.
  rewrite Hloop' in Hm. injection Hm as <- <- <-.
  apply bb84_basis_reconciliation_lengths in Hr as (_ & _ & _ & ->).
  cbn [bob_measurements set_sifted_key set_bob_measurements set_alice __init__
       set_transmission_prob app].
  rewrite bb84_undetected_sift; [reflexivity|].
  apply (bb84_lost_photons_undetected (__init__ params0 channel0)
           (len (replicate (length photons) (@None Photon))) (length photons)).
  - exact Hdark.
  - unfold len. rewrite length_replicate.
    destruct photons; [discriminate | simpl; lia].
  - exact Hme.
Qed.

Lemma bb84_same_positions (k : list (Bit * option Bit)) :
  Forall (fun ab => snd ab = Some (fst ab)) k -> map snd k = map Some (map fst k).
Proof.
  induction 1 as [|[x y] k Hx _ IH]; [reflexivity|]. simpl in *. rewrite Hx, IH. reflexivity.
Qed.

Lemma bb84_detected_positions (self : BB84Protocol) (n : Z) (photons : list Photon)
    (received : list (option Photon)) (detections : list Detection) :
  Forall2 (transmitted self) photons received ->
  Forall2 (measured self n) received detections ->
  Forall (fun ab => is_Some (snd ab)) (omap sift (zip photons detections)).
Proof.
  intros Ht. revert detections.
  induction Ht as [|p rp photons received Hp Ht IH]; intros detections Hm.
  - constructor.
  - inversion Hm as [|? d ? detections' Hd Hm' E1 E2]; subst.
    cbn [zip_with].
    change (omap sift (?x :: ?l))
      with (match sift x with Some y => y :: omap sift l | None => omap sift l end).
    specialize (IH _ Hm').
    unfold sift. destruct (detected d) eqn:Hdet; cbn [andb]; [|exact IH].
    destruct (bool_decide (basis p = det_basis d)); cbn [andb]; [|exact IH].
    destruct (negb _); [|exact IH].
    constructor; [|exact IH]. cbn [snd].
    destruct rp as [p'|].
    + destruct Hd as (_ & _ & bd & -> & _). eexists; reflexivity.
    + destruct Hd as [(Hf & _)|(_ & Hs & _)]; [congruence | exact Hs].
Qed.

End Laws.
End BB84Pipeline.

(** ** The entangled pipeline, pair by pair *)

Module E91Pipeline.
Import E91 E91Facts.

(** What a measurement loop records for one pair: nothing, or a detected
    measurement stamped with the creation time of the pair, at one of the
    party's angles and with a bit as its result. *)
Definition measures (angles : list Z) (pair0 : EntangledPair) (m : option Measurement)
    : Prop :=
  match m with
  | None => True
  | Some m =>
    basis_angle m ∈ angles /\ (result m = 0%Z \/ result m = 1%Z)
    /\ timestamp m = creation_time pair0 /\ detected m = true
  end.

(** The part of [measures] that holds of every generator. *)
Definition stamped (pair0 : EntangledPair) (m : option Measurement) : Prop :=
  match m with
  | None => True
  | Some m => timestamp m = creation_time pair0 /\ detected m = true
  end.


(** Where the loop of [basis_selection] puts the coincidence at index
    [j]: into the Bell-test subset if [j] was sampled, else into the key
    subset if its angles are key-compatible, else nowhere. *)
Definition to_bell (indices : list nat) (jp : nat * Coincidence) : option Coincidence :=
  if bool_decide (fst jp ∈ indices) then Some (snd jp) else None.
Definition to_key (indices : list nat) (jp : nat * Coincidence) : option Coincidence :=
  if bool_decide (fst jp ∈ indices) then None
  else if _is_key_compatible (basis_angle (fst (snd jp))) (basis_angle (snd (snd jp)))
       then Some (snd jp) else None.

(** The measurements among the entries of a measurement loop. *)
Definition detections (ms : list (option Measurement)) : list Measurement :=
  omap (fun m => m) ms.

(** The correlation value of one pair: [+1] for equal results. *)
Definition correlation (p : Coincidence) : Z :=
  if bool_decide (result (fst p) = result (snd p)) then 1%Z else (-1)%Z.

(** The pairs measured at one combination of angles. *)
Definition at_angles (key : Z * Z) (bell_pairs : list Coincidence) : list Coincidence :=
  filter (fun p => (basis_angle (fst p), basis_angle (snd p)) = key) bell_pairs.

(** The correlation [E(a, b)] of the specification: the mean of the
    correlation values of the Bell-test pairs measured at the angles
    [a] and [b], and [0] when there is none. *)
Definition chsh_correlation (bell_pairs : list Coincidence) (alice_angle bob_angle : Z) : Q :=
  match map correlation (at_angles (alice_angle, bob_angle) bell_pairs) with
  | [] => 0
  | values => average values
  end.

(** [S = |E(a,b) - E(a,b') + E(a',b) + E(a',b')|] at the angles
    [a = 0], [a' = 45], [b = 45], [b' = 135]. *)
Definition chsh_parameter (bell_pairs : list Coincidence) : Q :=
  Qabs (chsh_correlation bell_pairs 0 45 - chsh_correlation bell_pairs 0 135
        + chsh_correlation bell_pairs 45 45 + chsh_correlation bell_pairs 45 135).

Section Stages.
Context {G : Type} `{PyRandom G} `{PyMath}.

Lemma e91_alice_measure_loop_rel (R : EntangledPair -> option Measurement -> Prop)
    (pairs : list EntangledPair) (ms : list (option Measurement))
    (self : E91Protocol) (g : G) :
  (forall pair0, R pair0 None) ->
  (forall pair0 g1,
     let '(angle, g2) := random_choice [0; 45; 90]%Z g1 in
     match fst (_calculate_measurement_result self pair0 angle "alice" g2) with
     | Some res => R pair0 (Some (mkMeasurement angle res (creation_time pair0) true))
     | None => True
     end) ->
  exists new g',
    Forall2 R pairs new
    /\ alice_measure_loop pairs ms self g =
       (ms ++ new,
        set_alice_measurements (alice_measurements self ++ detections new) self, g').
Proof.
  intros Hnone Hstep. revert ms self g Hstep.
  induction pairs as [|p pairs IH]; intros ms self g Hstep.
  - exists [], g. split; [constructor|]. simpl. rewrite !app_nil_r.
    destruct self; reflexivity.
  - cbn [alice_measure_loop]. destruct (random_random g) as [r g1].
    destruct (Qltb (alice_transmission self) r).
    + destruct (IH (ms ++ [None]) self g1 Hstep) as (new & g' & Hall & ->).
      exists (None :: new), g'. split; [constructor; [apply Hnone | exact Hall]|].
      rewrite <- app_assoc. reflexivity.
    + pose proof (Hstep p g1) as Hp.
      destruct (random_choice [0; 45; 90]%Z g1) as [angle g2].
      destruct (_calculate_measurement_result self p angle "alice" g2) as [[res|] g3].
      * cbn [fst] in Hp.
        set (m := mkMeasurement angle res (creation_time p) true) in *.
        destruct (IH (ms ++ [Some m])
                     (set_alice_measurements (alice_measurements self ++ [m]) self) g3 Hstep)
          as (new & g' & Hall & ->).
        exists (Some m :: new), g'. split; [constructor; [exact Hp | exact Hall]|].
        cbn. rewrite <- !app_assoc. reflexivity.
      * destruct (IH (ms ++ [None]) self g3 Hstep) as (new & g' & Hall & ->).
        exists (None :: new), g'. split; [constructor; [apply Hnone | exact Hall]|].
        rewrite <- app_assoc. reflexivity.
Qed.

Lemma e91_bob_measure_loop_rel (R : EntangledPair -> option Measurement -> Prop)
    (pairs : list EntangledPair) (ms : list (option Measurement))
    (self : E91Protocol) (g : G) :
  (forall pair0, R pair0 None) ->
  (forall pair0 g1,
     let '(angle, g2) := random_choice [45; 90; 135]%Z g1 in
     match fst (_calculate_measurement_result self pair0 angle "bob" g2) with
     | Some res => R pair0 (Some (mkMeasurement angle res (creation_time pair0) true))
     | None => True
     end) ->
  exists new g',
    Forall2 R pairs new
    /\ bob_measure_loop pairs ms self g =
       (ms ++ new,
        set_bob_measurements (bob_measurements self ++ detections new) self, g').
Proof.
  intros Hnone Hstep. revert ms self g Hstep.
  induction pairs as [|p pairs IH]; intros ms self g Hstep.
  - exists [], g. split; [constructor|]. simpl. rewrite !app_nil_r.
    destruct self; reflexivity.
  - cbn [bob_measure_loop]. destruct (random_random g) as [r g1].
    destruct (Qltb (bob_transmission self) r).
    + destruct (IH (ms ++ [None]) self g1 Hstep) as (new & g' & Hall & ->).
      exists (None :: new), g'. split; [constructor; [apply Hnone | exact Hall]|].
      rewrite <- app_assoc. reflexivity.
    + pose proof (Hstep p g1) as Hp.
      destruct (random_choice [45; 90; 135]%Z g1) as [angle g2].
      destruct (_calculate_measurement_result self p angle "bob" g2) as [[res|] g3].
      * cbn [fst] in Hp.
        set (m := mkMeasurement angle res (creation_time p) true) in *.
        destruct (IH (ms ++ [Some m])
                     (set_bob_measurements (bob_measurements self ++ [m]) self) g3 Hstep)
          as (new & g' & Hall & ->).
        exists (Some m :: new), g'. split; [constructor; [exact Hp | exact Hall]|].
        cbn. rewrite <- !app_assoc. reflexivity.
      * destruct (IH (ms ++ [None]) self g3 Hstep) as (new & g' & Hall & ->).
        exists (None :: new), g'. split; [constructor; [apply Hnone | exact Hall]|].
        rewrite <- app_assoc. reflexivity.
Qed.

Lemma e91_alice_measure_stamped (self : E91Protocol) (pairs : list EntangledPair) (g : G)
    (ms : list (option Measurement)) (self' : E91Protocol) (g' : G) :
  alice_measure self pairs g = Ok (ms, self', g') ->
  Forall2 stamped pairs ms
  /\ self' = set_alice_measurements (alice_measurements self ++ detections ms) self.
Proof.
  unfold alice_measure. intros Hm.
  destruct (e91_alice_measure_loop_rel stamped pairs [] self g) as (new & g1 & Hall & Hloop).
  { intros; exact I. }
  { intros p g1. destruct (random_choice _ g1) as [angle g2].
    destruct (fst _); [split; reflexivity | exact I]. }
  rewrite Hloop in Hm. destruct (len pairs =? 0)%Z; [discriminate|].
  injection Hm as <- <- <-. auto.
Qed.

Lemma e91_bob_measure_stamped (self : E91Protocol) (pairs : list EntangledPair) (g : G)
    (ms : list (option Measurement)) (self' : E91Protocol) (g' : G) :
  bob_measure self pairs g = Ok (ms, self', g') ->
  Forall2 stamped pairs ms
  /\ self' = set_bob_measurements (bob_measurements self ++ detections ms) self.
Proof.
  unfold bob_measure. intros Hm.
  destruct (e91_bob_measure_loop_rel stamped pairs [] self g) as (new & g1 & Hall & Hloop).
  { intros; exact I. }
  { intros p g1. destruct (random_choice _ g1) as [angle g2].
    destruct (fst _); [split; reflexivity | exact I]. }
  rewrite Hloop in Hm. destruct (len pairs =? 0)%Z; [discriminate|].
  injection Hm as <- <- <-. auto.
Qed.


(** *** basis_selection *)

Lemma e91_basis_selection_loop_parts (indices : list nat) (i : nat)
    (coincidences bell key : list Coincidence) :
  basis_selection_loop indices i coincidences bell key
  = (bell ++ omap (to_bell indices) (zip (seq i (length coincidences)) coincidences),
     key ++ omap (to_key indices) (zip (seq i (length coincidences)) coincidences)).
Proof.
  revert i bell key. induction coincidences as [|[am bm] l IH]; intros i bell key.
  - simpl. rewrite !app_nil_r. reflexivity.
  - cbn [basis_selection_loop length seq zip_with].
    change (omap (to_bell indices) (?x :: ?k))
      with (match to_bell indices x with
            | Some y => y :: omap (to_bell indices) k
            | None => omap (to_bell indices) k end).
    change (omap (to_key indices) (?x :: ?k))
      with (match to_key indices x with
            | Some y => y :: omap (to_key indices) k
            | None => omap (to_key indices) k end).
    unfold to_bell at 1, to_key at 1. cbn [fst snd].
    destruct (bool_decide (i ∈ indices)).
    + rewrite IH, <- app_assoc. reflexivity.
    + destruct (_is_key_compatible _ _); rewrite IH, <- ?app_assoc; reflexivity.
Qed.



(** *** bell_test *)

Lemma e91_correlations_loop_lookup (bell_pairs : list Coincidence)
    (correlations : gmap (Z * Z) (list Z)) (key : Z * Z) :
  correlations_loop bell_pairs correlations !! key
  = match correlations !! key, map correlation (at_angles key bell_pairs) with
    | None, [] => None
    | old, new => Some (default [] old ++ new)
    end.
Proof.
  revert correlations. induction bell_pairs as [|[am bm] l IH]; intros correlations.
  - simpl. destruct (correlations !! key); [rewrite app_nil_r|]; reflexivity.
  - cbn [correlations_loop]. rewrite IH. unfold at_angles. rewrite filter_cons.
    cbn [fst snd]. fold (at_angles key l).
    destruct (decide ((basis_angle am, basis_angle bm) = key)) as [<-|Hne].
    + rewrite lookup_alter_eq. cbn [map].
      change (correlation (am, bm))
        with (if bool_decide (result am = result bm) then 1%Z else (-1)%Z).
      destruct (correlations !! (basis_angle am, basis_angle bm)) as [old|] eqn:Hold.
      * rewrite Hold. cbn. rewrite <- app_assoc. reflexivity.
      * rewrite lookup_insert_eq. cbn.
        destruct (map correlation _); reflexivity.
    + rewrite lookup_alter_ne by exact Hne.
      destruct (correlations !! (basis_angle am, basis_angle bm)).
      * reflexivity.
      * rewrite lookup_insert_ne by exact Hne. reflexivity.
Qed.

Lemma e91_average_lookup (bell_pairs : list Coincidence) (key : Z * Z) :
  default 0 ((average <$> correlations_loop bell_pairs ∅) !! key)
  = chsh_correlation bell_pairs (fst key) (snd key).
Proof.
  rewrite lookup_fmap, e91_correlations_loop_lookup, lookup_empty.
  unfold chsh_correlation. destruct key as [a b]. cbn [fst snd].
  destruct (map correlation _); reflexivity.
Qed.

(** [bell_test] writes the Bell parameter only. *)
Lemma e91_bell_test_keys (self : E91Protocol) (bell : list Coincidence) :
  sifted_key (snd (bell_test self bell)) = sifted_key self
  /\ final_key (snd (bell_test self bell)) = final_key self
  /\ params (snd (bell_test self bell)) = params self.
Proof. unfold bell_test. destruct (len bell <? 4)%Z; repeat split. Qed.


(** *** run_protocol *)

(** The paths of [run_protocol] that return a dictionary. *)
Lemma e91_run_protocol_cases (self : E91Protocol) (g : G) (r : ProtocolResult)
    (self' : E91Protocol) (g' : G) :
  run_protocol self g = Ok (r, self', g') ->
  exists pairs g1 alice_ms s1 g2 bob_ms s2 g3,
    generate_entangled_pairs self g = (pairs, g1)
    /\ alice_measure self pairs g1 = Ok (alice_ms, s1, g2)
    /\ bob_measure s1 pairs g2 = Ok (bob_ms, s2, g3)
    /\ let coincidences := coincidence_filtering s2 alice_ms bob_ms in
       ((coincidences = []
         /\ r = mkResult (Some NoCoincidentDetections) false None None None None
         /\ self' = s2 /\ g' = g3)
        \/ (coincidences <> []
            /\ exists bell key s4,
                 basis_selection s2 coincidences g3 = Ok (bell, key, s4, g')
                 /\ let chsh := fst (bell_test s4 bell) in
                    let s5 := snd (bell_test s4 bell) in
                    let raw := fst (key_sifting s5 key) in
                    let s8 := snd (key_sifting s5 key) in
                    ((raw = []
                      /\ r = mkResult (Some NoKeyMaterial) false None None None None
                      /\ self' = s8)
                     \/ (raw <> []
                         /\ exists m,
                              security_analysis s8 chsh (error_estimation s8 key) = Ok m
                              /\ ((secure m = true
                                   /\ self' = set_final_key
                                                (slice_to (final_length raw) raw) s8
                                   /\ r = mkResult None true (Some (len (final_key self')))
                                             (Some m) (Some chsh)
                                             (Some (if (len pairs =? 0)%Z then 0
                                                    else flen (final_key self')
                                                         / flen pairs)))
                                  \/ (secure m = false /\ self' = s8
                                      /\ r = mkResult (Some SecurityConditionsNotMet) false
                                                None (Some m) (Some chsh) None)))))).
Proof.
  unfold run_protocol. intros Hrun.
  destruct (generate_entangled_pairs self g) as [pairs g1] eqn:Hg.
  destruct (alice_measure self pairs g1) as [e|[[am s1] g2]] eqn:Ha; [discriminate|].
  bind_step in Hrun.
  destruct (bob_measure s1 pairs g2) as [e|[[bm s2] g3]] eqn:Hb; [discriminate|].
  bind_step in Hrun.
  exists pairs, g1, am, s1, g2, bm, s2, g3.
  split; [reflexivity|]. split; [exact Ha|]. split; [exact Hb|]. cbv zeta.
  destruct (len (coincidence_filtering s2 am bm) =? 0)%Z eqn:Hz.
  { apply len_zero in Hz. injection Hrun as <- <- <-. left. auto. }
  right. split; [intros Hn; rewrite Hn in Hz; discriminate|].
  destruct (basis_selection s2 (coincidence_filtering s2 am bm) g3)
    as [e|[[[bell key] s4] g4]] eqn:Hsel; [discriminate|].
  bind_step in Hrun. exists bell, key, s4. cbv zeta.
  destruct (bell_test s4 bell) as [chsh s5] eqn:Hbell. cbn [fst snd].
  destruct (key_sifting s5 key) as [raw s8] eqn:Hk. cbn [fst snd].
  destruct (len raw =? 0)%Z eqn:Hz'.
  { apply len_zero in Hz'. injection Hrun as <- <- <-. split; [first [exact Hsel | reflexivity]|].
    left. split; [exact Hz' | split; reflexivity]. }
  assert (Hne : raw <> []) by (intros ->; discriminate).
  destruct (security_analysis s8 chsh (error_estimation s8 key)) as [e|m'] eqn:Hs;
    [discriminate|].
  bind_step in Hrun.
  destruct (secure m') eqn:Hsec; injection Hrun as <- <- <-.
  - split; [first [exact Hsel | reflexivity]|]. right. split; [exact Hne|]. exists m'. split; [reflexivity|].
    left. split; [exact Hsec|]. split; reflexivity.
  - split; [first [exact Hsel | reflexivity]|]. right. split; [exact Hne|]. exists m'. split; [reflexivity|].
    right. split; [exact Hsec|]. split; reflexivity.
Qed.

(** The four dictionaries [run_protocol] can return. *)
Lemma e91_run_protocol_shape (self : E91Protocol) (g : G) (r : ProtocolResult)
    (self' : E91Protocol) (g' : G) :
  run_protocol self g = Ok (r, self', g') ->
  r = mkResult (Some NoCoincidentDetections) false None None None None
  \/ r = mkResult (Some NoKeyMaterial) false None None None None
  \/ (exists m chsh,
        r = mkResult (Some SecurityConditionsNotMet) false None (Some m) (Some chsh) None)
  \/ (exists n m chsh e, r = mkResult None true (Some n) (Some m) (Some chsh) (Some e)).
Proof.
  intros Hrun.
  destruct (e91_run_protocol_cases _ _ _ _ _ Hrun)
    as (pairs & g1 & am & s1 & g2 & bm & s2 & g3 & _ & _ & _ & Hc).
  cbv zeta in Hc.
  destruct Hc as [(_ & -> & _)|(_ & bell & key & s4 & _ & Hc)]; [left; reflexivity|].
  destruct Hc as [(_ & -> & _)|(_ & m & _ & [(_ & _ & ->)|(_ & _ & ->)])].
  - right. left. reflexivity.
  - right. right. right. eexists _, _, _, _. reflexivity.
  - right. right. left. eexists _, _. reflexivity.
Qed.

End Stages.

Section Laws.
Context {G : Type} `{PyRandom G} `{!PyRandomLaws G} `{PyMath}.

Lemma e91_randint_bit (g : G) :
  fst (random_randint 0 1 g) = 0%Z \/ fst (random_randint 0 1 g) = 1%Z.
Proof.
  pose proof (random_randint_range 0 1 g ltac:(lia)). lia.
Qed.

Lemma e91_calculate_measurement_result_bit (self : E91Protocol) (pair0 : EntangledPair)
    (angle : Z) (party : string) (g : G) :
  exists b, fst (_calculate_measurement_result self pair0 angle party g) = Some b
            /\ (b = 0%Z \/ b = 1%Z).
Proof.
  unfold _calculate_measurement_result.
  repeat match goal with
         | |- context [random_randint 0 1 ?g0] =>
           let Hb := fresh "Hb" in
           pose proof (e91_randint_bit g0) as Hb; destruct (random_randint 0 1 g0); cbn [fst] in Hb
         | |- context [random_random ?g0] => destruct (random_random g0)
         | |- context [if ?c then _ else _] => destruct c
         end;
    cbn [fst]; eexists; (split; [reflexivity | lia]).
Qed.

Lemma e91_alice_measure_measures (self : E91Protocol) (pairs : list EntangledPair) (g : G)
    (ms : list (option Measurement)) (self' : E91Protocol) (g' : G) :
  alice_measure self pairs g = Ok (ms, self', g') ->
  Forall2 (measures [0; 45; 90]%Z) pairs ms.
Proof.
  unfold alice_measure. intros Hm.
  destruct (e91_alice_measure_loop_rel (measures [0; 45; 90]%Z) pairs [] self g)
    as (new & g1 & Hall & Hloop).
  { intros; exact I. }
  { intros p g1. pose proof (random_choice_elem [0; 45; 90]%Z g1 ltac:(discriminate)) as Hc.
    destruct (random_choice _ g1) as [angle g2]. cbn [fst] in Hc.
    destruct (e91_calculate_measurement_result_bit self p angle "alice" g2) as (b & -> & Hb).
    repeat split; assumption. }
  rewrite Hloop in Hm. destruct (len pairs =? 0)%Z; [discriminate|].
  injection Hm as <- <- <-. exact Hall.
Qed.

Lemma e91_bob_measure_measures (self : E91Protocol) (pairs : list EntangledPair) (g : G)
    (ms : list (option Measurement)) (self' : E91Protocol) (g' : G) :
  bob_measure self pairs g = Ok (ms, self', g') ->
  Forall2 (measures [45; 90; 135]%Z) pairs ms.
Proof.
  unfold bob_measure. intros Hm.
  destruct (e91_bob_measure_loop_rel (measures [45; 90; 135]%Z) pairs [] self g)
    as (new & g1 & Hall & Hloop).
  { intros; exact I. }
  { intros p g1. pose proof (random_choice_elem [45; 90; 135]%Z g1 ltac:(discriminate)) as Hc.
    destruct (random_choice _ g1) as [angle g2]. cbn [fst] in Hc.
    destruct (e91_calculate_measurement_result_bit self p angle "bob" g2) as (b & -> & Hb).
    repeat split; assumption. }
  rewrite Hloop in Hm. destruct (len pairs =? 0)%Z; [discriminate|].
  injection Hm as <- <- <-. exact Hall.
Qed.

Lemma e91_bell_subset_size_lemma (self : E91Protocol)
    (coincidences : list Coincidence) (g : G)
    (bell key : list Coincidence) (self' : E91Protocol) (g' : G) :
  basis_selection self coincidences g = Ok (bell, key, self', g') ->
  exists indices,
    key = omap (to_key indices) (zip (seq 0 (length coincidences)) coincidences).
Proof.
  unfold basis_selection.
  destruct (_ || _); [discriminate|].
  destruct (random_sample _ _ g) as [indices g1].
  rewrite e91_basis_selection_loop_parts. cbn [app]. intros [= <- <- <- <-].
  exists indices. reflexivity.
Qed.

(** Alice's result at every coincidence is a bit. *)
Lemma e91_coincidence_bits (self : E91Protocol) (angles : list Z) (pairs : list EntangledPair)
    (alice_ms bob_ms : list (option Measurement)) :
  Forall2 (measures angles) pairs alice_ms ->
  Forall (fun p => result (fst p) = 0%Z \/ result (fst p) = 1%Z)
         (coincidence_filtering self alice_ms bob_ms).
Proof.
  unfold coincidence_filtering. intros Ha. revert bob_ms.
  induction Ha as [|p am pairs alice_ms Hp Ha IH]; intros [|bm bob_ms];
    try (constructor; fail).
  cbn [zip_with].
  change (omap (coincident self) (?x :: ?l))
    with (match coincident self x with
          | Some y => y :: omap (coincident self) l
          | None => omap (coincident self) l end).
  destruct am as [am|], bm as [bm|]; cbn [coincident]; try apply IH.
  destruct (Qle_bool _ _); [|apply IH].
  constructor; [|apply IH]. destruct Hp as (_ & Hb & _). exact Hb.
Qed.


End Laws.

Lemma e91_to_key_subset (P : Coincidence -> Prop) (indices : list nat) (i : nat)
    (coincidences : list Coincidence) :
  Forall P coincidences ->
  Forall P (omap (to_key indices) (zip (seq i (length coincidences)) coincidences)).
Proof.
  intros Hall. revert i. induction Hall as [|p l Hp Hall IH]; intros i; [constructor|].
  cbn [length seq zip_with].
  change (omap (to_key indices) (?x :: ?k))
    with (match to_key indices x with
          | Some y => y :: omap (to_key indices) k
          | None => omap (to_key indices) k end).
  unfold to_key at 1. cbn [fst snd].
  destruct (bool_decide _); [apply IH|].
  destruct (_is_key_compatible _ _); [constructor; [exact Hp | apply IH] | apply IH].
Qed.

Lemma e91_measured_bits (angles : list Z) (pairs : list EntangledPair)
    (ms : list (option Measurement)) (self : E91Protocol)
    (bob_ms : list (option Measurement)) (indices : list nat) :
  Forall2 (measures angles) pairs ms ->
  Forall (fun b => b = 0%Z \/ b = 1%Z)
         (map (fun p => result (fst p))
              (omap (to_key indices)
                    (zip (seq 0 (length (coincidence_filtering self ms bob_ms)))
                         (coincidence_filtering self ms bob_ms)))).
Proof.
  intros Hm. apply List.Forall_map.
  apply (e91_to_key_subset (fun p => result (fst p) = 0%Z \/ result (fst p) = 1%Z)).
  apply (e91_coincidence_bits self angles pairs). exact Hm.
Qed.

End E91Pipeline.

(** ** Example configurations

    One-pulse and one-pair runs on a laboratory bench (distance [0]), a
    six-pair run whose Bell-test subset holds the four CHSH angle pairs,
    and a configuration with a negative distance and an efficiency above
    [1].  The tapes list the uniform draws in the order the run consumes
    them. *)

Definition bb84_one_pulse : BB84.BB84Parameters :=
  BB84.mkParams 1 1 0.5 0.5 0.2 0.1 1.2 2 0.11.
Definition bb84_bench : BB84.ChannelParameters :=
  BB84.mkChannel 0.2 0 0.001 0.8 1e-6 100.

(** Alice: bit [ZERO], rectilinear, signal.  Channel: transmitted and
    depolarised.  Bob: rectilinear, so a random bit, [ONE]. *)
Definition bb84_noisy_tape : list Q := [0.1; 0.1; 0.9; 0.1; 0.0001; 0.1; 0.9].
(** The same pulse, transmitted as prepared. *)
Definition bb84_clean_tape : list Q := [0.1; 0.1; 0.9; 0.1; 0.5; 0.1].

Definition e91_one_pair : E91.E91Parameters :=
  E91.mkParams 1 1 0.8 1e-6 0.1 1 2 1.2 2.
Definition e91_six_pairs : E91.E91Parameters :=
  E91.mkParams 6 1 0.8 1e-6 0.7 1 2 1.2 2.
Definition e91_bench : E91.ChannelParameters :=
  E91.mkChannel 0.2 0 0 0.001 100.

(** One pair, measured at 45 and 90 degrees with equal results. *)
Definition e91_short_tape : list Q :=
  [0.5; 0.1; 0.4; 0.1; 0.1; 0.1; 0.1; 0.4; 0.1; 0.1].

(** The draws of one measurement: detection, angle, detector noise, base
    result and, at 45 and 135 degrees, the fidelity test. *)
Definition alice_at_0 : list Q := [0.01; 0.1; 0.1; 0.1].
Definition alice_at_45 : list Q := [0.01; 0.4; 0.1; 0.1; 0.1].
Definition bob_at_45 : list Q := [0.01; 0.1; 0.1; 0.1; 0.1].
Definition bob_at_90 : list Q := [0.01; 0.4; 0.1; 0.1].
Definition bob_at_135_one : list Q := [0.01; 0.7; 0.1; 0.1; 0.1].
Definition bob_at_135_zero : list Q := [0.01; 0.7; 0.1; 0.6; 0.1].

(** Six pairs at the angles (0,45), (0,135), (45,45), (45,135), (45,90),
    (45,90); the sample takes the first four for the Bell test. *)
Definition e91_long_tape : list Q :=
  [0.5; 0.5; 0.5; 0.5; 0.5; 0.5]
  ++ alice_at_0 ++ alice_at_0 ++ alice_at_45 ++ alice_at_45 ++ alice_at_45 ++ alice_at_45
  ++ bob_at_45 ++ bob_at_135_one ++ bob_at_45 ++ bob_at_135_zero ++ bob_at_90 ++ bob_at_90
  ++ [0; 0; 0; 0].

(** The quantum bound of the CHSH parameter, [0 <= S <= 2 * sqrt 2]. *)
Definition within_quantum_bound (S : Q) : Prop :=
  (0 <= Q2R S <= 2 * sqrt 2)%R.


(** ** The claims *)

Section Claims.
Context {G : Type} `{PyRandom G} `{PyMath}.

(** C1: a run, prepare-and-measure or entangled, whose security check
    fails returns [success = False] with the metrics the check computed
    and no final key: the dictionary has no ["final_key_bits"] and the
    final key of the object stays empty, whatever the length of the sifted
    key.  In particular a QBER at or above the threshold is never
    certified. *)
Theorem failed_check_emits_no_key :
  (forall params channel (g : G) q m self' g',
     BB84Facts.checks (BB84.__init__ params channel) g q m self' g' ->
     BB84.secure m = false ->
     exists r,
       BB84.run_protocol (BB84.__init__ params channel) g = Ok (r, self', g')
       /\ BB84.success r = false /\ BB84.final_key_bits r = None
       /\ BB84.metrics r = Some m /\ len (BB84.final_key self') = 0%Z)
  /\ (forall params channel (g : G) pairs bell chsh raw_key m self' g',
     E91Facts.checks (E91.__init__ params channel) g pairs bell chsh raw_key m self' g' ->
     E91.secure m = false ->
     exists r,
       E91.run_protocol (E91.__init__ params channel) g = Ok (r, self', g')
       /\ E91.success r = false /\ E91.final_key_bits r = None
       /\ E91.metrics r = Some m /\ E91.r_bell_parameter r = Some chsh
       /\ len (E91.final_key self') = 0%Z)
  /\ (forall (self : BB84.BB84Protocol) m,
     BB84.security_analysis self = Ok m ->
     BB84.qber_threshold (BB84.params self) <= BB84.error_rate self ->
     BB84.secure m = false)
  /\ (forall (self : E91.E91Protocol) chsh q m,
     E91.security_analysis self chsh q = Ok m -> 0.11 <= q -> E91.secure m = false).
Proof.
  split; [|split; [|split]].
  - intros params channel g q m self' g' Hc Hsec.
    destruct (BB84Facts.bb84_run_protocol_failed_check _ _ _ _ _ _ Hc Hsec) as [Hrun Hf].
    eexists. split; [exact Hrun|]. cbn [BB84.success BB84.final_key_bits BB84.metrics].
    repeat split. rewrite Hf. reflexivity.
  - intros params channel g pairs bell chsh raw_key m self' g' Hc Hsec.
    destruct (E91Facts.e91_run_protocol_failed_check _ _ _ _ _ _ _ _ _ Hc Hsec)
      as [Hrun Hf].
    eexists. split; [exact Hrun|].
    cbn [E91.success E91.final_key_bits E91.metrics E91.r_bell_parameter].
    repeat split. rewrite Hf. reflexivity.
  - intros self m. apply BB84Facts.bb84_security_analysis_threshold.
  - intros self chsh q m Hm Hq.
    apply E91Facts.e91_security_analysis_verdict in Hm as (_ & _ & ->).
    apply andb_false_iff. right. apply Qltb_ge, Hq.
Qed.


(** C3: the key only shrinks along the pipeline.  On a fresh
    prepare-and-measure object the sifted key is no longer than the pulse
    train, the corrected key no longer than the sifted key and the final
    key no longer than the corrected key; in the entangled variant the raw
    key is no longer than the list of pairs and the two lengths of step 9
    decrease. *)
Theorem key_lengths_shrink :
  (forall params channel (g : G) photons a b self' g' self'',
     BB84Facts.sifts (BB84.__init__ params channel) g photons a b self' g' ->
     let corrected := fst (BB84.error_correction self'' a b) in
     let final := fst (BB84.privacy_amplification self'' corrected) in
     (0 <= length a <= length photons)%nat
     /\ (0 <= length corrected <= length a)%nat
     /\ (0 <= length final <= length corrected)%nat)
  /\ (forall (self : E91.E91Protocol) (g : G) pairs coincidences bell key self' g',
     E91Facts.selects self g pairs coincidences bell key self' g' ->
     let raw_key := fst (E91.key_sifting self' key) in
     (0 <= len raw_key <= len pairs)%Z
     /\ (0 <= E91.corrected_length raw_key <= len raw_key)%Z
     /\ (0 <= E91.final_length raw_key <= E91.corrected_length raw_key)%Z
     /\ len (slice_to (E91.final_length raw_key) raw_key) = E91.final_length raw_key).
Proof.
  split.
  - intros params channel g photons a b self' g' self'' Hs.
    exact (BB84Facts.bb84_run_protocol_lengths _ _ _ _ _ _ _ _ self'' Hs).
  - intros self g pairs coincidences bell key self' g' Hs raw_key.
    apply E91Facts.e91_selects_inv in Hs as (Hc & Hbk & _).
    pose proof (E91Facts.e91_final_length_range raw_key) as [Hf Hcl].
    assert (Hraw : length raw_key = length key)
      by (subst raw_key; simpl; apply length_map).
    assert (Hcl0 : (0 <= E91.corrected_length raw_key)%Z)
      by (unfold E91.corrected_length; lia).
    repeat split; try lia.
    + unfold len. lia.
    + apply slice_to_len. lia.
Qed.

(** C4: for a loss coefficient [>= 0], a distance [>= 0] and a detector
    efficiency in [[0,1]], the transmission probability is
    [10^(-loss*distance/10) * efficiency], a function of these three
    numbers alone; it lies in [[0,1]], and at distance [0] it is the
    detector efficiency itself.  Stated for the real-number formula and for
    [_calculate_transmission] of both classes. *)
Theorem transmission_contract :
  (forall loss_db_per_km distance_km detector_efficiency : R,
     (0 <= loss_db_per_km)%R -> (0 <= distance_km)%R ->
     (0 <= detector_efficiency <= 1)%R ->
     Fiber._calculate_transmission loss_db_per_km distance_km detector_efficiency
       = (Rpower 10 (- loss_db_per_km * distance_km / 10) * detector_efficiency)%R
     /\ (0 <= Fiber._calculate_transmission loss_db_per_km distance_km detector_efficiency
         <= 1)%R
     /\ Fiber._calculate_transmission loss_db_per_km 0 detector_efficiency
        = detector_efficiency)
  /\ (forall self : BB84.BB84Protocol,
     0 <= BB84.loss_db_per_km (BB84.channel self) ->
     0 <= BB84.distance_km (BB84.channel self) ->
     0 <= BB84.detector_efficiency (BB84.channel self) <= 1 ->
     BB84._calculate_transmission self
       = pow10 (- BB84.loss_db_per_km (BB84.channel self)
                * BB84.distance_km (BB84.channel self) / 10)
         * BB84.detector_efficiency (BB84.channel self)
     /\ 0 <= BB84._calculate_transmission self <= 1
     /\ (BB84.distance_km (BB84.channel self) == 0 ->
         BB84._calculate_transmission self
           == BB84.detector_efficiency (BB84.channel self)))
  /\ (forall (self : E91.E91Protocol) (distance_km : Q),
     0 <= E91.loss_db_per_km (E91.channel self) ->
     0 <= distance_km ->
     0 <= E91.detection_efficiency (E91.params self) <= 1 ->
     E91._calculate_transmission self distance_km
       = pow10 (- E91.loss_db_per_km (E91.channel self) * distance_km / 10)
         * E91.detection_efficiency (E91.params self)
     /\ 0 <= E91._calculate_transmission self distance_km <= 1
     /\ E91._calculate_transmission self 0
        == E91.detection_efficiency (E91.params self)).
Proof.
  split; [|split].
  - intros loss d eff Hl Hd [He0 He1]. unfold Fiber._calculate_transmission. cbv zeta.
    split; [reflexivity|]. split.
    + pose proof (Rpower_10_pos (- loss * d / 10)) as Hpos.
      assert (Hle : (Rpower 10 (- loss * d / 10) <= 1)%R)
        by (apply Rpower_10_le_1; nra).
      split; nra.
    + replace (- loss * 0 / 10)%R with 0%R by lra.
      rewrite Rpower_O by lra. lra.
  - intros self Hl Hd [He0 He1]. unfold BB84._calculate_transmission. cbv zeta.
    split; [reflexivity|]. split.
    + apply attenuation_unit; assumption.
    + apply attenuation_at_zero.
  - intros self d Hl Hd [He0 He1]. unfold E91._calculate_transmission. cbv zeta.
    split; [reflexivity|]. split.
    + apply attenuation_unit; assumption.
    + apply attenuation_at_zero. reflexivity.
Qed.

(** C8: for a fixed loss coefficient [>= 0] and a fixed detector
    efficiency (a probability, so [>= 0]), the transmission probability
    does not increase with the distance.  Stated for the real-number
    formula and for [_calculate_transmission] of both classes. *)
Theorem transmission_monotone :
  (forall loss_db_per_km detector_efficiency d1 d2 : R,
     (0 <= loss_db_per_km)%R -> (0 <= detector_efficiency)%R -> (d1 <= d2)%R ->
     (Fiber._calculate_transmission loss_db_per_km d2 detector_efficiency
      <= Fiber._calculate_transmission loss_db_per_km d1 detector_efficiency)%R)
  /\ (forall s1 s2 : BB84.BB84Protocol,
     BB84.loss_db_per_km (BB84.channel s1) = BB84.loss_db_per_km (BB84.channel s2) ->
     BB84.detector_efficiency (BB84.channel s1)
       = BB84.detector_efficiency (BB84.channel s2) ->
     0 <= BB84.loss_db_per_km (BB84.channel s1) ->
     0 <= BB84.detector_efficiency (BB84.channel s1) ->
     BB84.distance_km (BB84.channel s1) <= BB84.distance_km (BB84.channel s2) ->
     BB84._calculate_transmission s2 <= BB84._calculate_transmission s1)
  /\ (forall (self : E91.E91Protocol) (d1 d2 : Q),
     0 <= E91.loss_db_per_km (E91.channel self) ->
     0 <= E91.detection_efficiency (E91.params self) ->
     d1 <= d2 ->
     E91._calculate_transmission self d2 <= E91._calculate_transmission self d1).
Proof.
  split; [|split].
  - intros loss eff d1 d2 Hl He Hd. unfold Fiber._calculate_transmission. cbv zeta.
    apply Rmult_le_compat_r; [exact He|].
    apply Rpower_10_mono. nra.
  - intros s1 s2 Hloss Heff Hl He Hd. unfold BB84._calculate_transmission. cbv zeta.
    rewrite <- Hloss, <- Heff. apply attenuation_mono; assumption.
  - intros self d1 d2 Hl He Hd. unfold E91._calculate_transmission. cbv zeta.
    apply attenuation_mono; assumption.
Qed.


(** C6, amended: on sifted keys of one non-zero length the estimated QBER
    is the number of disagreeing positions over the length (in the
    entangled variant: on a non-empty list of key-compatible coincidences,
    the number of pairs with different results over the length); every
    returned QBER lies in [[0,1]]; and a non-empty sequence compared with
    itself has QBER [0].  On an empty key the estimate is [1.0]. *)
Theorem qber_estimate :
  (forall (self : BB84.BB84Protocol) (a : list BB84.Bit) (b : list (option BB84.Bit)),
     length a = length b -> a <> [] ->
     fst (BB84.error_estimation self a b)
       = inject_Z (Z.of_nat (BB84Facts.disagreements a b)) / flen a)
  /\ (forall (self : BB84.BB84Protocol) (a : list BB84.Bit) (b : list (option BB84.Bit)),
     0 <= fst (BB84.error_estimation self a b) <= 1)
  /\ (forall (self : BB84.BB84Protocol) (a : list BB84.Bit),
     a <> [] -> fst (BB84.error_estimation self a (map Some a)) == 0)
  /\ (forall (self : E91.E91Protocol) (key_pairs : list (E91.Measurement * E91.Measurement)),
     key_pairs <> [] -> E91Facts.key_compatible key_pairs ->
     E91.error_estimation self key_pairs
       = inject_Z (Z.of_nat (E91Facts.disagreements key_pairs)) / flen key_pairs)
  /\ (forall (self : E91.E91Protocol) (key_pairs : list (E91.Measurement * E91.Measurement)),
     0 <= E91.error_estimation self key_pairs <= 1)
  /\ (forall (self : E91.E91Protocol) (key_pairs : list (E91.Measurement * E91.Measurement)),
     key_pairs <> [] -> E91Facts.key_compatible key_pairs ->
     Forall (fun p => E91.result (fst p) = E91.result (snd p)) key_pairs ->
     E91.error_estimation self key_pairs == 0)
  /\ (forall (self : BB84.BB84Protocol), fst (BB84.error_estimation self [] []) = 1)
  /\ (forall (self : E91.E91Protocol), E91.error_estimation self [] = 1).
Proof.
  split; [|split; [|split; [|split; [|split; [|split; [|split]]]]]].
  - intros self a b Hlen Hne.
    rewrite BB84Facts.bb84_error_estimation_counts by assumption. reflexivity.
  - intros self a b. apply BB84Facts.bb84_error_estimation_unit.
  - intros self a Hne.
    rewrite BB84Facts.bb84_error_estimation_counts
      by (try assumption; rewrite length_map; reflexivity).
    cbn [fst]. rewrite BB84Facts.bb84_disagreements_self. reflexivity.
  - intros self key_pairs Hne Hc. apply E91Facts.e91_error_estimation_counts; assumption.
  - intros self key_pairs. apply E91Facts.e91_error_estimation_unit.
  - intros self key_pairs Hne Hc Heq.
    rewrite E91Facts.e91_error_estimation_counts by assumption.
    rewrite E91Facts.e91_disagreements_zero by assumption. reflexivity.
  - intros self. reflexivity.
  - intros self. reflexivity.
Qed.

(** C7, amended: for every configuration and every generator state the
    CHSH parameter that [bell_test] computes, and that a run returns, lies
    in [[0,4]]: it is the absolute value of a signed sum of four
    correlations, each an average of values [+1] and [-1] or the default
    [0] of a missing angle pair. *)
Theorem chsh_parameter_range :
  (forall (self : E91.E91Protocol)
          (bell_pairs : list (E91.Measurement * E91.Measurement)),
     0 <= fst (E91.bell_test self bell_pairs) <= 4)
  /\ (forall params channel (g : G) r self' g' chsh,
     E91.run_protocol (E91.__init__ params channel) g = Ok (r, self', g') ->
     E91.r_bell_parameter r = Some chsh ->
     0 <= chsh <= 4).
Proof.
  assert (Hrange : forall (self : E91.E91Protocol)
                          (bell_pairs : list (E91.Measurement * E91.Measurement)),
             0 <= fst (E91.bell_test self bell_pairs) <= 4).
  { intros self bell_pairs. unfold E91.bell_test.
    destruct (len bell_pairs <? 4)%Z.
    - simpl. split; discriminate.
    - cbv zeta. cbn [fst]. split; [apply Qabs_nonneg|].
      apply Qabs_four; apply E91Facts.e91_correlation_unit. }
  split; [exact Hrange|].
  intros params channel g r self' g' chsh Hrun Hb.
  destruct (E91Facts.e91_run_protocol_bell_parameter _ _ _ _ _ _ Hrun Hb)
    as (s4 & bell & <-).
  apply Hrange.
Qed.


(** C10: when the Bell-test subset holds fewer than four coincidences,
    [bell_test] returns exactly [0.0]; with the Bell violation threshold
    of [2.0] (any non-negative threshold) the security analysis then
    returns [secure = False], and the run that reaches it fails with
    "Security conditions not met". *)
Theorem insufficient_bell_pairs :
  (forall (self : E91.E91Protocol)
          (bell_pairs : list (E91.Measurement * E91.Measurement)) (qber0 : Q),
     (length bell_pairs < 4)%nat ->
     0 <= E91.bell_violation_threshold (E91.params self) ->
     E91.bell_test self bell_pairs = (0, self)
     /\ (forall m,
           E91.security_analysis self (fst (E91.bell_test self bell_pairs)) qber0 = Ok m ->
           E91.secure m = false)
     /\ (~ E91.duration_seconds (E91.params self) == 0 ->
         exists m,
           E91.security_analysis self (fst (E91.bell_test self bell_pairs)) qber0 = Ok m))
  /\ (forall (self : E91.E91Protocol) (g : G) pairs bell_pairs chsh raw_key m self' g',
     E91Facts.checks self g pairs bell_pairs chsh raw_key m self' g' ->
     (length bell_pairs < 4)%nat ->
     0 <= E91.bell_violation_threshold (E91.params self) ->
     chsh = 0 /\ E91.secure m = false
     /\ E91.run_protocol self g =
        Ok (E91.mkResult (Some E91.SecurityConditionsNotMet) false None (Some m)
                         (Some 0) None, self', g')).
Proof.
  split.
  - intros self bell_pairs qber0 Hlen Hthr.
    rewrite (E91Facts.e91_bell_test_insufficient self bell_pairs Hlen). cbn [fst].
    split; [reflexivity|]. split.
    + intros m Hm. apply E91Facts.e91_security_analysis_verdict in Hm as (_ & _ & ->).
      apply andb_false_iff. left. apply Qltb_ge, Hthr.
    + apply E91Facts.e91_security_analysis_total.
  - intros self g pairs bell_pairs chsh raw_key m self' g' Hc Hlen Hthr.
    pose proof (E91Facts.e91_checks_inv _ _ _ _ _ _ _ _ _ Hc)
      as (_ & _ & (Hp & _) & _).
    assert (Hchsh : chsh = 0 /\ E91.secure m = false).
    { destruct Hc as (coincidences & key & s4 & s5 & _ & Hb & _ & _ & Hm).
      rewrite (E91Facts.e91_bell_test_insufficient s4 bell_pairs Hlen) in Hb.
      injection Hb as <- _. split; [reflexivity|].
      apply E91Facts.e91_security_analysis_verdict in Hm as (_ & _ & ->).
      apply andb_false_iff. left. apply Qltb_ge. rewrite <- Hp. exact Hthr. }
    destruct Hchsh as [-> Hsec]. split; [reflexivity|]. split; [exact Hsec|].
    apply (E91Facts.e91_run_protocol_failed_check _ _ _ _ _ _ _ _ _ Hc Hsec).
Qed.

End Claims.

(** ** The claims at the example configurations *)

(** A tactic for the examples: evaluate the closed run in the goal and
    read the existential witnesses off the result. *)
Ltac evaluate_run := vm_compute; repeat eexists.

Lemma failed_check_witness :
  (exists r self' g',
     BB84.run_protocol (BB84.__init__ bb84_one_pulse bb84_bench) bb84_noisy_tape
       = Ok (r, self', g')
     /\ BB84.success r = false /\ BB84.final_key_bits r = None
     /\ (exists m, BB84.metrics r = Some m /\ BB84.secure m = false)
     /\ len (BB84.final_key self') = 0%Z)
  /\ (exists r self' g',
     E91.run_protocol (E91.__init__ e91_one_pair e91_bench) e91_short_tape
       = Ok (r, self', g')
     /\ E91.success r = false /\ E91.final_key_bits r = None
     /\ (exists m, E91.metrics r = Some m /\ E91.secure m = false)
     /\ len (E91.final_key self') = 0%Z).
Proof.
  destruct (failed_check_emits_no_key (G := list Q)) as (Hbb84 & He91 & _).
  split.
  - assert (Hrun : exists r self' g' m,
               BB84.run_protocol (BB84.__init__ bb84_one_pulse bb84_bench) bb84_noisy_tape
                 = Ok (r, self', g')
               /\ BB84.metrics r = Some m /\ BB84.secure m = false)
      by evaluate_run.
    destruct Hrun as (r & self' & g' & m & Hrun & Hm & Hsec).
    destruct (BB84Facts.bb84_run_protocol_inv _ _ _ _ _ _ Hrun Hm) as (q & s4 & Hc & Hs4).
    rewrite <- (Hs4 Hsec) in Hc.
    destruct (Hbb84 _ _ _ _ _ _ _ Hc Hsec) as (r' & Hrun' & Hs & Hb & Hm' & Hf).
    exists r', self', g'. repeat split; try assumption. exists m. split; assumption.
  - assert (Hrun : exists r self' g' m,
               E91.run_protocol (E91.__init__ e91_one_pair e91_bench) e91_short_tape
                 = Ok (r, self', g')
               /\ E91.metrics r = Some m /\ E91.secure m = false)
      by evaluate_run.
    destruct Hrun as (r & self' & g' & m & Hrun & Hm & Hsec).
    destruct (E91Facts.e91_run_protocol_inv _ _ _ _ _ _ Hrun Hm)
      as (pairs & bell & chsh & raw & s8 & Hc & _ & Hs8).
    rewrite <- (Hs8 Hsec) in Hc.
    destruct (He91 _ _ _ _ _ _ _ _ _ _ Hc Hsec) as (r' & Hrun' & Hs & Hb & Hm' & _ & Hf).
    exists r', self', g'. repeat split; try assumption. exists m. split; assumption.
Defined.


Lemma key_lengths_witness :
  (exists photons a b self' g',
     BB84Facts.sifts (BB84.__init__ bb84_one_pulse bb84_bench) bb84_clean_tape
                     photons a b self' g'
     /\ length photons = 1%nat /\ length a = 1%nat
     /\ (length (fst (BB84.error_correction self' a b)) <= length a)%nat
     /\ (length (fst (BB84.privacy_amplification self'
                        (fst (BB84.error_correction self' a b))))
         <= length (fst (BB84.error_correction self' a b)))%nat)
  /\ (exists pairs coincidences bell key self' g',
     E91Facts.selects (E91.__init__ e91_six_pairs e91_bench) e91_long_tape
                      pairs coincidences bell key self' g'
     /\ (len (fst (E91.key_sifting self' key)) <= len pairs)%Z
     /\ (E91.final_length (fst (E91.key_sifting self' key))
         <= E91.corrected_length (fst (E91.key_sifting self' key))
         <= len (fst (E91.key_sifting self' key)))%Z).
Proof.
  destruct (key_lengths_shrink (G := list Q)) as [Hbb84 He91].
  split.
  - assert (Hrun : exists r self' g' m,
               BB84.run_protocol (BB84.__init__ bb84_one_pulse bb84_bench) bb84_clean_tape
                 = Ok (r, self', g')
               /\ BB84.metrics r = Some m)
      by evaluate_run.
    destruct Hrun as (r & self' & g' & m & Hrun & Hm).
    destruct (BB84Facts.bb84_run_protocol_inv _ _ _ _ _ _ Hrun Hm)
      as (q & s4 & (photons & a & b & s3 & Hs & Hne & He & _) & _).
    destruct (Hbb84 _ _ _ _ _ _ _ _ s3 Hs) as (Ha & Hc & Hf).
    assert (Hone : length photons = 1%nat).
    { destruct Hs as (s1 & g1 & _ & _ & _ & _ & Hprep & _).
      vm_compute in Hprep. injection Hprep as <- _ _. reflexivity. }
    exists photons, a, b, s3, g'. repeat split; try assumption; try lia.
    destruct a; [contradiction | simpl in *; lia].
  - assert (Hrun : exists r self' g' m,
               E91.run_protocol (E91.__init__ e91_six_pairs e91_bench) e91_long_tape
                 = Ok (r, self', g')
               /\ E91.metrics r = Some m)
      by evaluate_run.
    destruct Hrun as (r & self' & g' & m & Hrun & Hm).
    destruct (E91Facts.e91_run_protocol_inv _ _ _ _ _ _ Hrun Hm)
      as (pairs & bell & chsh & raw & s8
          & (coincidences & key & s4 & s5 & Hs & _) & _).
    destruct (He91 _ _ _ _ _ _ _ _ Hs) as (Hraw & Hcl & Hfl & _).
    exists pairs, coincidences, bell, key, s4, g'. repeat split; try assumption; lia.
Defined.

Lemma transmission_contract_witness :
  ((0 <= Fiber._calculate_transmission (2/10) 50 (8/10) <= 1)%R
   /\ Fiber._calculate_transmission (2/10) 0 (8/10) = (8/10)%R)
  /\ (0 <= BB84._calculate_transmission (BB84.__init__ bb84_one_pulse bb84_bench) <= 1
      /\ BB84._calculate_transmission (BB84.__init__ bb84_one_pulse bb84_bench) == 0.8)
  /\ (0 <= E91._calculate_transmission (E91.__init__ e91_one_pair e91_bench) 25 <= 1
      /\ E91._calculate_transmission (E91.__init__ e91_one_pair e91_bench) 0 == 0.8).
Proof.
  destruct transmission_contract as (Hreal & Hbb84 & He91).
  split; [|split].
  - destruct (Hreal (2/10)%R 50%R (8/10)%R) as (_ & Hunit & Hzero);
      [lra | lra | lra |].
    split; assumption.
  - destruct (Hbb84 (BB84.__init__ bb84_one_pulse bb84_bench)) as (_ & Hunit & Hzero);
      try discriminate; [split; discriminate|].
    split; [exact Hunit | apply Hzero; reflexivity].
  - destruct (He91 (E91.__init__ e91_one_pair e91_bench) 25) as (_ & Hunit & Hzero);
      try discriminate; [split; discriminate|].
    split; assumption.
Defined.

Lemma transmission_monotone_witness :
  (Fiber._calculate_transmission (2/10) 50 (8/10)
   <= Fiber._calculate_transmission (2/10) 1 (8/10))%R
  /\ BB84._calculate_transmission (BB84.__init__ bb84_one_pulse BB84.default_channel)
     <= BB84._calculate_transmission (BB84.__init__ bb84_one_pulse bb84_bench)
  /\ E91._calculate_transmission (E91.__init__ e91_one_pair e91_bench) 25
     <= E91._calculate_transmission (E91.__init__ e91_one_pair e91_bench) 1.
Proof.
  destruct transmission_monotone as (Hreal & Hbb84 & He91).
  split; [|split].
  - apply (Hreal (2/10)%R (8/10)%R 1%R 50%R); lra.
  - apply Hbb84; try reflexivity; discriminate.
  - apply He91; discriminate.
Defined.

(** An object after an error estimate of one error in ten sifted bits. *)
Definition bb84_estimated : BB84.BB84Protocol :=
  BB84.set_error_rate 0.1 (BB84.__init__ BB84.default_params BB84.default_channel).

Definition ten_bits : list BB84.Bit := repeat BB84.ZERO 10.



Definition equal_results : list (E91.Measurement * E91.Measurement) :=
  [(E91.mkMeasurement 45 1 0 true, E91.mkMeasurement 90 1 0 true);
   (E91.mkMeasurement 0 0 0.5 true, E91.mkMeasurement 45 0 0.5 true)].

Lemma qber_estimate_witness :
  fst (BB84.error_estimation bb84_estimated [BB84.ZERO; BB84.ONE]
                             [Some BB84.ZERO; Some BB84.ZERO])
    = inject_Z 1 / 2
  /\ fst (BB84.error_estimation bb84_estimated ten_bits (map Some ten_bits)) == 0
  /\ E91.error_estimation (E91.__init__ e91_six_pairs e91_bench) equal_results == 0.
Proof.
  destruct qber_estimate as (Hcount & _ & Hself & _ & _ & Hsame & _).
  split; [|split].
  - apply (Hcount bb84_estimated [BB84.ZERO; BB84.ONE] [Some BB84.ZERO; Some BB84.ZERO]);
      [reflexivity | discriminate].
  - apply Hself. discriminate.
  - apply Hsame; [discriminate | |]; repeat constructor.
Defined.

(** C6, counterexample: the empty sequence compared with itself has the
    estimate [1.0], not [0]. *)
Lemma qber_of_empty_key_is_one :
  fst (BB84.error_estimation bb84_estimated [] (map Some [])) = 1
  /\ ~ fst (BB84.error_estimation bb84_estimated [] (map Some [])) == 0.
Proof. split; [reflexivity | discriminate]. Qed.

(** C7, counterexample: in the six-pair run the four Bell-test pairs give
    the correlations [1], [-1], [1], [1], so [S = 4], above [2 * sqrt 2]. *)
Lemma chsh_exceeds_quantum_bound :
  exists r self' g' S,
    E91.run_protocol (E91.__init__ e91_six_pairs e91_bench) e91_long_tape
      = Ok (r, self', g')
    /\ E91.r_bell_parameter r = Some S
    /\ S == 4
    /\ ~ within_quantum_bound S.
Proof.
  assert (Hrun : exists r self' g',
             E91.run_protocol (E91.__init__ e91_six_pairs e91_bench) e91_long_tape
               = Ok (r, self', g')
             /\ E91.r_bell_parameter r = Some 4)
    by evaluate_run.
  destruct Hrun as (r & self' & g' & Hrun & HS).
  exists r, self', g', 4. repeat split; try assumption.
  unfold within_quantum_bound. intros [_ Hle].
  assert (H4 : Q2R 4 = 4%R) by (unfold Q2R; simpl; lra).
  rewrite H4 in Hle.
  assert (Hsqrt : (sqrt 2 < 2)%R).
  { rewrite <- (sqrt_square 2) at 2 by lra. apply sqrt_lt_1; lra. }
  lra.
Qed.

Lemma chsh_parameter_witness :
  exists r self' g' chsh,
    E91.run_protocol (E91.__init__ e91_six_pairs e91_bench) e91_long_tape
      = Ok (r, self', g')
    /\ E91.r_bell_parameter r = Some chsh
    /\ 0 <= chsh <= 4.
Proof.
  destruct (chsh_parameter_range (G := list Q)) as [_ Hrun].
  assert (Hex : exists r self' g' chsh,
             E91.run_protocol (E91.__init__ e91_six_pairs e91_bench) e91_long_tape
               = Ok (r, self', g')
             /\ E91.r_bell_parameter r = Some chsh)
    by evaluate_run.
  destruct Hex as (r & self' & g' & chsh & Hr & Hb).
  exists r, self', g', chsh. split; [exact Hr|]. split; [exact Hb|].
  exact (Hrun _ _ _ _ _ _ _ Hr Hb).
Defined.



Lemma insufficient_bell_pairs_witness :
  E91.bell_test (E91.__init__ e91_one_pair e91_bench) [] = (0, E91.__init__ e91_one_pair e91_bench)
  /\ exists r self' g' m,
       E91.run_protocol (E91.__init__ e91_one_pair e91_bench) e91_short_tape
         = Ok (r, self', g')
       /\ E91.metrics r = Some m /\ E91.secure m = false
       /\ E91.r_bell_parameter r = Some 0.
Proof.
  destruct (insufficient_bell_pairs (G := list Q)) as [Hfun Hrun].
  split.
  - apply (Hfun (E91.__init__ e91_one_pair e91_bench) [] 0); [simpl; lia | discriminate].
  - assert (Hex : exists r self' g' m,
               E91.run_protocol (E91.__init__ e91_one_pair e91_bench) e91_short_tape
                 = Ok (r, self', g')
               /\ E91.metrics r = Some m /\ E91.secure m = false)
      by evaluate_run.
    destruct Hex as (r & self' & g' & m & Hr & Hm & Hsec).
    destruct (E91Facts.e91_run_protocol_inv _ _ _ _ _ _ Hr Hm)
      as (pairs & bell & chsh & raw & s8 & Hc & _ & Hs8).
    rewrite <- (Hs8 Hsec) in Hc.
    assert (Hbell : (length bell < 4)%nat).
    { pose proof (E91Facts.e91_checks_inv _ _ _ _ _ _ _ _ _ Hc) as (Hlen & _).
      destruct Hc as (co & key & s4 & s5 & (g1 & _ & _ & _ & _ & _ & _ & Hg & _) & _).
      vm_compute in Hg. injection Hg as <- _. simpl in Hlen. lia. }
    destruct (Hrun _ _ _ _ _ _ _ _ _ Hc Hbell) as (_ & _ & Hrun'); [discriminate|].
    eexists _, self', g', m. split; [exact Hrun'|].
    repeat split. exact Hsec.
Defined.

(** ** Two further observations *)

(** [run_protocol] does not reset the lists an earlier run recorded on the
    object: run again from the same generator state, the object of the
    one-pulse example sifts the pulses of both runs and returns a key of
    two bits instead of one. *)
Example second_run_rereads_first_run :
  exists r1 self1 g1 r2 self2 g2,
    BB84.run_protocol (BB84.__init__ bb84_one_pulse bb84_bench) bb84_clean_tape
      = Ok (r1, self1, g1)
    /\ BB84.run_protocol self1 bb84_clean_tape = Ok (r2, self2, g2)
    /\ BB84.final_key_bits r1 = Some 1%Z
    /\ BB84.final_key_bits r2 = Some 2%Z
    /\ length (BB84.alice_bases self2) = 2%nat.
Proof.
  match eval vm_compute in
        (BB84.run_protocol (BB84.__init__ bb84_one_pulse bb84_bench) bb84_clean_tape) with
  | inr (?r1, ?s1, ?g1) => exists r1, s1, g1
  end.
  evaluate_run.
Qed.

(** A successful entangled run with a raw key of one or two bits returns
    [success = True] with a final key of no bits: [int(n * 0.8)] is at
    most [1] and [int(1 * 0.7)] is [0]. *)
Lemma short_raw_key_gives_empty_final_key {G : Type} `{PyRandom G} `{PyMath}
    (self : E91.E91Protocol) (g : G) (pairs : list E91.EntangledPair)
    (bell : list (E91.Measurement * E91.Measurement)) (chsh : Q) (raw_key : list Z)
    (m : E91.Metrics) (self' : E91.E91Protocol) (g' : G) :
  E91Facts.checks self g pairs bell chsh raw_key m self' g' ->
  E91.secure m = true -> (length raw_key <= 2)%nat ->
  exists r,
    E91.run_protocol self g = Ok (r, E91.set_final_key [] self', g')
    /\ E91.success r = true /\ E91.final_key_bits r = Some 0%Z.
Proof.
  intros Hc Hsec Hlen.
  destruct (E91Facts.e91_run_protocol_passed_check _ _ _ _ _ _ _ _ _ Hc Hsec)
    as (r & Hrun & Hs & Hbits & _).
  assert (Hzero : E91.final_length raw_key = 0%Z).
  { destruct raw_key as [|x [|y [|z l]]]; try reflexivity. simpl in Hlen. lia. }
  rewrite Hzero in Hrun, Hbits. exists r. repeat split; assumption.
Qed.

Lemma short_raw_key_witness :
  exists r self' g',
    E91.run_protocol (E91.__init__ e91_six_pairs e91_bench) e91_long_tape
      = Ok (r, self', g')
    /\ E91.success r = true /\ E91.final_key_bits r = Some 0%Z.
Proof.
  assert (Hrun : exists r self' g' m,
             E91.run_protocol (E91.__init__ e91_six_pairs e91_bench) e91_long_tape
               = Ok (r, self', g')
             /\ E91.metrics r = Some m /\ E91.secure m = true
             /\ len (E91.sifted_key self') = 2%Z)
    by evaluate_run.
  destruct Hrun as (r & self' & g' & m & Hrun & Hm & Hsec & Hlen).
  destruct (E91Facts.e91_run_protocol_inv _ _ _ _ _ _ Hrun Hm)
    as (pairs & bell & chsh & raw & s8 & Hc & _).
  assert (Hraw : (length raw <= 2)%nat).
  { pose proof (E91Facts.e91_run_protocol_passed_check _ _ _ _ _ _ _ _ _ Hc Hsec)
      as (r' & Hrun' & _).
    rewrite Hrun in Hrun'. injection Hrun' as _ ->.
    pose proof (E91Facts.e91_checks_inv _ _ _ _ _ _ _ _ _ Hc) as (_ & Hk & _).
    cbn [E91.sifted_key E91.set_final_key] in Hlen. rewrite Hk in Hlen.
    unfold len in Hlen. lia. }
  destruct (short_raw_key_gives_empty_final_key _ _ _ _ _ _ _ _ _ Hc Hsec Hraw)
    as (r' & Hrun' & Hs & Hb).
  exists r', (E91.set_final_key [] s8), g'.
  split; [exact Hrun'|]. split; [exact Hs | exact Hb].
Defined.

(** * Further properties of the engine and of its callers *)

(** ** The prepare-and-measure variant *)

Section BB84Coverage.
Import BB84 BB84Facts BB84Pipeline.
Context {G : Type} `{PyRandom G} `{PyMath}.


(** On a freshly constructed object the two sifted keys are read off the
    prepared photons and Bob's detections, position by position: a
    position is kept exactly when Bob detected something, measured in the
    basis of the preparation, and the recorded intensity is not below
    [1.0].  The index-based loop raises no [IndexError]. *)
Theorem sifted_keys_of_a_fresh_run (params0 : BB84Parameters) (channel0 : ChannelParameters)
    (g : G) (photons : list Photon) (self1 : BB84Protocol) (g1 : G)
    (received : list (option Photon)) (g2 : G)
    (detections : list Detection) (self2 : BB84Protocol) (g3 : G) :
  alice_prepare (__init__ params0 channel0) g = (photons, self1, g1) ->
  quantum_channel self1 photons g1 = Ok (received, g2) ->
  bob_measure self1 received g2 = (detections, self2, g3) ->
  let k := omap sift (zip photons detections) in
  basis_reconciliation self2 = Ok (map fst k, map snd k, set_sifted_key (map fst k) self2).
Proof.
  intros Ha Hq Hm k.
  apply bb84_alice_prepare_records in Ha as (_ & _ & ->).
  apply bb84_quantum_channel_length in Hq as [Hlen _].
  unfold bob_measure in Hm.
  match type of Hm with
  | bob_measure_loop _ _ _ _ ?s _ = _ =>
    destruct (bb84_bob_measure_loop_spec (len received) 0 received [] s g2)
      as (dets & g4 & Hlen' & Hloop')
  end.
  rewrite Hloop' in Hm. injection Hm as <- <- <-.
  rewrite bb84_basis_reconciliation_kept.
  - cbn [alice_bits alice_intensities alice_bases bob_measurements set_bob_measurements
         set_alice __init__ set_transmission_prob app].
    rewrite bb84_sifted_positions_sift. reflexivity.
  - unfold recorded. cbn. rewrite !length_map. lia.
Qed.

(** The sifting excludes a pulse by its intensity, not by its decoy flag:
    when both configured decoy intensities are below [1.0], the kept
    positions are exactly the detected, basis-matched positions of signal
    photons. *)
Theorem decoy_pulses_stay_out_of_the_key (params0 : BB84Parameters)
    (channel0 : ChannelParameters)
    (g : G) (photons : list Photon) (a : list Bit) (b : list (option Bit))
    (self' : BB84Protocol) (g' : G) :
  weak_intensity params0 < 1 -> decoy_intensity params0 < 1 ->
  sifts (__init__ params0 channel0) g photons a b self' g' ->
  a = map fst (omap sift_signal (zip photons (bob_measurements self')))
  /\ b = map snd (omap sift_signal (zip photons (bob_measurements self'))).
Proof.
  intros Hw Hd Hs.
  destruct (bb84_fresh_sifted_keys _ _ _ _ _ _ _ _ Hs) as (_ & Hcl & -> & ->).
  rewrite (bb84_sift_signal_classes (__init__ params0 channel0)) by assumption. auto.
Qed.


(** The metrics of the prepare-and-measure security analysis, for a
    positive duration, a non-negative error-correction efficiency and a
    logarithm that is not positive on (0, 1): Eve's estimated information
    lies in [[0,1]], the secure key rate lies between [0] and the raw key
    rate, and it is [0.0] when the verdict is insecure. *)
Theorem bb84_security_metrics (self : BB84Protocol) (m : Metrics) :
  0 < duration_seconds (params self) ->
  0 <= error_correction_efficiency (params self) ->
  (forall x : Q, 0 < x -> x < 1 -> np_log2 x <= 0) ->
  security_analysis self = Ok m ->
  0 <= estimated_eve_information m <= 1
  /\ 0 <= secure_key_rate_bps m <= raw_key_rate_bps m
  /\ (secure m = false -> secure_key_rate_bps m = 0).
Proof.
  intros Hdur Hec Hlog. unfold security_analysis.
  destruct (Qis_zero _) eqn:Hz; [discriminate|]. intros [= <-]. cbn.
  assert (Hraw : 0 <= flen (sifted_key self) / duration_seconds (params self)).
  { apply Qle_shift_div_l; [exact Hdur|]. rewrite Qmult_0_l. apply flen_nonneg. }
  assert (Hh2 : 0 <= h2 (error_rate self)).
  { unfold h2. destruct (Qltb 0 _ && Qltb _ 1) eqn:Hx; [|apply Qle_refl].
    apply andb_true_iff in Hx as [Hx0 Hx1]. apply Qltb_lt in Hx0, Hx1.
    pose proof (Hlog _ Hx0 Hx1) as Hl1.
    assert (Hy0 : 0 < 1 - error_rate self) by lra.
    assert (Hy1 : 1 - error_rate self < 1) by lra.
    pose proof (Hlog _ Hy0 Hy1) as Hl2. nra. }
  split.
  - destruct (Qltb 0 (error_rate self)) eqn:Hpos; [|split; [apply Qle_refl | discriminate]].
    apply Qltb_lt in Hpos. unfold py_min.
    destruct (Qltb (2 * error_rate self) 1) eqn:Hlt.
    + apply Qltb_lt in Hlt. split; lra.
    + split; [discriminate | apply Qle_refl].
  - split.
    + destruct (Qltb (error_rate self) _); [|split; [apply Qle_refl | exact Hraw]].
      apply secure_fraction_bound; assumption.
    + intros ->. reflexivity.
Qed.

(** The dictionary a run on a fresh object returns.  On success it has no
    ["error"], its ["final_key_bits"] is the length of [self.final_key],
    its ["key_rate_bps"] is the secure key rate of its metrics, and its
    ["efficiency"] lies in [[0,1]].  On failure it has an ["error"], none
    of the three keys, and the object has no final key. *)
Theorem bb84_result_keys (params0 : BB84Parameters) (channel0 : ChannelParameters)
    (g : G) (r : ProtocolResult) (self' : BB84Protocol) (g' : G) :
  run_protocol (__init__ params0 channel0) g = Ok (r, self', g') ->
  if success r then
    error r = None
    /\ final_key_bits r = Some (len (final_key self'))
    /\ (exists m, metrics r = Some m /\ secure m = true
                  /\ key_rate_bps r = Some (secure_key_rate_bps m))
    /\ (exists e, efficiency r = Some e /\ 0 <= e <= 1)
  else
    is_Some (error r)
    /\ final_key_bits r = None /\ key_rate_bps r = None /\ efficiency r = None
    /\ final_key self' = [].
Proof.
  intros Hrun.
  destruct (bb84_run_protocol_cases _ _ _ _ _ Hrun) as (photons & a & b & s4 & Hs & Hc).
  pose proof (bb84_sifts_inv _ _ _ _ _ _ _ Hs) as (Hab & _ & Hne & bits & bases & ints & dets & Hs4).
  assert (Hf4 : final_key s4 = []) by (rewrite Hs4; reflexivity).
  destruct Hc as [(_ & -> & ->)|(Ha & m & Hc)]; cbv zeta in *.
  - cbn. repeat split; [eexists; reflexivity | exact Hf4].
  - destruct Hc as (Hm & [(Hsec & -> & ->)|(Hsec & -> & ->)]).
    + cbn. repeat split; [eexists; reflexivity|].
      unfold error_estimation. destruct (negb _ || _); cbn; exact Hf4.
    + cbn [success error final_key_bits metrics key_rate_bps efficiency].
      set (s5 := snd (error_estimation s4 a b)) in *.
      assert (Hf5 : final_key s5 = []).
      { subst s5. unfold error_estimation. destruct (negb _ || _); cbn; exact Hf4. }
      pose proof (bb84_run_protocol_lengths _ _ _ _ _ _ _ _ s5 Hs) as Hlen.
      cbv zeta in Hlen.
      set (ca := fst (error_correction s5 a b)) in *.
      split; [reflexivity|]. split.
      { f_equal. unfold privacy_amplification.
        destruct (len ca =? 0)%Z; cbn; [rewrite Hf5|]; reflexivity. }
      split; [exists m; auto|].
      eexists. split; [reflexivity|].
      destruct (len photons =? 0)%Z eqn:Hz; [split; [apply Qle_refl | discriminate]|].
      apply fraction_unit; unfold len in *; [lia|].
      destruct photons; [contradiction | simpl; lia].
Qed.

End BB84Coverage.

Section BB84Noise.
Import BB84 BB84Facts BB84Pipeline.
Context {G : Type} `{PyRandom G} `{!PyRandomLaws G} `{PyMath}.

(** What channel and detector do to each pulse, under the contract of the
    [random] module.  The channel loses a photon or delivers it with bit,
    decoy flag and intensity unchanged, its basis flipped only at a
    positive depolarization rate.  Bob records a detection for every
    delivered photon, with the photon's bit when he measures in its basis;
    a lost photon gives no detection, or a dark count at a positive dark
    count rate.  So every entry of Bob's sifted key is a bit, never
    [None]. *)
Theorem channel_and_detector_per_pulse (params0 : BB84Parameters)
    (channel0 : ChannelParameters)
    (g : G) (photons : list Photon) (a : list Bit) (b : list (option Bit))
    (self' : BB84Protocol) (g' : G) :
  sifts (__init__ params0 channel0) g photons a b self' g' ->
  (exists received,
     Forall2 (transmitted (__init__ params0 channel0)) photons received
     /\ Forall2 (measured (__init__ params0 channel0) (len photons))
                received (bob_measurements self'))
  /\ Forall (fun bob_bit => is_Some bob_bit) b.
Proof.
  intros Hs.
  destruct (bb84_sifts_noise _ _ _ _ _ _ _ Hs) as (received & dets & Hd & Ht & Hm).
  cbn in Hd. rewrite <- Hd in Hm.
  split; [exists received; auto|].
  destruct (bb84_fresh_sifted_keys _ _ _ _ _ _ _ _ Hs) as (_ & _ & _ & ->).
  apply List.Forall_map. exact (bb84_detected_positions _ _ _ _ _ Ht Hm).
Qed.

(** The noiseless case: without depolarization and without dark counts Bob's
    sifted key equals Alice's on a fresh object, the QBER is [0], and with
    a positive threshold the run succeeds and keeps the whole sifted key as
    the final key (error correction and privacy amplification remove
    nothing).  The only failure left is an empty sifted key. *)
Theorem noiseless_run_keeps_the_whole_sifted_key (params0 : BB84Parameters)
    (channel0 : ChannelParameters) (g : G) (r : ProtocolResult)
    (self' : BB84Protocol) (g' : G) :
  depolarization_rate channel0 <= 0 ->
  dark_count_rate channel0 * duration_seconds params0 <= 0 ->
  0 < qber_threshold params0 ->
  run_protocol (__init__ params0 channel0) g = Ok (r, self', g') ->
  exists photons a s4,
    sifts (__init__ params0 channel0) g photons a (map Some a) s4 g'
    /\ sifted_key self' = a
    /\ ((a = [] /\ error r = Some NoSiftedKey)
        \/ (a <> [] /\ success r = true
            /\ final_key self' = a /\ final_key_bits r = Some (len a)
            /\ exists m, metrics r = Some m /\ qber m == 0)).
Proof.
  intros Hdep Hdark Hthr Hrun.
  destruct (bb84_run_protocol_cases _ _ _ _ _ Hrun) as (photons & a & b & s4 & Hs & Hc).
  pose proof (bb84_sifts_inv _ _ _ _ _ _ _ Hs)
    as (Hab & _ & Hne & bits & bases & ints & dets & Hs4).
  assert (Hb : b = map Some a).
  { destruct (bb84_sifts_noise _ _ _ _ _ _ _ Hs) as (received & dets' & Hd & Ht & Hm).
    destruct (bb84_fresh_sifted_keys _ _ _ _ _ _ _ _ Hs) as (_ & _ & -> & ->).
    cbn in Hd. rewrite <- Hd in Hm.
    apply bb84_same_positions.
    apply (bb84_noiseless_positions (__init__ params0 channel0) (len photons) photons received);
      try assumption.
    unfold len. destruct photons; [contradiction | simpl; lia]. }
  subst b. exists photons, a, s4. split; [exact Hs|].
  assert (Hk : sifted_key s4 = a) by (rewrite Hs4; reflexivity).
  destruct Hc as [(-> & -> & ->)|(Ha & m & Hc)]; cbv zeta in *.
  - split; [exact Hk|]. left. auto.
  - rewrite bb84_error_estimation_counts in Hc by assumption.
    rewrite bb84_disagreements_self in Hc. cbn [fst snd] in Hc.
    destruct Hc as (Hm & Hc).
    pose proof (bb84_security_analysis_verdict _ _ Hm) as [Hq Hsec].
    cbn [error_rate set_error_rate params] in Hq, Hsec.
    assert (Hzero : inject_Z (Z.of_nat 0) / flen a == 0) by (unfold Qdiv; ring).
    assert (Htrue : secure m = true).
    { rewrite Hsec. apply Qltb_lt. rewrite Hzero, Hs4. exact Hthr. }
    destruct Hc as [(Hf & _)|(_ & -> & ->)]; [congruence|].
    destruct (bb84_zero_rate_key (set_error_rate (inject_Z (Z.of_nat 0) / flen a) s4) a (map Some a))
      as [Hec Hpa]; [exact Hzero | exact Hab | exact Ha|].
    rewrite Hec. cbn [fst]. rewrite Hpa. cbn [fst snd].
    split; [exact Hk|]. right. split; [exact Ha|]. repeat split.
    exists m. split; [reflexivity|]. rewrite Hq. exact Hzero.
Qed.

(** A detector of efficiency zero and no dark counts: every photon is lost,
    nothing is detected, and every run that returns reports
    ["No sifted key generated"]. *)
Theorem dead_detector_sifts_no_key (params0 : BB84Parameters)
    (channel0 : ChannelParameters) (g : G) (r : ProtocolResult)
    (self' : BB84Protocol) (g' : G) :
  detector_efficiency channel0 <= 0 ->
  dark_count_rate channel0 * duration_seconds params0 <= 0 ->
  0 <= weak_intensity params0 -> 0 <= decoy_intensity params0 ->
  run_protocol (__init__ params0 channel0) g = Ok (r, self', g') ->
  r = mkResult (Some NoSiftedKey) false None None None None
  /\ sifted_key self' = [] /\ final_key self' = [].
Proof.
  intros Heff Hdark Hweak Hdecoy Hrun.
  destruct (bb84_run_protocol_cases _ _ _ _ _ Hrun) as (photons & a & b & s4 & Hs & Hc).
  pose proof (bb84_sifts_nothing _ _ _ _ _ _ _ _ Heff Hdark Hweak Hdecoy Hs) as ->.
  pose proof (bb84_sifts_inv _ _ _ _ _ _ _ Hs)
    as (_ & _ & _ & bits & bases & ints & dets & Hs4).
  destruct Hc as [(_ & -> & ->)|(Hne & _)]; [|contradiction].
  rewrite Hs4. repeat split.
Qed.

End BB84Noise.

(** Two pulses on an ideal bench: a signal pulse and a decoy pulse, both
    transmitted and measured in the basis of their preparation. *)
Definition bb84_two_pulses : BB84.BB84Parameters :=
  BB84.mkParams 2 1 0.5 0.5 0.2 0.1 1.2 2 0.11.
Definition bb84_ideal : BB84.ChannelParameters :=
  BB84.mkChannel 0.2 0 0 0.8 0 100.
Definition bb84_two_pulse_tape : list nat :=
  [10; 10; 90;  10; 10; 10;  10; 50;  5; 50;  10;  10]%nat.

Lemma bb84_two_pulse_run :
  exists r self' g',
    BB84.run_protocol (BB84.__init__ bb84_two_pulses bb84_ideal) bb84_two_pulse_tape
    = Ok (r, self', g').
Proof. evaluate_run. Qed.

Lemma bb84_two_pulse_sifts :
  exists photons a b self' g',
    BB84Facts.sifts (BB84.__init__ bb84_two_pulses bb84_ideal) bb84_two_pulse_tape
                    photons a b self' g'.
Proof.
  destruct bb84_two_pulse_run as (r & s & g' & Hrun).
  destruct (BB84Pipeline.bb84_run_protocol_state _ _ _ _ _ Hrun)
    as (photons & a & b & s4 & _ & _ & Hs & _).
  exists photons, a, b, s4, g'. exact Hs.
Qed.


Lemma sifted_keys_witness :
  exists photons detections self2,
    BB84.basis_reconciliation self2
    = Ok (map fst (omap BB84Pipeline.sift (zip photons detections)),
          map snd (omap BB84Pipeline.sift (zip photons detections)),
          BB84.set_sifted_key
            (map fst (omap BB84Pipeline.sift (zip photons detections))) self2)
    /\ BB84.params self2 = bb84_two_pulses.
Proof.
  destruct bb84_two_pulse_sifts
    as (photons & a & b & s & g'
        & self1 & g1 & received & g2 & detections & self2 & Ha & Hq & Hm & Hr).
  exists photons, detections, self2.
  split; [exact (sifted_keys_of_a_fresh_run _ _ _ _ _ _ _ _ _ _ _ Ha Hq Hm)|].
  apply BB84Pipeline.bb84_alice_prepare_records in Ha as (_ & _ & ->).
  unfold BB84.bob_measure in Hm.
  match type of Hm with
  | BB84.bob_measure_loop _ _ _ _ ?s0 _ = _ =>
    destruct (BB84Facts.bb84_bob_measure_loop_spec (len received) 0 received [] s0 g2)
      as (dets & g4 & _ & Hloop)
  end.
  rewrite Hloop in Hm. injection Hm as _ <- _. reflexivity.
Defined.

Lemma decoy_pulses_witness :
  exists photons a b self' g',
    BB84Facts.sifts (BB84.__init__ bb84_two_pulses bb84_ideal) bb84_two_pulse_tape
                    photons a b self' g'
    /\ a = map fst (omap BB84Pipeline.sift_signal
                         (zip photons (BB84.bob_measurements self'))).
Proof.
  destruct bb84_two_pulse_sifts as (photons & a & b & s & g' & Hs).
  exists photons, a, b, s, g'. split; [exact Hs|].
  assert (Hw : BB84.weak_intensity bb84_two_pulses < 1) by reflexivity.
  assert (Hd : BB84.decoy_intensity bb84_two_pulses < 1) by reflexivity.
  apply (decoy_pulses_stay_out_of_the_key _ _ _ _ _ _ _ _ Hw Hd Hs).
Defined.


Lemma security_metrics_witness :
  exists m,
    BB84.security_analysis
      (BB84.set_sifted_key [BB84.ZERO] (BB84.__init__ bb84_two_pulses bb84_ideal)) = Ok m
    /\ 0 <= BB84.secure_key_rate_bps m <= BB84.raw_key_rate_bps m.
Proof.
  assert (Hm : exists m,
             BB84.security_analysis
               (BB84.set_sifted_key [BB84.ZERO]
                  (BB84.__init__ bb84_two_pulses bb84_ideal)) = Ok m)
    by (vm_compute; eexists; reflexivity).
  destruct Hm as [m Hm]. exists m. split; [exact Hm|].
  assert (Hdur : 0 < BB84.duration_seconds bb84_two_pulses) by reflexivity.
  assert (Hec : 0 <= BB84.error_correction_efficiency bb84_two_pulses) by discriminate.
  exact (proj1 (proj2 (bb84_security_metrics
                         (BB84.set_sifted_key [BB84.ZERO]
                            (BB84.__init__ bb84_two_pulses bb84_ideal))
                         m Hdur Hec table_log2_unit Hm))).
Defined.

Lemma result_keys_witness :
  exists r self' g',
    BB84.run_protocol (BB84.__init__ bb84_two_pulses bb84_ideal) bb84_two_pulse_tape
    = Ok (r, self', g')
    /\ BB84.success r = true
    /\ BB84.final_key_bits r = Some (len (BB84.final_key self')).
Proof.
  assert (Hrun : exists r self' g',
             BB84.run_protocol (BB84.__init__ bb84_two_pulses bb84_ideal)
                               bb84_two_pulse_tape = Ok (r, self', g')
             /\ BB84.success r = true) by evaluate_run.
  destruct Hrun as (r & s & g' & Hrun & Hsucc).
  exists r, s, g'. split; [exact Hrun|]. split; [exact Hsucc|].
  pose proof (bb84_result_keys _ _ _ _ _ _ Hrun) as Hk. rewrite Hsucc in Hk.
  apply Hk.
Defined.

Lemma channel_and_detector_witness :
  exists photons a b self' g',
    BB84Facts.sifts (BB84.__init__ bb84_two_pulses bb84_ideal) bb84_two_pulse_tape
                    photons a b self' g'
    /\ Forall (fun bob_bit => is_Some bob_bit) b.
Proof.
  destruct bb84_two_pulse_sifts as (photons & a & b & s & g' & Hs).
  exists photons, a, b, s, g'. split; [exact Hs|].
  apply (channel_and_detector_per_pulse _ _ _ _ _ _ _ _ Hs).
Defined.

Lemma noiseless_run_witness :
  exists r self' g',
    BB84.run_protocol (BB84.__init__ bb84_two_pulses bb84_ideal) bb84_two_pulse_tape
    = Ok (r, self', g')
    /\ BB84.success r = true /\ BB84.final_key self' = BB84.sifted_key self'.
Proof.
  assert (Hrun : exists r self' g',
             BB84.run_protocol (BB84.__init__ bb84_two_pulses bb84_ideal)
                               bb84_two_pulse_tape = Ok (r, self', g')
             /\ BB84.error r = None) by evaluate_run.
  destruct Hrun as (r & s & g' & Hrun & Herr).
  exists r, s, g'. split; [exact Hrun|].
  assert (Hdep : BB84.depolarization_rate bb84_ideal <= 0) by discriminate.
  assert (Hdark : BB84.dark_count_rate bb84_ideal * BB84.duration_seconds bb84_two_pulses <= 0)
    by discriminate.
  assert (Hthr : 0 < BB84.qber_threshold bb84_two_pulses) by reflexivity.
  destruct (noiseless_run_keeps_the_whole_sifted_key _ _ _ _ _ _ Hdep Hdark Hthr Hrun)
    as (photons & a & s4 & _ & Hk & [(_ & He)|(_ & Hsucc & Hf & _)]).
  - rewrite Herr in He. discriminate.
  - split; [exact Hsucc|]. rewrite Hf, Hk. reflexivity.
Defined.

(** A detector that never fires. *)
Definition bb84_dead : BB84.ChannelParameters :=
  BB84.mkChannel 0.2 0 0 0 0 100.

Lemma dead_detector_witness :
  exists self' g',
    BB84.run_protocol (BB84.__init__ bb84_two_pulses bb84_dead) bb84_two_pulse_tape
    = Ok (BB84.mkResult (Some BB84.NoSiftedKey) false None None None None, self', g').
Proof.
  assert (Hrun : exists r self' g',
             BB84.run_protocol (BB84.__init__ bb84_two_pulses bb84_dead)
                               bb84_two_pulse_tape = Ok (r, self', g')) by evaluate_run.
  destruct Hrun as (r & s & g' & Hrun). exists s, g'.
  assert (Heff : BB84.detector_efficiency bb84_dead <= 0) by discriminate.
  assert (Hdark : BB84.dark_count_rate bb84_dead * BB84.duration_seconds bb84_two_pulses <= 0)
    by discriminate.
  assert (Hweak : 0 <= BB84.weak_intensity bb84_two_pulses) by discriminate.
  assert (Hdecoy : 0 <= BB84.decoy_intensity bb84_two_pulses) by discriminate.
  destruct (dead_detector_sifts_no_key _ _ _ _ _ _ Heff Hdark Hweak Hdecoy Hrun) as (<- & _).
  exact Hrun.
Defined.

(** ** The entangled variant *)

Section E91Coverage.
Import E91 E91Facts E91Pipeline.
Context {G : Type} `{PyRandom G} `{PyMath}.



(** With at least four Bell-test pairs [bell_test] returns, and stores on
    the object, the CHSH expression of the specification: each correlation
    is the mean of the [+1]/[-1] values of the pairs measured at its two
    angles, [0] when there is none, and the dictionary built by the loop
    holds exactly these lists. *)
Theorem bell_test_computes_the_chsh_formula (self : E91Protocol)
    (bell_pairs : list Coincidence) :
  (4 <= length bell_pairs)%nat ->
  bell_test self bell_pairs
  = (chsh_parameter bell_pairs, set_bell_parameter (chsh_parameter bell_pairs) self).
Proof.
  intros Hlen. unfold bell_test.
  destruct (len bell_pairs <? 4)%Z eqn:Hlt; [apply Z.ltb_lt in Hlt; unfold len in Hlt; lia|].
  cbv zeta. rewrite !e91_average_lookup. reflexivity.
Qed.

(** The metrics of the entangled security analysis, for a positive
    duration, a non-negative error-correction efficiency and a logarithm
    that is not positive on (0, 1): the secure key rate lies between [0]
    and the raw key rate and is [0.0] when the verdict is insecure;
    ["eavesdropper_detected"] says that the Bell parameter is below the
    classical bound [2.0], whatever the configured threshold, and a secure
    verdict at a threshold of at least [2.0] excludes it. *)
Theorem e91_security_metrics (self : E91Protocol) (bell_parameter0 qber0 : Q) (m : Metrics) :
  0 < duration_seconds (params self) ->
  0 <= error_correction_efficiency (params self) ->
  (forall x : Q, 0 < x -> x < 1 -> np_log2 x <= 0) ->
  security_analysis self bell_parameter0 qber0 = Ok m ->
  0 <= secure_key_rate_bps m <= raw_key_rate_bps m
  /\ (secure m = false -> secure_key_rate_bps m = 0)
  /\ (eavesdropper_detected m = true <-> bell_parameter0 < 2)
  /\ (2 <= bell_violation_threshold (params self) -> secure m = true ->
      eavesdropper_detected m = false).
Proof.
  intros Hdur Hec Hlog. unfold security_analysis.
  destruct (Qis_zero _) eqn:Hz; [discriminate|]. intros [= <-]. cbn.
  assert (Hraw : 0 <= flen (sifted_key self) / duration_seconds (params self)).
  { apply Qle_shift_div_l; [exact Hdur|]. rewrite Qmult_0_l. apply flen_nonneg. }
  assert (Hh2 : 0 <= h2 qber0).
  { unfold h2. destruct (Qltb 0 _ && Qltb _ 1) eqn:Hx; [|apply Qle_refl].
    apply andb_true_iff in Hx as [Hx0 Hx1]. apply Qltb_lt in Hx0, Hx1.
    pose proof (Hlog _ Hx0 Hx1) as Hl1.
    assert (Hy0 : 0 < 1 - qber0) by lra.
    assert (Hy1 : 1 - qber0 < 1) by lra.
    pose proof (Hlog _ Hy0 Hy1) as Hl2. nra. }
  split.
  { destruct (Qltb _ bell_parameter0 && Qltb qber0 0.11);
      [apply secure_fraction_bound; assumption | split; [apply Qle_refl | exact Hraw]]. }
  split; [intros ->; reflexivity|].
  split; [apply Qltb_lt|].
  intros Hthr Hsec. apply andb_true_iff in Hsec as [Hs _]. apply Qltb_lt in Hs.
  apply Qltb_ge. lra.
Qed.


(** The dictionary an entangled run returns.  On success it has no
    ["error"], its ["final_key_bits"] is the length of [self.final_key],
    it carries metrics with a secure verdict and the Bell parameter, and
    its ["efficiency"] lies in [[0,1]].  On failure it has an ["error"],
    neither ["final_key_bits"] nor ["efficiency"], the Bell parameter
    exactly when it has metrics, and [self.final_key] is left as it was. *)
Theorem e91_result_keys (self : E91Protocol) (g : G) (r : ProtocolResult)
    (self' : E91Protocol) (g' : G) :
  run_protocol self g = Ok (r, self', g') ->
  if success r then
    error r = None
    /\ final_key_bits r = Some (len (final_key self'))
    /\ (exists m, metrics r = Some m /\ secure m = true)
    /\ is_Some (r_bell_parameter r)
    /\ (exists e, efficiency r = Some e /\ 0 <= e <= 1)
  else
    is_Some (error r)
    /\ final_key_bits r = None /\ efficiency r = None
    /\ (is_Some (metrics r) <-> is_Some (r_bell_parameter r))
    /\ final_key self' = final_key self.
Proof.
  intros Hrun.
  destruct (e91_run_protocol_cases _ _ _ _ _ Hrun)
    as (pairs & g1 & am & s1 & g2 & bm & s2 & g3 & Hg & Ha & Hb & Hc).
  cbv zeta in Hc.
  pose proof (e91_generate_entangled_pairs_length self g) as Hlen. rewrite Hg in Hlen.
  cbn [fst] in Hlen.
  pose proof Ha as Ha'. pose proof Hb as Hb'.
  apply e91_alice_measure_stamped in Ha as [Hsa ->].
  apply e91_bob_measure_stamped in Hb as [Hsb ->].
  destruct Hc as [(_ & -> & -> & _)|(Hne & bell & key & s4 & Hsel & Hc)].
  { cbn. repeat split; try (eexists; reflexivity);
      intros [x Hx]; discriminate. }
  pose proof (e91_basis_selection_inv _ _ _ _ _ _ _ Hsel) as (-> & Hparts & _).
  match type of Hc with
  | context [bell_test ?s bell] => pose proof (e91_bell_test_keys s bell) as (Hk5 & Hf5 & _)
  end.
  destruct Hc as [(_ & -> & ->)|(Hraw & m & Hm & [(Hsec & -> & ->)|(Hsec & -> & ->)])].
  - cbn [success error final_key_bits metrics r_bell_parameter efficiency].
    split; [eexists; reflexivity|]. split; [reflexivity|]. split; [reflexivity|].
    split; [split; intros [x Hx]; discriminate|].
    cbn [key_sifting snd final_key set_sifted_key]. rewrite Hf5. reflexivity.
  - cbn [success error final_key_bits metrics r_bell_parameter efficiency].
    split; [reflexivity|]. split; [reflexivity|]. split; [exists m; auto|].
    split; [eexists; reflexivity|].
    eexists. split; [reflexivity|].
    destruct (len pairs =? 0)%Z eqn:Hz; [split; [apply Qle_refl | discriminate]|].
    assert (Hp : pairs <> []) by (intros ->; discriminate).
    pose proof (e91_final_length_range (map (fun p => result (fst p)) key)) as [Hfl Hcl].
    pose proof (e91_coincidence_filtering_length
                  (set_bob_measurements
                     (bob_measurements
                        (set_alice_measurements
                           (alice_measurements self ++ detections am) self)
                      ++ detections bm)
                     (set_alice_measurements
                        (alice_measurements self ++ detections am) self)) am bm) as Hco.
    pose proof (Forall2_length _ _ _ Hsa) as Hla.
    cbn [final_key set_final_key key_sifting fst snd] in *.
    unfold flen. rewrite slice_to_len.
    + apply fraction_unit.
      * unfold len in *. rewrite length_map in Hcl. lia.
      * unfold len. destruct pairs; [contradiction | simpl; lia].
    + unfold len in *. lia.
  - cbn [success error final_key_bits metrics r_bell_parameter efficiency].
    split; [eexists; reflexivity|]. split; [reflexivity|]. split; [reflexivity|].
    split; [split; intros _; eexists; reflexivity|].
    cbn [key_sifting snd final_key set_sifted_key]. rewrite Hf5. reflexivity.
Qed.

End E91Coverage.

Section E91Laws.
Import E91 E91Facts E91Pipeline.
Context {G : Type} `{PyRandom G} `{!PyRandomLaws G} `{PyMath}.


(** What the two measurement loops record, under the contract of the
    [random] module: for each pair nothing or a detected measurement
    stamped with the creation time of the pair, at one of the party's
    three angles, with a result that is a bit ([_calculate_measurement_result]
    never returns [None]); the detected measurements are appended, in
    order, to the party's list on the object. *)
Theorem measurements_are_stamped_bits (self : E91Protocol) (pairs : list EntangledPair)
    (g : G) (alice_ms bob_ms : list (option Measurement))
    (self1 self2 : E91Protocol) (g1 g2 : G) :
  alice_measure self pairs g = Ok (alice_ms, self1, g1) ->
  bob_measure self1 pairs g1 = Ok (bob_ms, self2, g2) ->
  Forall2 (measures [0; 45; 90]%Z) pairs alice_ms
  /\ Forall2 (measures [45; 90; 135]%Z) pairs bob_ms
  /\ alice_measurements self2 = alice_measurements self ++ detections alice_ms
  /\ bob_measurements self2 = bob_measurements self ++ detections bob_ms.
Proof.
  intros Ha Hb.
  pose proof (e91_alice_measure_measures _ _ _ _ _ _ Ha) as Hma.
  pose proof (e91_bob_measure_measures _ _ _ _ _ _ Hb) as Hmb.
  apply e91_alice_measure_stamped in Ha as [_ ->].
  apply e91_bob_measure_stamped in Hb as [_ ->].
  repeat split; assumption.
Qed.


(** After a run on a fresh object, every element of the sifted key is a
    bit, and the final key is a prefix of the sifted key. *)
Theorem e91_keys_are_bits (params0 : E91Parameters) (channel0 : ChannelParameters)
    (g : G) (r : ProtocolResult) (self' : E91Protocol) (g' : G) :
  run_protocol (__init__ params0 channel0) g = Ok (r, self', g') ->
  Forall (fun b => b = 0%Z \/ b = 1%Z) (sifted_key self')
  /\ final_key self' `prefix_of` sifted_key self'.
Proof.
  intros Hrun.
  destruct (e91_run_protocol_cases _ _ _ _ _ Hrun)
    as (pairs & g1 & am & s1 & g2 & bm & s2 & g3 & Hg & Ha & Hb & Hc).
  cbv zeta in Hc.
  pose proof (e91_alice_measure_measures _ _ _ _ _ _ Ha) as Hma.
  apply e91_alice_measure_stamped in Ha as [_ ->].
  apply e91_bob_measure_stamped in Hb as [_ ->].
  destruct Hc as [(_ & _ & -> & _)|(Hne & bell & key & s4 & Hsel & Hc)].
  { cbn. split; [constructor | reflexivity]. }
  destruct (e91_bell_subset_size_lemma _ _ _ _ _ _ _ Hsel) as (indices & Hkey).
  pose proof (e91_basis_selection_inv _ _ _ _ _ _ _ Hsel) as (-> & _ & _).
  match type of Hc with
  | context [bell_test ?s bell] => pose proof (e91_bell_test_keys s bell) as (Hk5 & Hf5 & _)
  end.
  assert (Hbits : Forall (fun b => b = 0%Z \/ b = 1%Z) (map (fun p => result (fst p)) key)).
  { rewrite Hkey. apply (e91_measured_bits [0; 45; 90]%Z pairs). exact Hma. }
  destruct Hc as [(Hraw & _ & ->)|(Hraw & m & Hm & [(Hsec & -> & _)|(Hsec & -> & _)])];
    cbn [key_sifting fst snd sifted_key final_key set_sifted_key set_final_key] in *.
  - split; [exact Hbits|]. rewrite Hf5. cbn. apply prefix_nil.
  - split; [exact Hbits|]. unfold slice_to. apply prefix_take.
  - split; [exact Hbits|]. rewrite Hf5. cbn. apply prefix_nil.
Qed.

End E91Laws.

(** The six-pair run of [e91_long_tape], its draws in hundredths. *)
Definition e91_six_pair_tape : list nat :=
  ([50; 50; 50; 50; 50; 50]
   ++ [1; 10; 10; 10] ++ [1; 10; 10; 10] ++ [1; 40; 10; 10; 10] ++ [1; 40; 10; 10; 10]
   ++ [1; 40; 10; 10; 10] ++ [1; 40; 10; 10; 10]
   ++ [1; 10; 10; 10; 10] ++ [1; 70; 10; 10; 10] ++ [1; 10; 10; 10; 10]
   ++ [1; 70; 10; 60; 10] ++ [1; 40; 10; 10] ++ [1; 40; 10; 10]
   ++ [0; 0; 0; 0])%nat.


(** Four coincidences at the CHSH angles, with equal results but at
    [(0, 135)]. *)
Definition four_bell_pairs : list (E91.Measurement * E91.Measurement) :=
  [(E91.mkMeasurement 0 0 0 true, E91.mkMeasurement 45 0 0 true);
   (E91.mkMeasurement 0 0 0 true, E91.mkMeasurement 135 1 0 true);
   (E91.mkMeasurement 45 0 0 true, E91.mkMeasurement 45 0 0 true);
   (E91.mkMeasurement 45 0 0 true, E91.mkMeasurement 135 0 0 true)].

Lemma e91_six_pair_run :
  exists r self' g',
    E91.run_protocol (E91.__init__ e91_six_pairs e91_bench) e91_six_pair_tape
    = Ok (r, self', g')
    /\ E91.success r = true.
Proof. evaluate_run. Qed.


Lemma chsh_formula_witness :
  (4 <= length four_bell_pairs)%nat
  /\ E91.bell_test (E91.__init__ e91_six_pairs e91_bench) four_bell_pairs
     = (E91Pipeline.chsh_parameter four_bell_pairs,
        E91.set_bell_parameter (E91Pipeline.chsh_parameter four_bell_pairs)
          (E91.__init__ e91_six_pairs e91_bench)).
Proof.
  assert (Hlen : (4 <= length four_bell_pairs)%nat) by (simpl; lia).
  split; [exact Hlen|]. exact (bell_test_computes_the_chsh_formula _ _ Hlen).
Defined.

Lemma e91_security_metrics_witness :
  exists m,
    E91.security_analysis (E91.set_sifted_key [0%Z; 0%Z]
                             (E91.__init__ e91_six_pairs e91_bench)) 4 0 = Ok m
    /\ 0 <= E91.secure_key_rate_bps m <= E91.raw_key_rate_bps m.
Proof.
  assert (Hm : exists m,
             E91.security_analysis (E91.set_sifted_key [0%Z; 0%Z]
                                      (E91.__init__ e91_six_pairs e91_bench)) 4 0 = Ok m)
    by (vm_compute; eexists; reflexivity).
  destruct Hm as [m Hm]. exists m. split; [exact Hm|].
  assert (Hdur : 0 < E91.duration_seconds e91_six_pairs) by reflexivity.
  assert (Hec : 0 <= E91.error_correction_efficiency e91_six_pairs) by discriminate.
  exact (proj1 (e91_security_metrics
                  (E91.set_sifted_key [0%Z; 0%Z] (E91.__init__ e91_six_pairs e91_bench))
                  4 0 m Hdur Hec table_log2_unit Hm)).
Defined.


Lemma e91_result_keys_witness :
  exists r self' g',
    E91.run_protocol (E91.__init__ e91_six_pairs e91_bench) e91_six_pair_tape
    = Ok (r, self', g')
    /\ E91.final_key_bits r = Some (len (E91.final_key self')).
Proof.
  destruct e91_six_pair_run as (r & s & g' & Hrun & Hsucc).
  exists r, s, g'. split; [exact Hrun|].
  pose proof (e91_result_keys _ _ _ _ _ Hrun) as Hk. rewrite Hsucc in Hk. apply Hk.
Defined.


Lemma measurements_witness :
  exists pairs g alice_ms bob_ms self1 self2 g1 g2,
    E91.alice_measure (E91.__init__ e91_six_pairs e91_bench) pairs g
    = Ok (alice_ms, self1, g1)
    /\ E91.bob_measure self1 pairs g1 = Ok (bob_ms, self2, g2)
    /\ Forall2 (E91Pipeline.measures [0; 45; 90]%Z) pairs alice_ms
    /\ Forall2 (E91Pipeline.measures [45; 90; 135]%Z) pairs bob_ms.
Proof.
  destruct e91_six_pair_run as (r & s & g' & Hrun & _).
  destruct (E91Pipeline.e91_run_protocol_cases _ _ _ _ _ Hrun)
    as (pairs & g1 & am & s1 & g2 & bm & s2 & g3 & _ & Ha & Hb & _).
  exists pairs, g1, am, bm, s1, s2, g2, g3. split; [exact Ha|]. split; [exact Hb|].
  destruct (measurements_are_stamped_bits _ _ _ _ _ _ _ _ _ Ha Hb) as (H1 & H2 & _).
  split; assumption.
Defined.


Lemma e91_keys_witness :
  exists r self' g',
    E91.run_protocol (E91.__init__ e91_six_pairs e91_bench) e91_six_pair_tape
    = Ok (r, self', g')
    /\ Forall (fun b => b = 0%Z \/ b = 1%Z) (E91.sifted_key self').
Proof.
  destruct e91_six_pair_run as (r & s & g' & Hrun & _).
  exists r, s, g'. split; [exact Hrun|].
  exact (proj1 (e91_keys_are_bits _ _ _ _ _ _ Hrun)).
Defined.



(** ** Properties of the callers *)

Section Callers.
Context {G : Type} `{PyRandom G} `{PyMath}.



(** The [main] functions of bb84.py and e91.py return from every generator
    state: their parameters configure 100000 pulses and 10000 pairs, and
    the reports read only keys that the returned dictionary has. *)
Theorem demonstrations_return (g : G) :
  (exists g', BB84Demo.main g = inr g') /\ (exists g', E91Demo.main g = inr g').
Proof.
  split.
  - unfold BB84Demo.main.
    destruct (BB84Facts.bb84_run_protocol_total
                (BB84.mkParams 1e6 0.1 0.5 0.5 0.2 0.1 1.2 2 0.11)
                (BB84.mkChannel 0.2 50 0.001 0.8 1e-6 100) g) as [Hpos _].
    destruct (Hpos ltac:(reflexivity)) as (r & s & g' & Hrun). rewrite Hrun.
    destruct (BB84Pipeline.bb84_run_protocol_shape _ _ _ _ _ Hrun)
      as [->|[(q & t & m & ->)|(n & m & e & ->)]]; cbn; eexists; reflexivity.
  - unfold E91Demo.main.
    destruct (E91Facts.e91_run_protocol_total
                (E91.mkParams 1e5 0.1 0.8 1e-6 0.2 1 2 1.2 2)
                (E91.mkChannel 0.2 25 25 0.001 100) g) as [Hpos _].
    destruct (Hpos ltac:(reflexivity) ltac:(discriminate) ltac:(discriminate))
      as (r & s & g' & Hrun). rewrite Hrun.
    destruct (E91Pipeline.e91_run_protocol_shape _ _ _ _ _ Hrun)
      as [->|[->|[(m & chsh & ->)|(n & m & chsh & e & ->)]]]; cbn; eexists; reflexivity.
Qed.

End Callers.



